(** * Slingshot dashboard: the client-side reconciliation store

    A shallow embedding of the state-synchronisation code of the
    dashboard: the response interceptor and the kill-switch / critical-status
    calls of [src/services/api.js] (and [src/services/apiAuth.js]), and the
    event handlers and snapshot loaders of [src/components/Dashboard.jsx].

    React state is modelled by explicit state passing: every [setX(updater)]
    call of the source is a function from the previous slice to the next one,
    and an [async] function is cut at its [await]: the outcome of the awaited
    call is an argument of the continuation. *)

From Stdlib Require Import ZArith Lia Ascii String.
From stdpp Require Import gmap strings list pretty.

Set Warnings "-register-all".

Local Open Scope string_scope.

(** ** JavaScript values *)

Module JS.

(** JSON values, as they arrive from [axios] and [socket.io].  An object
    keeps its properties in insertion order (the order [JSON.stringify]
    prints them in).  Numbers are modelled as integers: the doubles of
    JavaScript are outside this embedding. *)
Inductive json : Type :=
  | JNull
  | JBool (b : bool)
  | JNum (n : Z)
  | JStr (s : string)
  | JArr (items : list json)
  | JObj (props : list (string * json)).

(** A JavaScript value: [None] is [undefined]. *)
Definition jsv : Type := option json.

Definition undefined : jsv := None.

(** A record-like object: property names to values, in insertion order. *)
Definition obj : Type := list (string * json).

(** ToBoolean. *)
Definition truthy (v : jsv) : bool :=
  match v with
  | None => false
  | Some JNull => false
  | Some (JBool b) => b
  | Some (JNum n) => negb (Z.eqb n 0)
  | Some (JStr s) => negb (String.eqb s EmptyString)
  | Some (JArr _) => true
  | Some (JObj _) => true
  end.

(** [a || b]. *)
Definition js_or (a b : jsv) : jsv := if truthy a then a else b.

(** [o.k] on a record: the last binding wins in an object literal, but a
    parsed object has no duplicate names, so the first match is the value. *)
Fixpoint lookup_prop (k : string) (o : obj) : jsv :=
  match o with
  | [] => None
  | (k', v) :: rest => if String.eqb k k' then Some v else lookup_prop k rest
  end.

(** [v.k] for the property names the modelled code reads (none of them is
    [length] or an index): [None] is the TypeError raised on [undefined] and
    [null]; on the other primitives and on arrays the read gives
    [undefined]. *)
Definition get_prop (v : jsv) (k : string) : option jsv :=
  match v with
  | None => None
  | Some JNull => None
  | Some (JObj o) => Some (lookup_prop k o)
  | Some _ => Some undefined
  end.

(** [v?.k]. *)
Definition get_prop_opt (v : jsv) (k : string) : jsv :=
  match get_prop v k with
  | Some r => r
  | None => undefined
  end.

(** An object literal [{k1: v1, ...}].  A property holding [undefined]
    reads like an absent one and is skipped by [JSON.stringify]; the model
    leaves it out. *)
Fixpoint object_literal (fields : list (string * jsv)) : obj :=
  match fields with
  | [] => []
  | (k, Some v) :: rest => (k, v) :: object_literal rest
  | (_, None) :: rest => object_literal rest
  end.

Definition is_primitive (v : jsv) : bool :=
  match v with
  | Some (JArr _) | Some (JObj _) => false
  | _ => true
  end.

(** Equality of primitive values. *)
Definition prim_eqb (a b : jsv) : bool :=
  match a, b with
  | None, None => true
  | Some JNull, Some JNull => true
  | Some (JBool x), Some (JBool y) => Bool.eqb x y
  | Some (JNum x), Some (JNum y) => Z.eqb x y
  | Some (JStr x), Some (JStr y) => String.eqb x y
  | _, _ => false
  end.

(** [a === b] where at least one side is a primitive (an id, a status
    code, a literal): two primitives are compared by value, and an object is
    never equal to a primitive. *)
Definition strict_eq (a b : jsv) : bool := prim_eqb a b.

(** *** ToString *)

Fixpoint join_with (sep : string) (parts : list string) : string :=
  match parts with
  | [] => EmptyString
  | [p] => p
  | p :: rest => p +:+ sep +:+ join_with sep rest
  end.

(** [String(v)] on a JSON value; inside an array, [null] prints as the
    empty string. *)
Fixpoint to_string (v : json) : string :=
  match v with
  | JNull => "null"
  | JBool true => "true"
  | JBool false => "false"
  | JNum n => pretty n
  | JStr s => s
  | JArr items =>
      join_with ","
        (map (fun x => match x with JNull => EmptyString | _ => to_string x end)
           items)
  | JObj _ => "[object Object]"
  end.

(** [String(v)], also the conversion a template literal applies. *)
Definition ToString (v : jsv) : string :=
  match v with
  | None => "undefined"
  | Some j => to_string j
  end.

(** *** JSON.stringify *)

Definition hex_digit (n : N) : ascii :=
  match n with
  | 0 => "0" | 1 => "1" | 2 => "2" | 3 => "3" | 4 => "4" | 5 => "5"
  | 6 => "6" | 7 => "7" | 8 => "8" | 9 => "9" | 10 => "a" | 11 => "b"
  | 12 => "c" | 13 => "d" | 14 => "e" | _ => "f"
  end%N%char.

Definition dquote : ascii := ascii_of_N 34.
Definition backslash : ascii := ascii_of_N 92.

Definition str1 (c : ascii) : string := String c EmptyString.
Definition str2 (c d : ascii) : string := String c (str1 d).

(** The escape of one character inside a JSON string. *)
Definition escape_char (c : ascii) : string :=
  let n := N_of_ascii c in
  if (n =? 34)%N then str2 backslash dquote
  else if (n =? 92)%N then str2 backslash backslash
  else if (n =? 8)%N then str2 backslash "b"
  else if (n =? 9)%N then str2 backslash "t"
  else if (n =? 10)%N then str2 backslash "n"
  else if (n =? 12)%N then str2 backslash "f"
  else if (n =? 13)%N then str2 backslash "r"
  else if (n <? 32)%N then
    String backslash ("u00" +:+ str2 (hex_digit (n / 16)) (hex_digit (n mod 16)))
  else str1 c.

Fixpoint escape (s : string) : string :=
  match s with
  | EmptyString => EmptyString
  | String c rest => escape_char c +:+ escape rest
  end.

Definition quote (s : string) : string :=
  String dquote (escape s +:+ str1 dquote).

(** [JSON.stringify] on a JSON value (no indentation). *)
Fixpoint stringify (v : json) : string :=
  match v with
  | JNull => "null"
  | JBool true => "true"
  | JBool false => "false"
  | JNum n => pretty n
  | JStr s => quote s
  | JArr items => "[" +:+ join_with "," (map stringify items) +:+ "]"
  | JObj props =>
      "{" +:+
      join_with "," (map (fun kv => quote kv.1 +:+ ":" +:+ stringify kv.2) props)
      +:+ "}"
  end.

(** [JSON.stringify(v)]: [undefined] gives [undefined], not a string. *)
Definition JSON_stringify (v : jsv) : option string := stringify <$> v.

(** The first character of a string, and the characters a printed number
    can start with. *)
Definition first_char (s : string) : option ascii :=
  match s with
  | String c _ => Some c
  | EmptyString => None
  end.

Definition digit_or_dash (c : ascii) : bool :=
  let n := N_of_ascii c in
  ((48 <=? n)%N && (n <=? 57)%N) || (n =? 45)%N.

(** A value together with the identity of the object that holds it: two
    parsed payloads are different objects even when their contents agree. *)
Record located : Type := Located { loc : nat; val : jsv }.

(** [Object.is(a, b)], the test React applies to the value an updater
    returns: primitives by value, objects by identity. *)
Definition Object_is (a b : located) : bool :=
  if is_primitive (val a) then prim_eqb (val a) (val b)
  else negb (is_primitive (val b)) && Nat.eqb (loc a) (loc b).

End JS.

(** ** The backend client: [src/services/api.js], [src/services/apiAuth.js] *)

Module Api.
Import JS.

(** The [response] member of an axios error: the HTTP status code and the
    parsed body. *)
Record axios_response : Type :=
  AxiosResponse { status : jsv; data : jsv }.

(** An error object, with the properties the code reads or assigns:
    [message], [status], [response] and [originalError]. *)
Inductive js_error : Type :=
  | JsError (message : jsv) (status : jsv)
            (response : option axios_response)
            (originalError : option js_error).

Definition message (e : js_error) : jsv :=
  match e with JsError m _ _ _ => m end.
Definition error_status (e : js_error) : jsv :=
  match e with JsError _ s _ _ => s end.
Definition response (e : js_error) : option axios_response :=
  match e with JsError _ _ r _ => r end.
Definition originalError (e : js_error) : option js_error :=
  match e with JsError _ _ _ o => o end.

(** [new Error(msg)]. *)
Definition new_Error (msg : string) : js_error :=
  JsError (Some (JStr msg)) undefined None None.

(** The TypeError of a property read on [undefined] or [null] (the
    wording of V8). *)
Definition TypeError_read (v : jsv) (k : string) : js_error :=
  new_Error ("Cannot read properties of " +:+ ToString v +:+
             " (reading '" +:+ k +:+ "')").

(** A settled promise. *)
Inductive settled (A : Type) : Type :=
  | Fulfilled (value : A)
  | Rejected (reason : js_error).
Arguments Fulfilled {A} value.
Arguments Rejected {A} reason.

(** What the page keeps outside React: [localStorage], and whether
    [window.location.reload()] has been called. *)
Record browser : Type :=
  Browser { localStorage : gmap string string; reloaded : bool }.

Definition TOKEN_KEY : string := "dashboardToken".

(** [authUtils.clearToken()]. *)
Definition clearToken (b : browser) : browser :=
  Browser (delete TOKEN_KEY (localStorage b)) (reloaded b).

(** [authUtils.handleUnauthorized()]: clear the token, reload the page. *)
Definition handleUnauthorized (b : browser) : browser :=
  Browser (localStorage (clearToken b)) true.

(** [error.response?.status]. *)
Definition response_status (error : js_error) : jsv :=
  match response error with
  | Some r => status r
  | None => undefined
  end.

(** [error.response?.data?.error]. *)
Definition response_data_error (error : js_error) : jsv :=
  match response error with
  | Some r => get_prop_opt (data r) "error"
  | None => undefined
  end.

(** [error.response?.data?.error || error.message || 'Network error']. *)
Definition errorMessage (error : js_error) : jsv :=
  js_or (response_data_error error)
        (js_or (message error) (Some (JStr "Network error"))).

(** The error branch of the response interceptor, parameterised by what
    the 401 branch does to the browser before it rejects. *)
Definition response_rejected (on401 : browser -> browser)
    (error : js_error) (b : browser) : js_error * browser :=
  if strict_eq (response_status error) (Some (JNum 401)) then
    (new_Error "Authentication required", on401 b)
  else
    (JsError (Some (JStr (ToString (errorMessage error))))
             (response_status error) None (Some error),
     b).

(** [api.js]: [localStorage.removeItem('dashboardToken');
    window.location.reload()]. *)
Definition on401_api (b : browser) : browser :=
  Browser (delete "dashboardToken" (localStorage b)) true.

Definition interceptor_api := response_rejected on401_api.

(** [apiAuth.js]: [authUtils.handleUnauthorized()]. *)
Definition interceptor_apiAuth := response_rejected handleUnauthorized.

(** A call through [apiClient]: the success branch of the interceptor
    unwraps the body, the error branch normalises the error. *)
Definition apiClient_call (transport : settled axios_response) (b : browser)
  : settled jsv * browser :=
  match transport with
  | Fulfilled r => (Fulfilled (data r), b)
  | Rejected error =>
      let '(e, b') := interceptor_api error b in (Rejected e, b')
  end.

(** [api.getAccountSummary]: the bare call. *)
Definition getAccountSummary := apiClient_call.

(** The object [api.setKillSwitch] resolves to. *)
Record kill_switch_result : Type :=
  KillSwitchResult { tradingEnabled : bool; ks_status : jsv; ks_message : jsv }.

(** [api.setKillSwitch(enabled)], given how the POST settles.  Reading
    [response.status] on an empty body raises inside the [try]. *)
Definition setKillSwitch (enabled : bool)
    (transport : settled axios_response) (b : browser)
  : settled kill_switch_result * browser :=
  let wrap (error : js_error) : settled kill_switch_result :=
    Rejected (new_Error ("Failed to " +:+
                         (if enabled then "enable" else "disable") +:+
                         " trading: " +:+ ToString (message error))) in
  match apiClient_call transport b with
  | (Fulfilled body, b') =>
      match get_prop body "status" with
      | Some st => (Fulfilled (KillSwitchResult enabled st st), b')
      | None => (wrap (TypeError_read body "status"), b')
      end
  | (Rejected error, b') => (wrap error, b')
  end.

(** [api.setMarginSettings]: echoes its argument, no request is made. *)
Definition setMarginSettings (marginSettings : jsv) : settled jsv :=
  Fulfilled marginSettings.

(** [...(v || [])]: the elements spread into an array literal; [None] is
    the TypeError of spreading a value that is not iterable.  A string
    spreads into its characters. *)
Definition spread_or_empty (v : jsv) : option (list json) :=
  if truthy v then
    match v with
    | Some (JArr items) => Some items
    | Some (JStr s) =>
        Some (map (fun c => JStr (str1 c)) (list_ascii_of_string s))
    | _ => None
    end
  else Some [].

(** The value [getCriticalStatus] returns from its [catch]. *)
Definition critical_status_placeholder (now : string) : json :=
  JObj (object_literal
    [ ("status", Some (JStr "error"));
      ("issues", Some (JArr [JStr "Failed to load trading data"]));
      ("openPositions", Some (JArr []));
      ("openOrders", Some (JArr []));
      ("lastUpdate", Some (JStr now)) ]).

(** The body of the [try] of [getCriticalStatus]; [None] is an exception
    raised inside it. *)
Definition critical_status_of (tradingStatus services : jsv) (now : string)
  : option json :=
  svc ← match services with Some (JArr items) => Some items | _ => None end;
  withStatus ← mapM (fun s => st ← get_prop (Some s) "status"; Some (s, st)) svc;
  let downServices :=
    filter (fun p => negb (strict_eq p.2 (Some (JStr "running"))) = true)
           withStatus in
  positions ← get_prop tradingStatus "positions";
  let openPositions := js_or positions (Some (JArr [])) in
  pending ← spread_or_empty (get_prop_opt tradingStatus "pendingEntryOrders");
  stops ← spread_or_empty (get_prop_opt tradingStatus "stopOrders");
  targets ← spread_or_empty (get_prop_opt tradingStatus "targetOrders");
  let openOrders := (pending ++ stops ++ targets)%list in
  Some (JObj (object_literal
    [ ("status", Some (JStr (if Nat.eqb (length downServices) 0
                             then "healthy" else "critical")));
      ("issues", Some (JArr (map (fun p =>
           JStr (ToString (get_prop_opt (Some p.1) "name") +:+ " is " +:+
                 ToString p.2)) downServices)));
      ("openPositions", openPositions);
      ("openOrders", Some (JArr openOrders));
      ("lastUpdate", js_or (get_prop_opt tradingStatus "lastUpdate")
                           (Some (JStr now)));
      ("services", services);
      ("tradingEnabled", get_prop_opt tradingStatus "tradingEnabled");
      ("stats", get_prop_opt tradingStatus "stats") ])).

(** [api.getCriticalStatus()]: it never rejects.  [active] settles the
    request for [/api/trading/active-status], [svc] the one for
    [/api/services], which is sent only when the first one succeeded;
    [now] is [new Date().toISOString()]. *)
Definition getCriticalStatus (active svc : settled axios_response)
    (now : string) (b : browser) : json * browser :=
  match apiClient_call active b with
  | (Rejected _, b1) => (critical_status_placeholder now, b1)
  | (Fulfilled tradingStatus, b1) =>
      match apiClient_call svc b1 with
      | (Rejected _, b2) => (critical_status_placeholder now, b2)
      | (Fulfilled services, b2) =>
          match critical_status_of tradingStatus services now with
          | Some r => (r, b2)
          | None => (critical_status_placeholder now, b2)
          end
      end
  end.

End Api.

(** ** The reconciliation store: [src/components/Dashboard.jsx] *)

Module Dashboard.
Import JS.

(** The React state slices the store is made of, with the types the
    backend contract gives them: collections are arrays of records. *)
Record state : Type := State {
  accountSummary : jsv;
  positions : list obj;
  orders : list obj;
  criticalStatus : located;
  criticalStatusError : jsv;
  quotes : gmap string obj;
  relayLogs : list obj;
  tradingEnabled : bool;
  marginSettings : jsv
}.

(** The [useState] initial values. *)
Definition initial_state : state :=
  {| accountSummary := Some JNull;
     positions := [];
     orders := [];
     criticalStatus := Located 0 (Some JNull);
     criticalStatusError := Some JNull;
     quotes := ∅;
     relayLogs := [];
     tradingEnabled := false;
     marginSettings := Some (JObj []) |}.

Definition setAccountSummary (v : jsv) (s : state) : state :=
  State v (positions s) (orders s) (criticalStatus s) (criticalStatusError s)
        (quotes s) (relayLogs s) (tradingEnabled s) (marginSettings s).
Definition setPositions (v : list obj) (s : state) : state :=
  State (accountSummary s) v (orders s) (criticalStatus s)
        (criticalStatusError s) (quotes s) (relayLogs s) (tradingEnabled s)
        (marginSettings s).
Definition setOrders (v : list obj) (s : state) : state :=
  State (accountSummary s) (positions s) v (criticalStatus s)
        (criticalStatusError s) (quotes s) (relayLogs s) (tradingEnabled s)
        (marginSettings s).
Definition setCriticalStatus (v : located) (s : state) : state :=
  State (accountSummary s) (positions s) (orders s) v (criticalStatusError s)
        (quotes s) (relayLogs s) (tradingEnabled s) (marginSettings s).
Definition setCriticalStatusError (v : jsv) (s : state) : state :=
  State (accountSummary s) (positions s) (orders s) (criticalStatus s) v
        (quotes s) (relayLogs s) (tradingEnabled s) (marginSettings s).
Definition setQuotes (v : gmap string obj) (s : state) : state :=
  State (accountSummary s) (positions s) (orders s) (criticalStatus s)
        (criticalStatusError s) v (relayLogs s) (tradingEnabled s)
        (marginSettings s).
Definition setRelayLogs (v : list obj) (s : state) : state :=
  State (accountSummary s) (positions s) (orders s) (criticalStatus s)
        (criticalStatusError s) (quotes s) v (tradingEnabled s)
        (marginSettings s).
Definition setTradingEnabled (v : bool) (s : state) : state :=
  State (accountSummary s) (positions s) (orders s) (criticalStatus s)
        (criticalStatusError s) (quotes s) (relayLogs s) v (marginSettings s).
Definition setMarginSettings (v : jsv) (s : state) : state :=
  State (accountSummary s) (positions s) (orders s) (criticalStatus s)
        (criticalStatusError s) (quotes s) (relayLogs s) (tradingEnabled s) v.

(** *** Array helpers *)

(** [l.slice(0, n)]. *)
Definition slice_to (n : nat) (l : list obj) : list obj := take n l.

(** [l.slice(-n)]. *)
Definition slice_last (n : nat) (l : list obj) : list obj :=
  drop (length l - n) l.

(** [x || []] on an optional array ([[]] itself is truthy). *)
Definition or_empty (x : option (list obj)) : list obj :=
  match x with
  | Some l => l
  | None => []
  end.

(** One property written by an object spread: an existing name keeps its
    place and takes the new value, a new name goes last (names that look
    like array indices, which JavaScript enumerates first, are not expected
    in these records). *)
Fixpoint assign (k : string) (v : json) (o : obj) : obj :=
  match o with
  | [] => [(k, v)]
  | (k', v') :: rest =>
      if String.eqb k k' then (k, v) :: rest else (k', v') :: assign k v rest
  end.

(** The own enumerable properties [{...v}] copies. *)
Definition own_props (v : jsv) : obj :=
  match v with
  | Some (JObj o) => o
  | Some (JArr items) => imap (fun i x => (pretty i, x)) items
  | Some (JStr s) =>
      imap (fun i c => (pretty i, JStr (str1 c))) (list_ascii_of_string s)
  | _ => []
  end.

(** [{...base, ...v}]. *)
Definition spread (base : obj) (v : jsv) : obj :=
  fold_left (fun acc kv => assign kv.1 kv.2 acc) (own_props v) base.

(** *** The activity log *)

Definition log_entry (timestamp type data : jsv) : obj :=
  object_literal [("timestamp", timestamp); ("type", type); ("data", data)].

(** [[...prev, entry].slice(0, 100)]. *)
Definition append_slice_to_100 (entry : obj) (prev : list obj) : list obj :=
  slice_to 100 (prev ++ [entry]).

(** [[...prev.slice(-49), entry]]. *)
Definition append_after_last_49 (entry : obj) (prev : list obj) : list obj :=
  slice_last 49 prev ++ [entry].

Definition kill_switch_text (enabled : bool) : string :=
  if enabled then "🟢 Trading ENABLED"
  else "🔴 Trading DISABLED (Kill Switch Active)".

(** The [map] of [handleInitialActivity], [handleFilteredActivity] and
    [handleInitialState]. *)
Definition formattedLogs (activities : list obj) : list obj :=
  map (fun activity =>
         log_entry (lookup_prop "timestamp" activity)
                   (lookup_prop "type" activity)
                   (js_or (lookup_prop "message" activity)
                          (lookup_prop "data" activity)))
      activities.

(** The events that write [relayLogs], each with the payload its handler
    reads.  [now] stands for [new Date().toISOString()].  The display text
    [handleWebhookReceived] formats from the payload (it upper-cases the
    action) is passed in next to the payload. *)
Inductive log_event : Type :=
  | KillSwitchToggled (newState : bool) (now : string)
  | PositionSizingUpdated (newSettings : obj) (now : string)
  | MarginUpdated (now : string)
  | RelayOutput (data : obj)
  | WebhookReceived (data : obj) (displayText : string)
  | WebhookError (data : obj)
  | InitialActivity (activities : list obj)
  | FilteredActivity (activities : list obj)
  | InitialStateActivity (activity : list obj)
  | KillSwitchChanged (enabled : bool) (timestamp : jsv)
  | WebhookBlocked (data : obj) (signal : obj)
  | DataCollectorInitialized (data : obj)
  | PollingModeChanged (data : obj)
  | RateLimitWarning (data : obj)
  | ReSyncCompleted (now : string)
  | ReSyncFailed (error : Api.js_error) (now : string).

(** The [setRelayLogs] call of each handler, as a function of the
    previous log. *)
Definition log_update (e : log_event) (prev : list obj) : list obj :=
  match e with
  | KillSwitchToggled newState now =>
      append_slice_to_100
        (log_entry (Some (JStr now)) (Some (JStr "kill_switch"))
                   (Some (JStr (kill_switch_text newState)))) prev
  | PositionSizingUpdated newSettings now =>
      append_slice_to_100
        (log_entry (Some (JStr now)) (Some (JStr "position_sizing"))
           (Some (JStr ("⚙️ Position sizing updated: " +:+
                        ToString (lookup_prop "method" newSettings) +:+
                        " method")))) prev
  | MarginUpdated now =>
      slice_to 100
        [log_entry (Some (JStr now)) (Some (JStr "margin_settings"))
                   (Some (JStr "💰 Margin requirements updated"))]
  | RelayOutput data =>
      append_after_last_49
        (log_entry (lookup_prop "timestamp" data) (lookup_prop "type" data)
                   (lookup_prop "data" data)) prev
  | WebhookReceived data displayText =>
      let result := lookup_prop "result" data in
      let contractSelection := get_prop_opt result "contractSelection" in
      let isBlocked := js_or (get_prop_opt result "blocked")
                             (get_prop_opt result "killSwitchActive") in
      append_after_last_49
        (object_literal
           [ ("timestamp", lookup_prop "timestamp" data);
             ("type", Some (JStr "webhook"));
             ("data", Some (JStr displayText));
             ("rawData", lookup_prop "rawData" data);
             ("result", result);
             ("contractSelection", contractSelection);
             ("blocked", isBlocked) ]) prev
  | WebhookError data =>
      append_after_last_49
        (log_entry (lookup_prop "timestamp" data) (Some (JStr "stderr"))
           (Some (JStr ("❌ Webhook Error: " +:+
                        ToString (lookup_prop "error" data))))) prev
  | InitialActivity activities =>
      slice_to 100 (formattedLogs activities ++ prev)
  | FilteredActivity activities => slice_to 100 (formattedLogs activities)
  | InitialStateActivity activity => slice_last 100 (formattedLogs activity)
  | KillSwitchChanged enabled timestamp =>
      append_slice_to_100
        (log_entry timestamp (Some (JStr "kill_switch"))
                   (Some (JStr (kill_switch_text enabled)))) prev
  | WebhookBlocked data signal =>
      append_slice_to_100
        (object_literal
           [ ("timestamp", lookup_prop "timestamp" data);
             ("type", Some (JStr "webhook"));
             ("data", Some (JStr (
                "🚫 BLOCKED: " +:+ ToString (lookup_prop "action" signal) +:+
                " " +:+ ToString (lookup_prop "quantity" signal) +:+
                " " +:+ ToString (lookup_prop "symbol" signal) +:+
                " (" +:+ ToString (lookup_prop "reason" data) +:+ ")")));
             ("rawData", lookup_prop "rawData" data);
             ("result", Some (JObj (object_literal
                [ ("blocked", Some (JBool true));
                  ("reason", lookup_prop "reason" data) ]))) ]) prev
  | DataCollectorInitialized data =>
      append_slice_to_100
        (log_entry (lookup_prop "timestamp" data) (Some (JStr "system"))
           (Some (JStr ("📊 Data collector started with " +:+
                        ToString (lookup_prop "accountsCount" data) +:+
                        " accounts")))) prev
  | PollingModeChanged data =>
      append_slice_to_100
        (log_entry (lookup_prop "timestamp" data) (Some (JStr "system"))
           (Some (JStr (
              "🔄 Polling mode changed for account " +:+
              ToString (lookup_prop "accountId" data) +:+ ": " +:+
              ToString (js_or (lookup_prop "oldMode" data)
                              (lookup_prop "mode" data)) +:+ " → " +:+
              ToString (js_or (lookup_prop "newMode" data)
                              (lookup_prop "mode" data)) +:+
              " (" +:+ ToString (lookup_prop "reason" data) +:+ ")")))) prev
  | RateLimitWarning data =>
      append_slice_to_100
        (log_entry (lookup_prop "timestamp" data) (Some (JStr "system"))
           (Some (JStr ("⚠️ Rate limit protection activated for account " +:+
                        ToString (lookup_prop "accountId" data))))) prev
  | ReSyncCompleted now =>
      append_slice_to_100
        (log_entry (Some (JStr now)) (Some (JStr "system"))
           (Some (JStr
              "🔄 Re-sync completed - fresh data loaded from Tradovate"))) prev
  | ReSyncFailed error now =>
      append_slice_to_100
        (log_entry (Some (JStr now)) (Some (JStr "stderr"))
           (Some (JStr ("❌ Re-sync failed: " +:+
                        ToString (Api.message error))))) prev
  end.

(** The handlers whose [setRelayLogs] argument does not mention the
    previous log. *)
Definition replaces_log (e : log_event) : bool :=
  match e with
  | MarginUpdated _ | FilteredActivity _ | InitialStateActivity _ => true
  | _ => false
  end.

(** The number of entries an event brings. *)
Definition incoming (e : log_event) : nat :=
  match e with
  | InitialActivity a | FilteredActivity a | InitialStateActivity a => length a
  | _ => 1
  end.

(** The log after a burst of events, processed in order. *)
Definition log_run (es : list log_event) (prev : list obj) : list obj :=
  fold_left (fun l e => log_update e l) es prev.

(** *** Kill switch *)

(** [handleKillSwitchToggle] up to its [await]: the requested state, read
    from the flag the handler closed over, or [None] when the user declines
    the confirmation that enabling asks for. *)
Definition handleKillSwitchToggle_request (confirm : bool) (s : state)
  : option bool :=
  let newState := negb (tradingEnabled s) in
  if newState then (if confirm then Some newState else None)
  else Some newState.

(** [handleKillSwitchToggle] after its [await]. *)
Definition handleKillSwitchToggle_settled (newState : bool)
    (r : Api.settled Api.kill_switch_result) (now : string) (s : state)
  : state :=
  match r with
  | Api.Fulfilled response =>
      setRelayLogs
        (log_update (KillSwitchToggled newState now) (relayLogs s))
        (setTradingEnabled (Api.tradingEnabled response) s)
  | Api.Rejected _ => s
  end.

(** The [kill_switch_changed] push event. *)
Definition handleKillSwitchChanged (enabled : bool) (timestamp : jsv)
    (s : state) : state :=
  setRelayLogs
    (log_update (KillSwitchChanged enabled timestamp) (relayLogs s))
    (setTradingEnabled enabled s).

(** The kill switch seen as a small machine: the store, the browser, and
    the toggle request in flight, if any. *)
Record ks_machine : Type :=
  KsMachine { store : state; page : Api.browser; in_flight : option bool }.

Inductive ks_event : Type :=
  | ToggleClicked (confirm : bool)
  | ToggleSettled (transport : Api.settled Api.axios_response) (now : string)
  | KillSwitchPush (enabled : bool) (timestamp : jsv).

Definition ks_step (m : ks_machine) (e : ks_event) : ks_machine :=
  match e with
  | ToggleClicked confirm =>
      match handleKillSwitchToggle_request confirm (store m) with
      | Some newState => KsMachine (store m) (page m) (Some newState)
      | None => m
      end
  | ToggleSettled transport now =>
      match in_flight m with
      | Some newState =>
          let '(r, b) := Api.setKillSwitch newState transport (page m) in
          KsMachine (handleKillSwitchToggle_settled newState r now (store m))
                    b None
      | None => m
      end
  | KillSwitchPush enabled timestamp =>
      KsMachine (handleKillSwitchChanged enabled timestamp (store m))
                (page m) (in_flight m)
  end.

Definition ks_run (es : list ks_event) (m : ks_machine) : ks_machine :=
  fold_left ks_step es m.

(** *** Margin settings *)

(** [handleMarginUpdate(newMarginSettings)]: reading
    [response.marginSettings] raises on an empty response, and the [catch]
    then leaves the store alone. *)
Definition handleMarginUpdate (newMarginSettings : jsv) (now : string)
    (s : state) : state :=
  match Api.setMarginSettings newMarginSettings with
  | Api.Fulfilled response =>
      match get_prop response "marginSettings" with
      | Some ms =>
          setRelayLogs (log_update (MarginUpdated now) (relayLogs s))
                       (setMarginSettings ms s)
      | None => s
      end
  | Api.Rejected _ => s
  end.

(** *** Quotes *)

(** The [newQuote] literal of [handleMarketData]. *)
Definition newQuote (data : obj) : obj :=
  object_literal
    [ ("symbol", lookup_prop "symbol" data);
      ("baseSymbol", lookup_prop "baseSymbol" data);
      ("open", lookup_prop "open" data);
      ("high", lookup_prop "high" data);
      ("low", lookup_prop "low" data);
      ("close", lookup_prop "close" data);
      ("previousClose", lookup_prop "previousClose" data);
      ("volume", lookup_prop "volume" data);
      ("timestamp", lookup_prop "timestamp" data) ].

(** The updater [handleMarketData] passes to [setQuotes]. *)
Definition marketData_updater (data : obj) (prev : gmap string obj)
  : gmap string obj :=
  let updates := <[ToString (lookup_prop "symbol" data) := newQuote data]> prev in
  if truthy (lookup_prop "baseSymbol" data)
  then <[ToString (lookup_prop "baseSymbol" data) := newQuote data]> updates
  else updates.

Definition handleMarketData (data : obj) (s : state) : state :=
  setQuotes (marketData_updater data (quotes s)) s.

(** *** Critical status *)

(** [setCriticalStatus(updater)]: React keeps the previous state, and
    notifies nobody, when the updater returns a value [Object.is] the
    previous one.  The boolean tells whether a notification fires. *)
Definition setCriticalStatus_with (updater : located -> located) (s : state)
  : state * bool :=
  let next := updater (criticalStatus s) in
  if Object_is next (criticalStatus s) then (s, false)
  else (setCriticalStatus next s, true).

(** The updater of [handleCriticalStatusUpdate]. *)
Definition criticalStatusUpdate_updater (data prev : located) : located :=
  if decide (JSON_stringify (val data) ≠ JSON_stringify (val prev))
  then data else prev.

Definition handleCriticalStatusUpdate (data : located) (s : state)
  : state * bool :=
  setCriticalStatus_with (criticalStatusUpdate_updater data) s.

(** The updater of [loadCriticalStatus]. *)
Definition loadCriticalStatus_updater (response prev : located) : located :=
  if negb (truthy (val prev)) then response
  else if decide (JSON_stringify (val response) ≠ JSON_stringify (val prev))
       then response else prev.

(** [loadCriticalStatus] after its [await]. *)
Definition loadCriticalStatus (r : Api.settled located) (s : state)
  : state * bool :=
  match r with
  | Api.Fulfilled response =>
      setCriticalStatus_with (loadCriticalStatus_updater response) s
  | Api.Rejected error =>
      (setCriticalStatusError
         (js_or (Api.message error)
                (Some (JStr "Failed to load trading status"))) s,
       false)
  end.

(** [loadCriticalStatus] on top of [api.getCriticalStatus]: [fresh] is the
    identity of the object the call returns. *)
Definition refreshCriticalStatus
    (active svc : Api.settled Api.axios_response) (now : string)
    (fresh : nat) (b : Api.browser) (s : state) : state * bool * Api.browser :=
  let '(response, b') := Api.getCriticalStatus active svc now b in
  (loadCriticalStatus (Api.Fulfilled (Located fresh (Some response))) s, b').

(** *** Account summary, positions, orders *)

(** The placeholder [loadAccountSummary] stores on a 503. *)
Definition summary_placeholder (accountId : jsv) : json :=
  JObj (object_literal
    [ ("accountId", accountId);
      ("balance", Some (JNum 0)); ("equity", Some (JNum 0));
      ("margin", Some (JNum 0)); ("availableFunds", Some (JNum 0));
      ("dayPnL", Some (JNum 0)); ("dayPnLPercent", Some (JNum 0));
      ("totalPositions", Some (JNum 0)); ("longPositions", Some (JNum 0));
      ("shortPositions", Some (JNum 0)); ("workingOrders", Some (JNum 0));
      ("tradesExecutedToday", Some (JNum 0));
      ("cached", Some (JBool false)); ("empty", Some (JBool true));
      ("loading", Some (JBool true)) ]).

(** [loadAccountSummary] after its [await]; [r] settles
    [api.getAccountSummary(account.id)].  A TypeError raised inside the
    [try] has no [response], so the [catch] does nothing with it. *)
Definition loadAccountSummary (account : jsv) (r : Api.settled jsv)
    (s : state) : state :=
  match get_prop account "id" with
  | None => s
  | Some id =>
      match r with
      | Api.Fulfilled response =>
          match get_prop response "summary" with
          | Some summary => setAccountSummary summary s
          | None => s
          end
      | Api.Rejected error =>
          if strict_eq (Api.response_status error) (Some (JNum 503))
          then setAccountSummary (Some (summary_placeholder id)) s
          else s
      end
  end.

(** [loadAccountSummary] on top of [api.getAccountSummary]. *)
Definition refreshAccountSummary (account : jsv)
    (transport : Api.settled Api.axios_response) (b : Api.browser)
    (s : state) : state * Api.browser :=
  match get_prop account "id" with
  | None => (s, b)
  | Some _ =>
      let '(r, b') := Api.getAccountSummary transport b in
      (loadAccountSummary account r s, b')
  end.

(** The body of a collection snapshot, typed by the backend contract:
    [NoBody] is an empty body, on which the property read raises; [Body]
    carries the collection property, [None] when absent or [null]. *)
Inductive snapshot_body : Type :=
  | NoBody
  | Body (items : option (list obj)).

(** [o.limitPrice && o.orderType]. *)
Definition enriched (o : obj) : bool :=
  truthy (lookup_prop "limitPrice" o) && truthy (lookup_prop "orderType" o).

(** [prevOrders.some(o => o.limitPrice && o.orderType)]. *)
Definition some_enriched (l : list obj) : bool := existsb enriched l.

(** The updater [loadOrdersAndPositions] passes to [setOrders]. *)
Definition orders_updater (apiOrders prevOrders : list obj) : list obj :=
  if (0 <? length prevOrders)%nat && some_enriched prevOrders
  then prevOrders else apiOrders.

(** [loadOrdersAndPositions] after [Promise.allSettled]; the account id
    was read before the calls, so an absent account raises first.  A raise
    inside the [try] skips what follows it. *)
Definition loadOrdersAndPositions (account : jsv)
    (positionsResponse ordersResponse : Api.settled snapshot_body)
    (s : state) : state :=
  match get_prop account "id" with
  | None => s
  | Some _ =>
      let after_positions : option state :=
        match positionsResponse with
        | Api.Fulfilled NoBody => None
        | Api.Fulfilled (Body items) => Some (setPositions (or_empty items) s)
        | Api.Rejected _ => Some s
        end in
      match after_positions with
      | None => s
      | Some s1 =>
          match ordersResponse with
          | Api.Fulfilled NoBody => s1
          | Api.Fulfilled (Body items) =>
              setOrders (orders_updater (or_empty items) (orders s1)) s1
          | Api.Rejected _ => s1
          end
      end
  end.

(** The [account_data_updated] push event, by its [dataType]. *)
Inductive account_data : Type :=
  | BalanceData (accountId : jsv) (data : jsv)
  | PositionsData (accountId : jsv) (data : option (list obj))
  | OrdersData (accountId : jsv) (data : option (list obj))
  | OtherData (dataType accountId : jsv).

(** [handleAccountDataUpdated]; [account?.id] is [undefined] when no
    account is selected. *)
Definition handleAccountDataUpdated (account : jsv) (data : account_data)
    (s : state) : state :=
  let id := get_prop_opt account "id" in
  match data with
  | BalanceData accountId d =>
      if strict_eq accountId id then
        setAccountSummary
          (if truthy (accountSummary s)
           then Some (JObj
                  (assign "dataAge" (JNum 0)
                     (assign "cached" (JBool true)
                        (spread (own_props (accountSummary s)) d))))
           else Some JNull) s
      else s
  | PositionsData accountId d =>
      if strict_eq accountId id then setPositions (or_empty d) s else s
  | OrdersData accountId d =>
      if strict_eq accountId id then setOrders (or_empty d) s else s
  | OtherData _ _ => s
  end.

(** Snapshot refreshes and push events, in the order they are processed. *)
Inductive store_event : Type :=
  | SnapshotRefresh (positionsResponse ordersResponse : Api.settled snapshot_body)
  | PushEvent (data : account_data).

Definition store_step (account : jsv) (s : state) (e : store_event) : state :=
  match e with
  | SnapshotRefresh p o => loadOrdersAndPositions account p o s
  | PushEvent d => handleAccountDataUpdated account d s
  end.

Definition store_run (account : jsv) (es : list store_event) (s : state)
  : state :=
  fold_left (store_step account) es s.

End Dashboard.

(** ** Concrete inputs used by the examples below *)

Module Samples.
Import JS.

Definition backlog_row : obj :=
  [("timestamp", JStr "2025-01-01T00:00:00.000Z"); ("type", JStr "system");
   ("message", JStr "backlog")].

(** A log filled to its cap by one [initial_state] replay of 100 rows. *)
Definition full_log : list obj :=
  Dashboard.log_update
    (Dashboard.InitialStateActivity (replicate 100 backlog_row)) [].

Definition kill_switch_off_entry : obj :=
  Dashboard.log_entry (Some (JStr "2025-01-01T00:01:00.000Z"))
    (Some (JStr "kill_switch"))
    (Some (JStr (Dashboard.kill_switch_text false))).

(** The selected account. *)
Definition account7 : jsv := Some (JObj [("id", JNum 7); ("name", JStr "DEMO")]).

Definition position_held : obj :=
  [("id", JNum 1); ("symbol", JStr "MNQ"); ("netPos", JNum 2);
   ("entryPrice", JNum 20000)].

Definition position_pushed : obj :=
  [("id", JNum 1); ("symbol", JStr "MNQ"); ("netPos", JNum 3)].

Definition order_plain : obj :=
  [("id", JStr "A1"); ("symbol", JStr "MNQ"); ("status", JStr "Working")].

Definition order_enriched : obj :=
  [("id", JStr "A1"); ("symbol", JStr "MNQ"); ("status", JStr "Working");
   ("limitPrice", JNum 20000); ("orderType", JStr "Limit")].

Definition quote_tick : obj :=
  [("symbol", JStr "MNQ"); ("baseSymbol", JStr "MNQNov25");
   ("close", JNum 20000); ("timestamp", JStr "2025-01-01T00:00:01.000Z")].

(** The backend answers the enable request with 200 and a body. *)
Definition enable_ok : Api.settled Api.axios_response :=
  Api.Fulfilled
    (Api.AxiosResponse (Some (JNum 200))
       (Some (JObj [("status", JStr "enabled"); ("enabled", JBool true)]))).

(** The backend answers 200, but its body reports trading as disabled. *)
Definition enable_reports_disabled : Api.settled Api.axios_response :=
  Api.Fulfilled
    (Api.AxiosResponse (Some (JNum 200))
       (Some (JObj [("status", JStr "disabled"); ("enabled", JBool false)]))).

Definition logged_in : Api.browser :=
  Api.Browser {[ "dashboardToken" := "secret" ]} false.

Definition machine0 : Dashboard.ks_machine :=
  Dashboard.KsMachine Dashboard.initial_state logged_in None.

(** A 401 with a backend error text, and a 500 with one. *)
Definition error_401 : Api.js_error :=
  Api.JsError (Some (JStr "Request failed with status code 401")) undefined
    (Some (Api.AxiosResponse (Some (JNum 401))
             (Some (JObj [("error", JStr "Invalid token")])))) None.

Definition error_500 : Api.js_error :=
  Api.JsError (Some (JStr "Request failed with status code 500")) undefined
    (Some (Api.AxiosResponse (Some (JNum 500))
             (Some (JObj [("error", JStr "Service not running")])))) None.

Definition error_503 : Api.js_error :=
  Api.JsError (Some (JStr "Request failed with status code 503")) undefined
    (Some (Api.AxiosResponse (Some (JNum 503)) (Some (JStr "")))) None.

(** A timeout: no response at all. *)
Definition error_timeout : Api.js_error :=
  Api.JsError (Some (JStr "timeout of 10000ms exceeded")) undefined None None.

(** A critical status with one open position, as the store holds it. *)
Definition status_healthy : json :=
  JObj [("status", JStr "healthy"); ("issues", JArr []);
        ("openPositions", JArr [JObj position_held]);
        ("openOrders", JArr []);
        ("lastUpdate", JStr "2025-01-01T00:00:00.000Z")].

Definition store_with_status : Dashboard.state :=
  Dashboard.setCriticalStatus (Located 1 (Some status_healthy))
    Dashboard.initial_state.

End Samples.

(** ** The session store: [src/utils/auth.js], the request interceptors,
    the login form and the start-up check of [src/App.js] *)

Module Auth.
Import JS.

(** [localStorage.getItem], [setItem], [removeItem]. *)
Definition getItem (k : string) (b : Api.browser) : option string :=
  Api.localStorage b !! k.
Definition setItem (k v : string) (b : Api.browser) : Api.browser :=
  Api.Browser (<[k := v]> (Api.localStorage b)) (Api.reloaded b).
Definition removeItem (k : string) (b : Api.browser) : Api.browser :=
  Api.Browser (delete k (Api.localStorage b)) (Api.reloaded b).

(** What [getItem] hands to JavaScript: the string, or [null]. *)
Definition item_value (o : option string) : jsv :=
  match o with
  | Some s => Some (JStr s)
  | None => Some JNull
  end.

(** [authUtils.getToken()]. *)
Definition getToken (b : Api.browser) : option string :=
  getItem Api.TOKEN_KEY b.

(** [authUtils.setToken(token)]: [setItem] stores the string form. *)
Definition setToken (token : jsv) (b : Api.browser) : Api.browser :=
  if truthy token then setItem Api.TOKEN_KEY (ToString token) b
  else Api.clearToken b.

(** [authUtils.isAuthenticated()]: [!!this.getToken()]. *)
Definition isAuthenticated (b : Api.browser) : bool :=
  truthy (item_value (getToken b)).

(** [authUtils.getAuthHeaders()]. *)
Definition getAuthHeaders (b : Api.browser) : gmap string string :=
  let token := item_value (getToken b) in
  if truthy token then {[ "Authorization" := "Bearer " +:+ ToString token ]}
  else ∅.

(** The backend as one endpoint sees it: from the [Authorization] header
    of a request to the HTTP status of the response, or [None] when the
    request fails on the network. *)
Definition server : Type := string -> option Z.

(** [response.ok]. *)
Definition ok (status : Z) : bool := (200 <=? status)%Z && (status <=? 299)%Z.

(** [authUtils.validateToken(token)], against the health endpoint; the
    parameter defaults to [null]. *)
Definition validateToken (token : jsv) (health : server) (b : Api.browser)
  : bool :=
  let testToken := js_or token (item_value (getToken b)) in
  if negb (truthy testToken) then false
  else match health ("Bearer " +:+ ToString testToken) with
       | Some status => ok status
       | None => false
       end.

(** The object [authUtils.login] resolves to. *)
Record login_result : Type :=
  LoginResult { success : bool; error : option string }.

(** [authUtils.login(token)]. *)
Definition login (token : jsv) (health : server) (b : Api.browser)
  : login_result * Api.browser :=
  if validateToken token health b
  then (LoginResult true None, setToken token b)
  else (LoginResult false
          (Some "Invalid token. Please check and try again."), b).

(** [authUtils.logout()]. *)
Definition logout (b : Api.browser) : Api.browser :=
  Api.Browser (Api.localStorage (Api.clearToken b)) true.

(** The request interceptor of [api.js]: the headers of the outgoing
    request. *)
Definition request_interceptor_api (b : Api.browser)
    (headers : gmap string string) : gmap string string :=
  let token := item_value (getItem "dashboardToken" b) in
  if truthy token
  then <["Authorization" := "Bearer " +:+ ToString token]> headers
  else headers.

(** The request interceptor of [apiAuth.js]. *)
Definition request_interceptor_apiAuth (b : Api.browser)
    (headers : gmap string string) : gmap string string :=
  let token := item_value (getToken b) in
  if truthy token
  then <["Authorization" := "Bearer " +:+ ToString token]> headers
  else headers.

(** The white space [String.prototype.trim] removes, on the UTF-8 bytes
    of the string: TAB, LF, VT, FF, CR, SP, and the encodings of U+00A0,
    U+1680, U+2000..U+200A, U+2028, U+2029, U+202F, U+205F, U+3000 and
    U+FEFF. *)
Definition white1 (n : N) : bool :=
  ((9 <=? n) && (n <=? 13) || (n =? 32))%N.
Definition white2 (n m : N) : bool := ((n =? 194) && (m =? 160))%N.
Definition white3 (n m k : N) : bool :=
  ((n =? 225) && (m =? 154) && (k =? 128)
   || (n =? 226) && (m =? 128) &&
        ((128 <=? k) && (k <=? 138) || (k =? 168) || (k =? 169) || (k =? 175))
   || (n =? 226) && (m =? 129) && (k =? 159)
   || (n =? 227) && (m =? 128) && (k =? 128)
   || (n =? 239) && (m =? 187) && (k =? 191))%N.

(** [!token.trim()]: the string is made of white space only. *)
Fixpoint is_blank (s : string) : bool :=
  match s with
  | EmptyString => true
  | String c r =>
      if white1 (N_of_ascii c) then is_blank r
      else
        match r with
        | EmptyString => false
        | String d r2 =>
            if white2 (N_of_ascii c) (N_of_ascii d) then is_blank r2
            else
              match r2 with
              | EmptyString => false
              | String e r3 =>
                  if white3 (N_of_ascii c) (N_of_ascii d) (N_of_ascii e)
                  then is_blank r3
                  else false
              end
        end
  end.

(** What the login form shows and does after a submit: the error text,
    and the token [onLogin] was called with, if it was. *)
Record submit_result : Type :=
  SubmitResult { form_error : string; onLogin : option string }.

(** [handleSubmit] of the login form; [dashboard] is the endpoint the
    form tests the token against. *)
Definition handleSubmit (token : string) (dashboard : server)
    (b : Api.browser) : submit_result * Api.browser :=
  if is_blank token
  then (SubmitResult "Please enter your access token" None, b)
  else
    let b1 := setItem "dashboardToken" token b in
    match dashboard ("Bearer " +:+ token) with
    | Some status =>
        if ok status then (SubmitResult EmptyString (Some token), b1)
        else if (status =? 401)%Z
        then (SubmitResult "Invalid access token. Please check and try again."
                None,
              removeItem "dashboardToken" b1)
        else (SubmitResult "Unable to connect to the server. Please try again."
                None, b1)
    | None =>
        (SubmitResult
           "Connection error. Please check if the services are running."
           None, b1)
    end.

(** [checkAuth] of [App]: the [isAuthenticated] state it sets. *)
Definition checkAuth (health : server) (b : Api.browser)
  : bool * Api.browser :=
  if isAuthenticated b then
    if validateToken (Some JNull) health b then (true, b)
    else (false, Api.clearToken b)
  else (false, b).

Definition SELECTED_ACCOUNT_KEY : string := "slingshot_selected_account".

(** [handleLogout] of [App], on the browser. *)
Definition handleLogout (b : Api.browser) : Api.browser :=
  removeItem SELECTED_ACCOUNT_KEY (logout b).

End Auth.

(** ** More of the backend client: the calls of [src/services/api.js]
    that answer for a failed request themselves *)

Module Endpoints.
Import JS.

(** Sequencing of steps that may raise. *)
Definition and_then {A B : Type} (m : Api.settled A)
    (k : A -> Api.settled B) : Api.settled B :=
  match m with
  | Api.Fulfilled a => k a
  | Api.Rejected e => Api.Rejected e
  end.

(** A property read that raises on [undefined] and [null]. *)
Definition read (v : jsv) (k : string) : Api.settled jsv :=
  match get_prop v k with
  | Some r => Api.Fulfilled r
  | None => Api.Rejected (Api.TypeError_read v k)
  end.

(** The receiver of an array method, [v.method(...)] where [what] is the
    source text of [v]: reading the method raises on [undefined] and [null],
    calling it raises on anything that is not an array. *)
Definition as_array (what method : string) (v : jsv)
  : Api.settled (list json) :=
  match v with
  | Some (JArr items) => Api.Fulfilled items
  | None | Some JNull => Api.Rejected (Api.TypeError_read v method)
  | _ => Api.Rejected
           (Api.new_Error (what +:+ "." +:+ method +:+ " is not a function"))
  end.

(** [items.find(s => s.name === name)]. *)
Fixpoint find_named (name : string) (items : list json)
  : Api.settled (option json) :=
  match items with
  | [] => Api.Fulfilled None
  | s :: rest =>
      and_then (read (Some s) "name") (fun n =>
        if strict_eq n (Some (JStr name)) then Api.Fulfilled (Some s)
        else find_named name rest)
  end.

(** [items.filter(x => x[k] === v)]. *)
Fixpoint filter_eq (k : string) (v : jsv) (items : list json)
  : Api.settled (list json) :=
  match items with
  | [] => Api.Fulfilled []
  | x :: rest =>
      and_then (read (Some x) k) (fun f =>
        and_then (filter_eq k v rest) (fun kept =>
          Api.Fulfilled (if strict_eq f v then x :: kept else kept)))
  end.

(** The object [getKillSwitchStatus] returns from its [catch]. *)
Definition kill_switch_unknown (error : Api.js_error) : obj :=
  object_literal
    [ ("tradingEnabled", Some (JBool false));
      ("status", Some (JStr "unknown"));
      ("error", Api.message error) ].

(** [api.getKillSwitchStatus()]: it never rejects. *)
Definition getKillSwitchStatus (transport : Api.settled Api.axios_response)
    (b : Api.browser) : obj * Api.browser :=
  match Api.apiClient_call transport b with
  | (Api.Fulfilled response, b') =>
      match read response "enabled" with
      | Api.Fulfilled enabled =>
          (object_literal
             [ ("tradingEnabled", enabled);
               ("status", Some (JStr (if truthy enabled then "enabled"
                                      else "disabled")));
               ("details", response) ], b')
      | Api.Rejected error => (kill_switch_unknown error, b')
      end
  | (Api.Rejected error, b') => (kill_switch_unknown error, b')
  end.

(** The object [getTradingHealth] returns when something went wrong. *)
Definition health_failed (authenticationError : jsv) : obj :=
  object_literal
    [ ("authenticated", Some (JBool false));
      ("authenticationStatus", Some (JStr "failed"));
      ("authenticationError", authenticationError) ].

(** The body of the [try] of [getTradingHealth]. *)
Definition trading_health_of (services : jsv) : Api.settled obj :=
  and_then (as_array "services" "find" services) (fun items =>
  and_then (find_named "tradovate-service" items) (fun found =>
    match found with
    | Some tradovateService =>
        if truthy (Some tradovateService) then
          let running :=
            strict_eq (get_prop_opt (Some tradovateService) "status")
                      (Some (JStr "running")) in
          Api.Fulfilled (object_literal
            [ ("authenticated", Some (JBool running));
              ("authenticationStatus",
               Some (JStr (if running then "connected" else "failed")));
              ("authenticationError",
               Some (if negb running then JStr "Service not running"
                     else JNull));
              ("service", Some tradovateService) ])
        else Api.Fulfilled
               (health_failed (Some (JStr "Tradovate service not found")))
    | None =>
        Api.Fulfilled
          (health_failed (Some (JStr "Tradovate service not found")))
    end)).

(** [api.getTradingHealth()]: it never rejects. *)
Definition getTradingHealth (transport : Api.settled Api.axios_response)
    (b : Api.browser) : obj * Api.browser :=
  match Api.apiClient_call transport b with
  | (Api.Fulfilled services, b') =>
      match trading_health_of services with
      | Api.Fulfilled r => (r, b')
      | Api.Rejected error => (health_failed (Api.message error), b')
      end
  | (Api.Rejected error, b') => (health_failed (Api.message error), b')
  end.

(** [api.getQuotes()]: a failed request gives the empty object. *)
Definition getQuotes (transport : Api.settled Api.axios_response)
    (b : Api.browser) : jsv * Api.browser :=
  match Api.apiClient_call transport b with
  | (Api.Fulfilled body, b') => (body, b')
  | (Api.Rejected _, b') => (Some (JObj []), b')
  end.

(** The object [api.getAccounts] resolves to: [{accounts: [...]}]. *)
Record accounts_response : Type := AccountsResponse { accounts : list json }.

(** [api.getAccounts()]. *)
Definition getAccounts (transport : Api.settled Api.axios_response)
    (b : Api.browser) : Api.settled accounts_response * Api.browser :=
  match Api.apiClient_call transport b with
  | (Api.Fulfilled body, b') =>
      (Api.Fulfilled
         (AccountsResponse
            (match body with Some (JArr items) => items | _ => [] end)), b')
  | (Api.Rejected error, b') => (Api.Rejected error, b')
  end.

(** [api.getAccountOrders(accountId)]: the orders of the dashboard
    snapshot that belong to the account, as an array. *)
Definition getAccountOrders (accountId : jsv)
    (transport : Api.settled Api.axios_response) (b : Api.browser)
  : Api.settled (list json) * Api.browser :=
  match Api.apiClient_call transport b with
  | (Api.Fulfilled dashboard, b') =>
      (and_then (read dashboard "orders") (fun o =>
         and_then (as_array "orders" "filter" (js_or o (Some (JArr []))))
           (filter_eq "accountId" accountId)), b')
  | (Api.Rejected error, b') => (Api.Rejected error, b')
  end.

(** [api.getRelayStatus()]. *)
Definition getRelayStatus (transport : Api.settled Api.axios_response)
    (b : Api.browser) : Api.settled obj * Api.browser :=
  match Api.apiClient_call transport b with
  | (Api.Fulfilled services, b') =>
      (and_then (as_array "services" "find" services) (fun items =>
         and_then (find_named "monitoring-service" items) (fun found =>
           match found with
           | Some monitoringService =>
               if truthy (Some monitoringService)
               then Api.Fulfilled (object_literal
                      [("status",
                        get_prop_opt (Some monitoringService) "status")])
               else Api.Fulfilled [("status", JStr "unknown")]
           | None => Api.Fulfilled [("status", JStr "unknown")]
           end)), b')
  | (Api.Rejected error, b') => (Api.Rejected error, b')
  end.

(** [api.startRelay()], [api.stopRelay()], [api.restartRelay()]: they
    raise without sending anything. *)
Definition relay_control : Api.settled jsv :=
  Api.Rejected
    (Api.new_Error
       "Relay control not needed - webhooks handled by monitoring service").

End Endpoints.

(** ** More of the dashboard: the panels around the store *)

Module Panels.
Import JS.

(** A [Date] object: built from a value, or from the clock. *)
Inductive js_date : Type :=
  | NewDate (arg : jsv)
  | Now (clock : string).

(** An entry of the microservice health map. *)
Record health : Type := Health {
  serviceName : jsv;
  status : string;
  lastChecked : js_date;
  error : jsv;
  port : jsv;
  details : jsv
}.

(** The slices of the component next to the store. *)
Record panel : Type := Panel {
  relayStatus : jsv;
  tradovateStatus : string;
  tradovateError : jsv;
  isTradovateChecking : bool;
  microserviceHealth : gmap string health;
  criticalStatusInterval : option nat
}.

Definition initial_panel : panel :=
  {| relayStatus :=
       Some (JObj [("isRunning", JBool false); ("connectionUrl", JNull);
                   ("lastError", JNull); ("uptime", JNum 0)]);
     tradovateStatus := "disabled";
     tradovateError := Some (JStr "Tradovate connection temporarily disabled");
     isTradovateChecking := false;
     microserviceHealth := ∅;
     criticalStatusInterval := None |}.

Definition setRelayStatus (v : jsv) (p : panel) : panel :=
  Panel v (tradovateStatus p) (tradovateError p) (isTradovateChecking p)
        (microserviceHealth p) (criticalStatusInterval p).
Definition setTradovate (st : string) (err : jsv) (checking : bool)
    (p : panel) : panel :=
  Panel (relayStatus p) st err checking (microserviceHealth p)
        (criticalStatusInterval p).
Definition setMicroserviceHealth (v : gmap string health) (p : panel)
  : panel :=
  Panel (relayStatus p) (tradovateStatus p) (tradovateError p)
        (isTradovateChecking p) v (criticalStatusInterval p).
Definition setCriticalStatusInterval (v : option nat) (p : panel) : panel :=
  Panel (relayStatus p) (tradovateStatus p) (tradovateError p)
        (isTradovateChecking p) (microserviceHealth p) v.

(** *** Kill switch status *)

(** [loadKillSwitchStatus] after its [await].  The store keeps the flag as
    a boolean: every read of it in the component is a truthiness test. *)
Definition loadKillSwitchStatus (r : Api.settled jsv) (s : Dashboard.state)
  : Dashboard.state :=
  match r with
  | Api.Fulfilled response =>
      match get_prop response "tradingEnabled" with
      | Some flag => Dashboard.setTradingEnabled (truthy flag) s
      | None => s
      end
  | Api.Rejected _ => s
  end.

(** [loadKillSwitchStatus] on top of [api.getKillSwitchStatus]. *)
Definition refreshKillSwitchStatus
    (transport : Api.settled Api.axios_response) (b : Api.browser)
    (s : Dashboard.state) : Dashboard.state * Api.browser :=
  let '(response, b') := Endpoints.getKillSwitchStatus transport b in
  (loadKillSwitchStatus (Api.Fulfilled (Some (JObj response))) s, b').

(** *** Tradovate connection *)

(** [checkTradovateConnection] up to its [await]. *)
Definition checkTradovateConnection_started (p : panel) : panel :=
  setTradovate "checking" (tradovateError p) true p.

(** [checkTradovateConnection] after its [await]. *)
Definition checkTradovateConnection_settled (r : Api.settled jsv) (p : panel)
  : panel :=
  let failed (error : Api.js_error) :=
    setTradovate "error" (Api.message error) false p in
  match r with
  | Api.Fulfilled healthResponse =>
      match get_prop healthResponse "authenticated" with
      | Some authenticated =>
          let st :=
            if truthy authenticated then "connected"
            else if strict_eq
                      (get_prop_opt healthResponse "authenticationStatus")
                      (Some (JStr "failed"))
                 then "auth_failed" else "disconnected" in
          setTradovate st
            (js_or (get_prop_opt healthResponse "authenticationError")
                   (Some JNull)) false p
      | None => failed (Api.TypeError_read healthResponse "authenticated")
      end
  | Api.Rejected error => failed error
  end.

(** [checkTradovateConnection] on top of [api.getTradingHealth]. *)
Definition checkTradovateConnection
    (transport : Api.settled Api.axios_response) (b : Api.browser)
    (p : panel) : panel * Api.browser :=
  let '(healthResponse, b') := Endpoints.getTradingHealth transport b in
  (checkTradovateConnection_settled
     (Api.Fulfilled (Some (JObj healthResponse)))
     (checkTradovateConnection_started p), b').

(** *** Quotes *)

(** A quotes object as the store types it: symbols to quote records;
    [None] when the value is not such an object. *)
Definition quotes_of (v : jsv) : option (gmap string obj) :=
  match v with
  | Some (JObj props) =>
      list_to_map <$>
        mapM (fun kv : string * json =>
                match kv.2 with
                | JObj q => Some (kv.1, q)
                | _ => None
                end) props
  | _ => None
  end.

(** [loadQuotes] after its [await]: [api.getQuotes?.() || {}]. *)
Definition loadQuotes (quotesData : jsv) (s : Dashboard.state)
  : option Dashboard.state :=
  q ← quotes_of (js_or quotesData (Some (JObj [])));
  Some (Dashboard.setQuotes q s).

(** [loadQuotes] on top of [api.getQuotes]. *)
Definition refreshQuotes (transport : Api.settled Api.axios_response)
    (b : Api.browser) (s : Dashboard.state)
  : option Dashboard.state * Api.browser :=
  let '(quotesData, b') := Endpoints.getQuotes transport b in
  (loadQuotes quotesData s, b').

(** *** Orders snapshot through the backend client *)

(** The records of an array, when all its elements are objects. *)
Definition records_of (items : list json) : option (list obj) :=
  mapM (fun x => match x with JObj o => Some o | _ => None end) items.

(** What [loadOrdersAndPositions] reads from a settled value with
    [value[k] || []]: [None] when the property holds something that is not
    an array of records. *)
Definition read_collection (k : string) (value : jsv)
  : option Dashboard.snapshot_body :=
  match get_prop value k with
  | None => Some Dashboard.NoBody
  | Some field =>
      if truthy field then
        match field with
        | Some (JArr items) => Dashboard.Body ∘ Some <$> records_of items
        | _ => None
        end
      else Some (Dashboard.Body None)
  end.

Definition read_settled (k : string) (r : Api.settled jsv)
  : option (Api.settled Dashboard.snapshot_body) :=
  match r with
  | Api.Fulfilled value => Api.Fulfilled <$> read_collection k value
  | Api.Rejected e => Some (Api.Rejected e)
  end.

(** [loadOrdersAndPositions] on top of [api.getAccountPositions] and
    [api.getAccountOrders].  The two requests are sent only when
    [account.id] can be read. *)
Definition refreshOrdersAndPositions (account : jsv)
    (positionsTransport dashboardTransport : Api.settled Api.axios_response)
    (b : Api.browser) (s : Dashboard.state)
  : option (Dashboard.state * Api.browser) :=
  match get_prop account "id" with
  | None => Some (s, b)
  | Some id =>
      let '(positionsValue, b1) := Api.apiClient_call positionsTransport b in
      let '(ordersValue, b2) :=
        Endpoints.getAccountOrders id dashboardTransport b1 in
      let ordersJson :=
        match ordersValue with
        | Api.Fulfilled items => Api.Fulfilled (Some (JArr items))
        | Api.Rejected e => Api.Rejected e
        end in
      p ← read_settled "positions" positionsValue;
      o ← read_settled "orders" ordersJson;
      Some (Dashboard.loadOrdersAndPositions account p o s, b2)
  end.

(** *** Accounts *)

(** [loadAccountsIfNeeded] after its [await]: the list [onAccountsLoaded]
    is called with, if it is called.  The response of [api.getAccounts] is
    an object, not an array, so its [accounts] member is taken. *)
Definition loadAccountsIfNeeded (account : jsv) (onAccountsLoaded : bool)
    (r : Api.settled Endpoints.accounts_response) : option (list json) :=
  if negb (truthy account) && onAccountsLoaded then
    match r with
    | Api.Fulfilled accountsResponse =>
        let accounts := Endpoints.accounts accountsResponse in
        if (0 <? length accounts)%nat then Some accounts else None
    | Api.Rejected _ => None
    end
  else None.

(** *** Relay status *)

Definition remove_prop (k : string) (o : obj) : obj :=
  filter (fun kv : string * json => negb (String.eqb k kv.1) = true) o.

(** A property written by an object literal, where [undefined] reads like
    an absent property. *)
Definition assign_jsv (k : string) (v : jsv) (o : obj) : obj :=
  match v with
  | Some j => Dashboard.assign k j o
  | None => remove_prop k o
  end.

(** [{...prev, k1: v1, ...}]. *)
Definition spread_with (prev : jsv) (fields : list (string * jsv)) : jsv :=
  Some (JObj (fold_left (fun o kv => assign_jsv kv.1 kv.2 o) fields
                        (Dashboard.own_props prev))).

Definition with_lastError (lastError : jsv) (p : panel) : panel :=
  setRelayStatus (spread_with (relayStatus p) [("lastError", lastError)]) p.

(** [checkRelayStatus] after its [await]. *)
Definition checkRelayStatus (r : Api.settled jsv) (p : panel) : panel :=
  match r with
  | Api.Fulfilled response =>
      match get_prop response "success" with
      | Some success =>
          if truthy success
          then setRelayStatus (get_prop_opt response "status") p
          else p
      | None =>
          with_lastError
            (Api.message (Api.TypeError_read response "success")) p
      end
  | Api.Rejected error => with_lastError (Api.message error) p
  end.

(** [handleStartRelay], [handleStopRelay], [handleRestartRelay] after
    their [await]. *)
Definition handleRelayControl (r : Api.settled jsv) (p : panel) : panel :=
  match r with
  | Api.Fulfilled response =>
      match get_prop response "success" with
      | Some success =>
          if truthy success
          then setRelayStatus (get_prop_opt response "status") p
          else with_lastError (get_prop_opt response "message") p
      | None =>
          with_lastError
            (Api.message (Api.TypeError_read response "success")) p
      end
  | Api.Rejected error => with_lastError (Api.message error) p
  end.

(** The relay push events. *)
Inductive relay_event : Type :=
  | RelayStarted
  | RelayExited
  | RelayError (data : obj)
  | RelayUrlDetected (data : obj).

Definition handleRelayEvent (e : relay_event) (p : panel) : panel :=
  setRelayStatus
    (spread_with (relayStatus p)
       match e with
       | RelayStarted =>
           [("isRunning", Some (JBool true)); ("lastError", Some JNull)]
       | RelayExited => [("isRunning", Some (JBool false))]
       | RelayError data => [("lastError", lookup_prop "error" data)]
       | RelayUrlDetected data => [("connectionUrl", lookup_prop "url" data)]
       end) p.

(** What the user and the REST side can do to the relay panel. *)
Inductive relay_request : Type :=
  | CheckRelay (transport : Api.settled Api.axios_response)
  | StartRelay
  | StopRelay
  | RestartRelay.

Definition relay_request_step (q : relay_request) (b : Api.browser)
    (p : panel) : panel * Api.browser :=
  match q with
  | CheckRelay transport =>
      let '(r, b') := Endpoints.getRelayStatus transport b in
      (checkRelayStatus
         match r with
         | Api.Fulfilled o => Api.Fulfilled (Some (JObj o))
         | Api.Rejected e => Api.Rejected e
         end p, b')
  | StartRelay | StopRelay | RestartRelay =>
      (handleRelayControl Endpoints.relay_control p, b)
  end.

End Panels.

(** ** Microservice health and the polling effects of the dashboard *)

Module Polling.
Import JS.

(** The entry [checkMicroserviceHealth] builds for one service. *)
Definition health_entry (service : json) (now : string)
  : Api.settled (string * Panels.health) :=
  Endpoints.and_then (Endpoints.read (Some service) "name") (fun name =>
    Api.Fulfilled
      (ToString name,
       Panels.Health name
         (if strict_eq (get_prop_opt (Some service) "status")
                       (Some (JStr "running"))
          then "healthy" else "unhealthy")
         (if truthy (get_prop_opt (Some service) "lastChecked")
          then Panels.NewDate (get_prop_opt (Some service) "lastChecked")
          else Panels.Now now)
         (js_or (get_prop_opt (Some service) "error") (Some JNull))
         (get_prop_opt (Some service) "port")
         (Some service))).

(** [services.forEach(service => { healthState[service.name] = ... })]. *)
Fixpoint health_state (items : list json) (now : string)
    (healthState : gmap string Panels.health)
  : Api.settled (gmap string Panels.health) :=
  match items with
  | [] => Api.Fulfilled healthState
  | service :: rest =>
      Endpoints.and_then (health_entry service now) (fun kv =>
        health_state rest now (<[kv.1 := kv.2]> healthState))
  end.

(** The map [checkMicroserviceHealth] stores from its [catch]. *)
Definition health_failed (error : Api.js_error) (now : string)
  : gmap string Panels.health :=
  {[ "monitoring-service" :=
       Panels.Health (Some (JStr "monitoring-service")) "unhealthy"
         (Panels.Now now) (Api.message error) undefined undefined ]}.

(** [checkMicroserviceHealth] after its [await]; [r] settles
    [api.getServices()]. *)
Definition checkMicroserviceHealth (r : Api.settled jsv) (now : string)
    (p : Panels.panel) : Panels.panel :=
  let built :=
    Endpoints.and_then r (fun services =>
      Endpoints.and_then (Endpoints.as_array "services" "forEach" services)
        (fun items => health_state items now ∅)) in
  match built with
  | Api.Fulfilled healthState => Panels.setMicroserviceHealth healthState p
  | Api.Rejected error =>
      Panels.setMicroserviceHealth (health_failed error now) p
  end.

(** [v?.length > 0]; [None] when the comparison would first turn a
    string or an object held in a [length] property into a number, which
    this embedding does not cover. *)
Definition has_items (v : jsv) : option bool :=
  match v with
  | Some (JArr items) => Some (0 <? length items)%nat
  | Some (JStr s) => Some (negb (String.eqb s EmptyString))
  | Some (JObj o) =>
      match lookup_prop "length" o with
      | None | Some JNull => Some false
      | Some (JNum n) => Some (0 <? n)%Z
      | Some (JBool b) => Some b
      | Some _ => None
      end
  | _ => Some false
  end.

(** [criticalStatus.openOrders?.length > 0 ||
     criticalStatus.openPositions?.length > 0]. *)
Definition hasActiveItems (criticalStatus : jsv) : option bool :=
  match has_items (get_prop_opt criticalStatus "openOrders") with
  | Some true => Some true
  | Some false => has_items (get_prop_opt criticalStatus "openPositions")
  | None => None
  end.

(** The truth value of a timer id held in state ([null] when [None]). *)
Definition interval_set (i : option nat) : bool :=
  match i with
  | Some id => negb (Nat.eqb id 0)
  | None => false
  end.

(** The effect that starts and stops the critical-status timer.  [fresh]
    is the id [setInterval] would return, [timers] the timers of the
    window. *)
Definition critical_polling_effect (criticalStatus : jsv) (fresh : nat)
    (timers : gset nat) (p : Panels.panel)
  : option (Panels.panel * gset nat) :=
  if negb (truthy criticalStatus) then Some (p, timers)
  else
    active ← hasActiveItems criticalStatus;
    if active && negb (interval_set (Panels.criticalStatusInterval p))
    then Some (Panels.setCriticalStatusInterval (Some fresh) p,
               {[fresh]} ∪ timers)
    else if negb active && interval_set (Panels.criticalStatusInterval p)
    then
      match Panels.criticalStatusInterval p with
      | Some id => Some (Panels.setCriticalStatusInterval None p,
                         timers ∖ {[id]})
      | None => Some (p, timers)
      end
    else Some (p, timers).

(** The timer is consistent with the state: the id held is the one
    timer running, or none is held and none runs. *)
Definition timer_consistent (p : Panels.panel) (timers : gset nat) : Prop :=
  match Panels.criticalStatusInterval p with
  | Some id => id ≠ 0%nat ∧ timers = {[id]}
  | None => timers = ∅
  end.

(** [x < 5 * 60 * 1000] for a truthy [x]; [None] when [x] is a string or
    an array, whose conversion to a number is not covered. *)
Definition below_five_minutes (x : json) : option bool :=
  match x with
  | JNum n => Some (n <? 5 * 60 * 1000)%Z
  | JBool _ => Some true
  | JNull => Some true
  | JObj _ => Some false
  | JStr _ | JArr _ => None
  end.

(** The truth value of [accountSummary?.cached && accountSummary?.dataAge
    && accountSummary.dataAge < 5 * 60 * 1000]. *)
Definition hasRecentCachedData (accountSummary : jsv) : option bool :=
  if negb (truthy (get_prop_opt accountSummary "cached")) then Some false
  else
    match get_prop_opt accountSummary "dataAge" with
    | Some dataAge =>
        if truthy (Some dataAge) then below_five_minutes dataAge
        else Some false
    | None => Some false
    end.

(** The condition under which the dashboard polls every two minutes. *)
Definition polls (pollingEnabled : bool) (account : jsv)
    (tradovateStatus : string) (accountSummary : jsv) : option bool :=
  recent ← hasRecentCachedData accountSummary;
  Some (pollingEnabled && truthy (get_prop_opt account "id")
        && String.eqb tradovateStatus "connected" && negb recent).

End Polling.

(** ** [apiUtils] of [src/services/api.js] *)

Module Utils.
Import JS.

(** [apiUtils.isTradingSessionActive()], on [now.getDay()] (0 is Sunday)
    and [now.getHours()]. *)
Definition isTradingSessionActive (day hour : Z) : bool :=
  if ((day =? 0) && (hour <? 18))%Z then false
  else if (day =? 6)%Z then false
  else if ((day =? 5) && (17 <=? hour))%Z then false
  else true.

(** [x <= 0] for a truthy [x]; [None] when [x] is a string or an array,
    whose conversion to a number is not covered. *)
Definition at_most_zero (x : json) : option bool :=
  match x with
  | JNum n => Some (n <=? 0)%Z
  | JBool b => Some (negb b)
  | JNull => Some true
  | JObj _ => Some false
  | JStr _ | JArr _ => None
  end.

(** [!orderData.quantity || orderData.quantity <= 0]. *)
Definition bad_quantity (quantity : jsv) : option bool :=
  if negb (truthy quantity) then Some true
  else match quantity with
       | Some q => at_most_zero q
       | None => Some true
       end.

(** [apiUtils.validateOrderData(orderData)]. *)
Definition validateOrderData (orderData : obj) : option (list string) :=
  let error_if (failed : bool) (text : string) : list string :=
    if failed then [text] else [] in
  bad ← bad_quantity (lookup_prop "quantity" orderData);
  Some (error_if (negb (truthy (lookup_prop "accountId" orderData)))
                 "Account ID is required" ++
        error_if (negb (truthy (lookup_prop "symbol" orderData)))
                 "Symbol is required" ++
        error_if (negb (truthy (lookup_prop "action" orderData)))
                 "Action is required" ++
        error_if bad "Quantity must be greater than 0")%list.

End Utils.

(** ** The socket hooks: [src/hooks/useWebSocket.js] *)

Module Hooks.
Import JS.

(** [l.slice(start)] for an integer [start]: a negative one counts from
    the end. *)
Definition slice_from {A : Type} (start : Z) (l : list A) : list A :=
  if (start <? 0)%Z
  then drop (Z.to_nat (Z.max (Z.of_nat (length l) + start) 0)) l
  else drop (Z.to_nat start) l.

(** The updater of [addMessage] in [useWebSocketMessages(maxMessages)]:
    [id] stands for [Date.now() + Math.random()], [now] for
    [new Date().toISOString()]. *)
Definition addMessage (maxMessages : Z) (message : jsv) (id : json)
    (now : string) (prev : list obj) : list obj :=
  (slice_from (- (maxMessages - 1)) prev ++
   [Dashboard.assign "timestamp" (JStr now)
      (Dashboard.assign "id" id (Dashboard.own_props message))])%list.

(** [getRecentMessages(count)]. *)
Definition getRecentMessages (count : Z) (messages : list obj) : list obj :=
  slice_from (- count) messages.

(** The connection as [useWebSocket] holds it, and what was sent. *)
Record connection : Type := Connection {
  socket : bool;
  isConnected : bool;
  sent : list (string * jsv)
}.

(** [emit(event, data)]: the value it returns, and the connection
    after. *)
Definition emit (event : string) (data : jsv) (c : connection)
  : bool * connection :=
  if socket c && isConnected c
  then (true, Connection (socket c) (isConnected c)
                ((sent c) ++ [(event, data)])%list)
  else (false, c).

(** [subscribeToAccount(accountId)]. *)
Definition subscribeToAccount (accountId : jsv) (c : connection)
  : bool * connection :=
  emit "subscribe_account" accountId c.

End Hooks.

(** ** Account selection: [src/App.js] *)

Module App.
Import JS.

(** The [accounts] and [selectedAccount] state of [App]. *)
Record app : Type := AppState { accounts : list json; selectedAccount : jsv }.

Definition initial_app : app := AppState [] (Some JNull).

(** [accounts.find(account => String(account.id) ===
    String(savedAccountId))]. *)
Fixpoint find_saved (savedAccountId : string) (accounts : list json)
  : Api.settled jsv :=
  match accounts with
  | [] => Api.Fulfilled undefined
  | account :: rest =>
      Endpoints.and_then (Endpoints.read (Some account) "id") (fun id =>
        if String.eqb (ToString id) savedAccountId
        then Api.Fulfilled (Some account)
        else find_saved savedAccountId rest)
  end.

(** [account.id === '33316485' || account.id === 33316485 ||
    String(account.id) === '33316485']. *)
Definition is_default (id : jsv) : bool :=
  strict_eq id (Some (JStr "33316485"))
  || strict_eq id (Some (JNum 33316485))
  || String.eqb (ToString id) "33316485".

Fixpoint find_default (accounts : list json) : Api.settled jsv :=
  match accounts with
  | [] => Api.Fulfilled undefined
  | account :: rest =>
      Endpoints.and_then (Endpoints.read (Some account) "id") (fun id =>
        if is_default id then Api.Fulfilled (Some account)
        else find_default rest)
  end.

(** [accounts.map(a => ({id: a.id, ...}))], built for the console: only
    whether it raises matters. *)
Fixpoint log_ids (accounts : list json) : Api.settled unit :=
  match accounts with
  | [] => Api.Fulfilled tt
  | a :: rest =>
      Endpoints.and_then (Endpoints.read (Some a) "id") (fun _ =>
        log_ids rest)
  end.

(** The choice of [loadAccountData] among a non-empty list: the saved
    account, else the default one, else the first. *)
Definition targetAccount (saved : option string) (accounts : list json)
  : Api.settled jsv :=
  Endpoints.and_then
    (if truthy (Auth.item_value saved)
     then find_saved (default EmptyString saved) accounts
     else Api.Fulfilled (Some JNull))
    (fun target =>
       if negb (truthy target) then
         Endpoints.and_then (find_default accounts) (fun target =>
         Endpoints.and_then (log_ids accounts) (fun _ =>
           if negb (truthy target) then
             let first := head accounts in
             Endpoints.and_then (Endpoints.read first "id") (fun _ =>
               Api.Fulfilled first)
           else Api.Fulfilled target))
       else Api.Fulfilled target).

(** [loadAccountData] after its [await]; [r] settles
    [api.getAccounts()]. *)
Definition loadAccountData (r : Api.settled Endpoints.accounts_response)
    (b : Api.browser) (a : app) : app * Api.browser :=
  match r with
  | Api.Rejected _ => (a, b)
  | Api.Fulfilled accountsResponse =>
      let accounts := Endpoints.accounts accountsResponse in
      let a1 := AppState accounts (selectedAccount a) in
      if (0 <? length accounts)%nat then
        match targetAccount (Auth.getItem Auth.SELECTED_ACCOUNT_KEY b)
                            accounts with
        | Api.Fulfilled target =>
            if truthy target
            then (AppState accounts target,
                  Auth.setItem Auth.SELECTED_ACCOUNT_KEY
                    (ToString (get_prop_opt target "id")) b)
            else (a1, b)
        | Api.Rejected _ => (a1, b)
        end
      else (a1, b)
  end.

(** [handleAccountChange(account)]. *)
Definition handleAccountChange (account : jsv) (c : Hooks.connection)
    (b : Api.browser) (a : app) : app * Api.browser * Hooks.connection :=
  let a' := AppState (accounts a) account in
  if truthy account
  then (a',
        Auth.setItem Auth.SELECTED_ACCOUNT_KEY
          (ToString (get_prop_opt account "id")) b,
        (Hooks.emit "subscribe_account" (get_prop_opt account "id") c).2)
  else (a', b, c).

End App.

(** ** The log writers by the shape of their update *)

Module LogWriters.
Import Dashboard.

(** The handlers written
    [setRelayLogs(prev => [...prev, entry].slice(0, 100))]. *)
Definition appends_then_slices (e : log_event) : bool :=
  match e with
  | KillSwitchToggled _ _ | PositionSizingUpdated _ _ | KillSwitchChanged _ _
  | WebhookBlocked _ _ | DataCollectorInitialized _ | PollingModeChanged _
  | RateLimitWarning _ | ReSyncCompleted _ | ReSyncFailed _ _ => true
  | _ => false
  end.

End LogWriters.

(** ** More concrete inputs *)

Module Inputs.
Import JS.

(** Endpoints that accept every token, reject every token with 401,
    answer 500, or cannot be reached. *)
Definition accepting : Auth.server := fun _ => Some 200%Z.
Definition rejecting : Auth.server := fun _ => Some 401%Z.
Definition failing : Auth.server := fun _ => Some 500%Z.
Definition offline : Auth.server := fun _ => None.

Definition logged_out : Api.browser := Api.Browser ∅ false.

Definition with_selection : Api.browser :=
  Api.Browser {[ "dashboardToken" := "secret";
                 "slingshot_selected_account" := "7" ]} false.

End Inputs.

Module Inputs2.
Import JS.

(** The services answer: the Tradovate service is up. *)
Definition services_ok : Api.settled Api.axios_response :=
  Api.Fulfilled
    (Api.AxiosResponse (Some (JNum 200))
       (Some (JArr [ JObj [("name", JStr "monitoring-service");
                           ("status", JStr "running")];
                     JObj [("name", JStr "tradovate-service");
                           ("status", JStr "running")] ]))).

(** A dashboard answer with one order of account 7 and one of account 8. *)
Definition dashboard_ok : Api.settled Api.axios_response :=
  Api.Fulfilled
    (Api.AxiosResponse (Some (JNum 200))
       (Some (JObj [("orders",
                     JArr [ JObj (("accountId", JNum 7) :: Samples.order_plain);
                            JObj (("accountId", JNum 8) :: Samples.order_plain)
                          ])]))).

Definition positions_ok : Api.settled Api.axios_response :=
  Api.Fulfilled
    (Api.AxiosResponse (Some (JNum 200))
       (Some (JObj [("positions", JArr [JObj Samples.position_held])]))).

Definition accounts_ok : Api.settled Api.axios_response :=
  Api.Fulfilled
    (Api.AxiosResponse (Some (JNum 200))
       (Some (JArr [ JObj [("id", JNum 5); ("name", JStr "SIM")];
                     JObj [("id", JNum 7); ("name", JStr "DEMO")] ]))).

End Inputs2.

Module Inputs3.
Import JS.

(** Two services, one of them down. *)
Definition two_services : list json :=
  [ JObj [("name", JStr "monitoring-service"); ("status", JStr "running");
          ("port", JNum 3014)];
    JObj [("name", JStr "tradovate-service"); ("status", JStr "stopped");
          ("error", JStr "crashed")] ].

(** A critical status with one open order. *)
Definition status_with_order : jsv :=
  Some (JObj [("openOrders", JArr [JObj Samples.order_plain]);
              ("openPositions", JArr [])]).

(** An order form with everything filled in. *)
Definition order_form : obj :=
  [("accountId", JNum 7); ("symbol", JStr "MNQ"); ("action", JStr "Buy");
   ("quantity", JNum 2)].

(** Two accounts, and a browser that remembers the second. *)
Definition two_accounts : list json :=
  [JObj [("id", JNum 7); ("name", JStr "DEMO")];
   JObj [("id", JNum 8); ("name", JStr "LIVE")]].

Definition saved_second : Api.browser :=
  Auth.setItem Auth.SELECTED_ACCOUNT_KEY "8" (Api.Browser ∅ false).

End Inputs3.

(** * Properties *)

Import JS.
Local Open Scope nat_scope.
Local Open Scope list_scope.

(** ** The activity log *)

Section ActivityLog.
Import Dashboard.

Lemma slice_to_length n (l : list obj) : length (slice_to n l) ≤ n.
Proof. unfold slice_to. rewrite length_take. lia. Qed.

Lemma slice_last_length n (l : list obj) : length (slice_last n l) ≤ n.
Proof. unfold slice_last. rewrite length_drop. lia. Qed.

Lemma append_slice_to_100_length entry prev :
  length (append_slice_to_100 entry prev) ≤ 100.
Proof. apply slice_to_length. Qed.

Lemma append_after_last_49_length entry prev :
  length (append_after_last_49 entry prev) ≤ 50.
Proof.
  unfold append_after_last_49. rewrite length_app. simpl.
  pose proof (slice_last_length 49 prev). lia.
Qed.

(** Whatever the event and the previous log, the log holds at most 100
    entries afterwards. *)
Lemma log_update_cap e prev : length (log_update e prev) ≤ 100.
Proof.
  destruct e; cbn [log_update];
    first [ apply append_slice_to_100_length
          | apply slice_to_length
          | apply slice_last_length
          | etrans; [apply append_after_last_49_length | lia] ].
Qed.

(** The cap survives any burst of events. *)
Lemma log_run_cap es prev :
  length prev ≤ 100 → length (log_run es prev) ≤ 100.
Proof.
  unfold log_run. revert prev.
  induction es as [| e es IH]; intros prev Hprev; [ done |].
  cbn [fold_left]. apply IH, log_update_cap.
Qed.

(** On a log that is at its cap, append-then-[slice(0, 100)] returns the
    first 100 entries of the previous log: the appended entry is cut. *)
Lemma append_slice_to_100_full entry prev :
  100 ≤ length prev → append_slice_to_100 entry prev = take 100 prev.
Proof.
  intros H. unfold append_slice_to_100, slice_to. by rewrite take_app_le.
Qed.

(** Below the cap the same code keeps the previous log and the entry. *)
Lemma append_slice_to_100_room entry prev :
  length prev < 100 → append_slice_to_100 entry prev = prev ++ [entry].
Proof.
  intros H. unfold append_slice_to_100, slice_to.
  apply take_ge. rewrite length_app. simpl. lia.
Qed.

(** The relay-output form drops from the front and keeps the entry. *)
Lemma append_after_last_49_keeps_entry entry prev :
  last (append_after_last_49 entry prev) = Some entry.
Proof. unfold append_after_last_49. apply last_snoc. Qed.

End ActivityLog.

Section ActivityLogProperties.
Import Dashboard.

Lemma full_log_replicate :
  Samples.full_log =
  replicate 100
    (log_entry (Some (JStr "2025-01-01T00:00:00.000Z")) (Some (JStr "system"))
               (Some (JStr "backlog"))).
Proof. reflexivity. Qed.

(** C5: the main activity log is meant to hold at most 100 entries and to
    drop its oldest entries, never the newly arrived one.  The cap holds
    ([log_update_cap]), but on a log that is at its cap the
    [kill_switch_changed] handler returns the log it was given: the entry it
    just built is the one that is cut, and none of the old ones is. *)
Theorem C5_full_log_drops_new_entry :
  length Samples.full_log = 100 ∧
  log_update
    (KillSwitchChanged false (Some (JStr "2025-01-01T00:01:00.000Z")))
    Samples.full_log = Samples.full_log ∧
  Samples.kill_switch_off_entry ∉
    log_update
      (KillSwitchChanged false (Some (JStr "2025-01-01T00:01:00.000Z")))
      Samples.full_log.
Proof.
  assert (Hfull :
    log_update
      (KillSwitchChanged false (Some (JStr "2025-01-01T00:01:00.000Z")))
      Samples.full_log = Samples.full_log).
  { cbn [log_update]. rewrite append_slice_to_100_full.
    - rewrite full_log_replicate. apply take_ge.
      rewrite length_replicate. lia.
    - rewrite full_log_replicate, length_replicate. lia. }
  split; [ by rewrite full_log_replicate, length_replicate |].
  split; [ exact Hfull |].
  rewrite Hfull, full_log_replicate.
  intros [Heq _]%elem_of_replicate. discriminate Heq.
Qed.

(** C10, as stated, is false in its last clause: the [filtered_activity]
    handler is another log writer, and it too discards what the log held. *)
Lemma C10_filtered_activity_discards_too :
  ¬ (∀ (e : log_event) (prev : list obj) (x : obj),
       (∀ now, e ≠ MarginUpdated now) →
       length prev + incoming e ≤ 50 →
       x ∈ prev → x ∈ log_update e prev).
Proof.
  intros H.
  specialize (H (FilteredActivity []) [Samples.kill_switch_off_entry]
                Samples.kill_switch_off_entry).
  assert (Hin : Samples.kill_switch_off_entry ∈
                log_update (FilteredActivity [])
                           [Samples.kill_switch_off_entry]).
  { apply H; [ discriminate | simpl; lia | apply list_elem_of_here ]. }
  cbn in Hin. by apply not_elem_of_nil in Hin.
Qed.

(** C10 (amended): after a successful margin-settings update the log is
    exactly the one new margin-settings entry, whatever it held before.  The
    [filtered_activity] and [initial_state] handlers ignore the previous log
    as well; every other log writer keeps each prior entry while the log has
    room. *)
Theorem C10_margin_update_resets_log
    (newMarginSettings ms : jsv) (now : string) (s : state) :
  get_prop newMarginSettings "marginSettings" = Some ms →
  relayLogs (handleMarginUpdate newMarginSettings now s) =
    [log_entry (Some (JStr now)) (Some (JStr "margin_settings"))
               (Some (JStr "💰 Margin requirements updated"))]
  ∧ (∀ e prev prev', replaces_log e = true →
       log_update e prev = log_update e prev')
  ∧ (∀ e prev x, replaces_log e = false →
       length prev + incoming e ≤ 50 →
       x ∈ prev → x ∈ log_update e prev).
Proof.
  intros Hms. split; [| split].
  - unfold handleMarginUpdate, Api.setMarginSettings. rewrite Hms. reflexivity.
  - intros e prev prev' He. destruct e; try discriminate He; reflexivity.
  - intros e prev x He Hlen Hx.
    destruct e; try discriminate He; cbn [log_update incoming] in *;
      try (rewrite append_slice_to_100_room by lia; set_solver);
      try (unfold append_after_last_49, slice_last;
           replace (length prev - 49) with 0 by lia;
           rewrite drop_0; set_solver).
    unfold slice_to. rewrite take_ge.
    + set_solver.
    + rewrite length_app. unfold formattedLogs. rewrite length_map. lia.
Qed.

Lemma C10_margin_update_resets_log_witness :
  get_prop (Some (JObj [("marginSettings", JObj [("MNQ", JNum 1500)])]))
    "marginSettings" = Some (Some (JObj [("MNQ", JNum 1500)])) ∧
  relayLogs
    (handleMarginUpdate
       (Some (JObj [("marginSettings", JObj [("MNQ", JNum 1500)])]))
       "2025-01-01T00:02:00.000Z"
       (setRelayLogs Samples.full_log initial_state)) =
  [log_entry (Some (JStr "2025-01-01T00:02:00.000Z"))
             (Some (JStr "margin_settings"))
             (Some (JStr "💰 Margin requirements updated"))].
Proof.
  split; [ reflexivity |].
  apply (C10_margin_update_resets_log
           (Some (JObj [("marginSettings", JObj [("MNQ", JNum 1500)])]))
           (Some (JObj [("MNQ", JNum 1500)]))).
  reflexivity.
Defined.

End ActivityLogProperties.

(** ** Quotes *)

Section Quotes.
Import Dashboard.

(** C3: a [market_data] event that carries a base-symbol alias (a truthy
    [baseSymbol], which is how the handler tests for it) is processed by one
    write to the quotes slice, after which the symbol key and the alias key
    both read the quote built from the event; no other key and no other
    slice of the store changes. *)
Theorem C3_symbol_and_alias_agree (data : obj) (s : state) :
  truthy (lookup_prop "baseSymbol" data) = true →
  let s' := handleMarketData data s in
  let symbol := ToString (lookup_prop "symbol" data) in
  let baseSymbol := ToString (lookup_prop "baseSymbol" data) in
  s' = setQuotes (quotes s') s ∧
  quotes s' !! symbol = Some (newQuote data) ∧
  quotes s' !! baseSymbol = Some (newQuote data) ∧
  quotes s' !! symbol = quotes s' !! baseSymbol ∧
  (∀ k, k ≠ symbol → k ≠ baseSymbol → quotes s' !! k = quotes s !! k).
Proof.
  intros Hbase. cbn zeta.
  unfold handleMarketData, marketData_updater. rewrite Hbase.
  cbn [quotes setQuotes].
  assert (Hsym :
    (<[ToString (lookup_prop "baseSymbol" data) := newQuote data]>
       (<[ToString (lookup_prop "symbol" data) := newQuote data]> (quotes s)))
      !! ToString (lookup_prop "symbol" data) = Some (newQuote data)).
  { rewrite lookup_insert. case_decide; [done |].
    by rewrite lookup_insert_eq. }
  repeat split.
  - exact Hsym.
  - apply lookup_insert_eq.
  - rewrite Hsym. symmetry. apply lookup_insert_eq.
  - intros k Hk1 Hk2. by rewrite !lookup_insert_ne.
Qed.

Lemma C3_symbol_and_alias_agree_witness :
  truthy (lookup_prop "baseSymbol" Samples.quote_tick) = true ∧
  quotes (handleMarketData Samples.quote_tick initial_state) !! "MNQ" =
  quotes (handleMarketData Samples.quote_tick initial_state) !! "MNQNov25".
Proof.
  split; [ reflexivity |].
  apply (C3_symbol_and_alias_agree Samples.quote_tick initial_state).
  reflexivity.
Defined.

End Quotes.

(** ** Positions and orders *)

Section Collections.
Import Dashboard.

(** C4, as stated, is false: the existing entry holds [entryPrice], the
    pushed entry for the same id does not carry it, and after the event no
    entry of the positions slice has it. *)
Lemma C4_push_replaces_whole_record :
  ¬ (∀ (account : jsv) (s : state) (accountId : jsv) (data : list obj)
       (held pushed : obj) (k : string),
       strict_eq accountId (get_prop_opt account "id") = true →
       held ∈ positions s → pushed ∈ data →
       lookup_prop "id" pushed = lookup_prop "id" held →
       lookup_prop k pushed = None →
       ∃ merged,
         merged ∈ positions
           (handleAccountDataUpdated account
              (PositionsData accountId (Some data)) s) ∧
         lookup_prop "id" merged = lookup_prop "id" held ∧
         lookup_prop k merged = lookup_prop k held).
Proof.
  intros H.
  destruct (H Samples.account7
              (setPositions [Samples.position_held] initial_state)
              (Some (JNum 7)) [Samples.position_pushed]
              Samples.position_held Samples.position_pushed "entryPrice")
    as (merged & Hin & _ & Hk);
    [ reflexivity | apply list_elem_of_here | apply list_elem_of_here
    | reflexivity | reflexivity |].
  cbn in Hin. apply list_elem_of_singleton in Hin. subst merged.
  discriminate Hk.
Qed.

(** C4 (amended): a positions push event for the selected account replaces
    the whole positions list by the list the event carries (the empty list
    when it carries none) and touches no other slice; nothing of the
    previous entries is merged in.  An event for another account changes
    nothing. *)
Theorem C4_positions_push_replaces_list
    (account accountId : jsv) (data : option (list obj)) (s : state) :
  (strict_eq accountId (get_prop_opt account "id") = true →
     handleAccountDataUpdated account (PositionsData accountId data) s =
       setPositions (or_empty data) s) ∧
  (strict_eq accountId (get_prop_opt account "id") = false →
     handleAccountDataUpdated account (PositionsData accountId data) s = s).
Proof.
  unfold handleAccountDataUpdated. split; intros ->; reflexivity.
Qed.

Lemma C4_positions_push_replaces_list_witness :
  strict_eq (Some (JNum 7)) (get_prop_opt Samples.account7 "id") = true ∧
  positions
    (handleAccountDataUpdated Samples.account7
       (PositionsData (Some (JNum 7)) (Some [Samples.position_pushed]))
       (setPositions [Samples.position_held] initial_state)) =
  [Samples.position_pushed].
Proof.
  split; [ reflexivity |].
  rewrite (proj1 (C4_positions_push_replaces_list Samples.account7
                    (Some (JNum 7)) (Some [Samples.position_pushed])
                    (setPositions [Samples.position_held] initial_state)));
    reflexivity.
Defined.

(** An enriched order in the held list makes the list non-empty. *)
Lemma some_enriched_nonempty (l : list obj) :
  some_enriched l = true → (0 <? length l) = true.
Proof. destruct l; [ discriminate | reflexivity ]. Qed.

(** The guard of the orders updater: a held list with an enriched order
    is kept, whatever the snapshot carries. *)
Lemma orders_updater_keeps_enriched (apiOrders prevOrders : list obj) :
  some_enriched prevOrders = true →
  orders_updater apiOrders prevOrders = prevOrders.
Proof.
  intros H. unfold orders_updater.
  by rewrite (some_enriched_nonempty _ H), H.
Qed.

(** Without an enriched order the snapshot is applied wholesale. *)
Lemma orders_updater_applies_snapshot (apiOrders prevOrders : list obj) :
  some_enriched prevOrders = false →
  orders_updater apiOrders prevOrders = apiOrders.
Proof.
  intros H. unfold orders_updater. rewrite H.
  by rewrite andb_false_r.
Qed.

(** A snapshot refresh never changes an orders list that holds an
    enriched order. *)
Lemma loadOrdersAndPositions_keeps_enriched account p o s :
  some_enriched (orders s) = true →
  orders (loadOrdersAndPositions account p o s) = orders s.
Proof.
  intros H. unfold loadOrdersAndPositions.
  destruct (get_prop account "id"); [| reflexivity ].
  destruct p as [[| pitems] | ?]; [ reflexivity | |];
    destruct o as [[| oitems] | ?]; cbn [orders setOrders setPositions];
    try reflexivity; by apply orders_updater_keeps_enriched.
Qed.

(** An event that is not an orders push for the selected account keeps
    such a list too. *)
Lemma store_step_keeps_enriched account s e :
  (∀ a d, e = PushEvent (OrdersData a d) →
          strict_eq a (get_prop_opt account "id") = false) →
  some_enriched (orders s) = true →
  orders (store_step account s e) = orders s.
Proof.
  intros Hother H. destruct e as [p o | d]; cbn [store_step].
  - by apply loadOrdersAndPositions_keeps_enriched.
  - destruct d as [a d | a d | a d | t a]; cbn [handleAccountDataUpdated].
    + by destruct (strict_eq _ _).
    + by destruct (strict_eq _ _).
    + by rewrite (Hother a d eq_refl).
    + reflexivity.
Qed.

Lemma store_run_keeps_enriched account es s :
  Forall (λ e, ∀ a d, e = PushEvent (OrdersData a d) →
                      strict_eq a (get_prop_opt account "id") = false) es →
  some_enriched (orders s) = true →
  orders (store_run account es s) = orders s.
Proof.
  unfold store_run. intros Hes. revert s.
  induction Hes as [| e es He _ IH]; intros s H; [ reflexivity |].
  cbn [fold_left]. rewrite IH.
  - by apply store_step_keeps_enriched.
  - by rewrite store_step_keeps_enriched.
Qed.

(** C1, as stated, is false: a push event carried the enrichment fields
    of order A1, a later push event for the same order did not, and after
    the closing snapshot refresh - whose orders answer has no [orders]
    member, as the answers of [api.getAccountOrders] never have - no held
    order has them. *)
Lemma C1_later_plain_push_drops_enrichment :
  ¬ (∀ (account : jsv) (es : list store_event) (s : state)
       (accountId : jsv) (data : list obj),
       PushEvent (OrdersData accountId (Some data)) ∈ es →
       strict_eq accountId (get_prop_opt account "id") = true →
       some_enriched data = true →
       some_enriched (orders (store_run account es s)) = true).
Proof.
  intros H.
  specialize (H Samples.account7
    [ PushEvent (OrdersData (Some (JNum 7)) (Some [Samples.order_enriched]));
      PushEvent (OrdersData (Some (JNum 7)) (Some [Samples.order_plain]));
      SnapshotRefresh (Api.Fulfilled (Body (Some [])))
                      (Api.Fulfilled (Body None)) ]
    initial_state (Some (JNum 7)) [Samples.order_enriched]).
  assert (Hfinal : some_enriched (orders (store_run Samples.account7
    [ PushEvent (OrdersData (Some (JNum 7)) (Some [Samples.order_enriched]));
      PushEvent (OrdersData (Some (JNum 7)) (Some [Samples.order_plain]));
      SnapshotRefresh (Api.Fulfilled (Body (Some [])))
                      (Api.Fulfilled (Body None)) ]
    initial_state)) = false) by reflexivity.
  rewrite H in Hfinal; [ discriminate | apply list_elem_of_here | reflexivity
                       | reflexivity ].
Qed.

(** C1 (amended): if the most recent orders push event for the selected
    account carried an order with truthy [limitPrice] and [orderType], then
    after any later snapshot refreshes, pushes of other data types and
    orders pushes for other accounts, the orders slice is exactly the list
    that push carried, so the enrichment fields are still there when a
    snapshot refresh is processed last. *)
Theorem C1_enriched_push_survives_snapshots
    (account accountId : jsv) (data : list obj)
    (before after : list store_event) (s : state) :
  strict_eq accountId (get_prop_opt account "id") = true →
  some_enriched data = true →
  Forall (λ e, ∀ a d, e = PushEvent (OrdersData a d) →
                      strict_eq a (get_prop_opt account "id") = false)
         after →
  orders (store_run account
            (before ++ PushEvent (OrdersData accountId (Some data)) :: after)
            s) = data.
Proof.
  intros Hacc Hdata Hafter. unfold store_run.
  rewrite fold_left_app. cbn [fold_left].
  set (s1 := fold_left (store_step account) before s).
  assert (Hpush :
    orders (store_step account s1
              (PushEvent (OrdersData accountId (Some data)))) = data).
  { cbn [store_step handleAccountDataUpdated]. by rewrite Hacc. }
  fold (store_run account after
          (store_step account s1
             (PushEvent (OrdersData accountId (Some data))))).
  rewrite store_run_keeps_enriched; [ exact Hpush | exact Hafter |].
  by rewrite Hpush.
Qed.

Lemma C1_enriched_push_survives_snapshots_witness :
  strict_eq (Some (JNum 7)) (get_prop_opt Samples.account7 "id") = true ∧
  some_enriched [Samples.order_enriched] = true ∧
  orders (store_run Samples.account7
    ([ SnapshotRefresh (Api.Fulfilled (Body (Some [])))
                       (Api.Fulfilled (Body None)) ] ++
     PushEvent (OrdersData (Some (JNum 7)) (Some [Samples.order_enriched])) ::
     [ PushEvent (OrdersData (Some (JNum 8)) (Some [Samples.order_plain]));
       PushEvent (PositionsData (Some (JNum 7))
                    (Some [Samples.position_pushed]));
       SnapshotRefresh (Api.Fulfilled (Body (Some [])))
                       (Api.Fulfilled (Body None)) ])
    initial_state) = [Samples.order_enriched].
Proof.
  split; [ reflexivity |]. split; [ reflexivity |].
  apply (C1_enriched_push_survives_snapshots Samples.account7 (Some (JNum 7))
           [Samples.order_enriched]);
    [ reflexivity | reflexivity |].
  apply Forall_cons_2.
  { intros a d Heq. injection Heq as <- _. reflexivity. }
  apply Forall_cons_2; [ intros a d Heq; discriminate Heq |].
  apply Forall_cons_2; [ intros a d Heq; discriminate Heq |].
  apply Forall_nil_2.
Defined.

End Collections.

(** ** The kill switch *)

Section KillSwitch.
Import Dashboard.

(** [api.setKillSwitch] resolves whenever the POST succeeds with a body
    that is not empty. *)
Lemma setKillSwitch_resolves enabled r b st :
  get_prop (Api.data r) "status" = Some st →
  Api.setKillSwitch enabled (Api.Fulfilled r) b =
    (Api.Fulfilled (Api.KillSwitchResult enabled st st), b).
Proof. intros H. unfold Api.setKillSwitch. cbn. by rewrite H. Qed.

(** A resolved [setKillSwitch] carries the requested value. *)
Lemma setKillSwitch_tradingEnabled enabled transport b r b' :
  Api.setKillSwitch enabled transport b = (Api.Fulfilled r, b') →
  Api.tradingEnabled r = enabled.
Proof.
  intros H. unfold Api.setKillSwitch in H.
  destruct (Api.apiClient_call transport b) as [[body | e] b1].
  - destruct (get_prop body "status"); by inversion H.
  - inversion H.
Qed.

(** C9: whenever [setKillSwitch(enabled)] resolves, the [tradingEnabled]
    of the object it resolves to is the requested [enabled], whatever the
    body of the backend's response says, and the toggle handler then stores
    that requested value in the trading-enabled flag. *)
Theorem C9_setKillSwitch_echoes_request
    (enabled : bool) (transport : Api.settled Api.axios_response)
    (b b' : Api.browser) (r : Api.kill_switch_result) :
  Api.setKillSwitch enabled transport b = (Api.Fulfilled r, b') →
  Api.tradingEnabled r = enabled ∧
  ∀ now s,
    tradingEnabled
      (handleKillSwitchToggle_settled enabled (Api.Fulfilled r) now s)
    = enabled.
Proof.
  intros H.
  pose proof (setKillSwitch_tradingEnabled _ _ _ _ _ H) as Hr.
  split; [ exact Hr |].
  intros now s. cbn. exact Hr.
Qed.

Lemma C9_setKillSwitch_echoes_request_witness :
  Api.setKillSwitch true Samples.enable_reports_disabled Samples.logged_in =
    (Api.Fulfilled
       (Api.KillSwitchResult true (Some (JStr "disabled"))
          (Some (JStr "disabled"))),
     Samples.logged_in) ∧
  Api.tradingEnabled
    (Api.KillSwitchResult true (Some (JStr "disabled"))
       (Some (JStr "disabled"))) = true.
Proof.
  split; [ reflexivity |].
  apply (C9_setKillSwitch_echoes_request true Samples.enable_reports_disabled
           Samples.logged_in Samples.logged_in).
  reflexivity.
Defined.

(** C2, as stated, is false: the toggle asks to enable trading, the push
    event [kill_switch_changed {enabled: false}] is processed while the
    request is in flight, and the response, processed after it, sets the
    flag to [true]. *)
Lemma C2_response_after_push_overrides :
  ¬ (∀ (m : ks_machine) (confirm : bool)
       (transport : Api.settled Api.axios_response) (now : string)
       (enabled : bool) (timestamp : jsv),
       tradingEnabled (store (ks_run
         [ ToggleClicked confirm; ToggleSettled transport now;
           KillSwitchPush enabled timestamp ] m)) = enabled ∧
       tradingEnabled (store (ks_run
         [ ToggleClicked confirm; KillSwitchPush enabled timestamp;
           ToggleSettled transport now ] m)) = enabled).
Proof.
  intros H.
  destruct (H Samples.machine0 true Samples.enable_ok
              "2025-01-01T00:03:00.000Z" false
              (Some (JStr "2025-01-01T00:03:00.000Z"))) as [_ Hlate].
  vm_compute in Hlate. discriminate Hlate.
Qed.

(** C2 (amended): the trading-enabled flag holds the value of whichever
    write is processed last.  When the push event is processed after the
    command's response, the flag equals the value the push carried.  When
    the response is processed after the push event, a successful response
    sets the flag to the requested state, and only a failed one leaves the
    pushed value in place. *)
Theorem C2_last_write_wins
    (m : ks_machine) (confirm newState : bool)
    (transport : Api.settled Api.axios_response) (now : string)
    (enabled : bool) (timestamp : jsv) :
  handleKillSwitchToggle_request confirm (store m) = Some newState →
  tradingEnabled (store (ks_run
    [ ToggleClicked confirm; ToggleSettled transport now;
      KillSwitchPush enabled timestamp ] m)) = enabled ∧
  tradingEnabled (store (ks_run
    [ ToggleClicked confirm; KillSwitchPush enabled timestamp;
      ToggleSettled transport now ] m)) =
    match (Api.setKillSwitch newState transport (page m)).1 with
    | Api.Fulfilled _ => newState
    | Api.Rejected _ => enabled
    end.
Proof.
  intros Hreq. unfold ks_run. cbn [fold_left ks_step].
  rewrite Hreq. cbn [store page in_flight handleKillSwitchChanged].
  split.
  - destruct (Api.setKillSwitch newState transport (page m)) as [r b].
    reflexivity.
  - destruct (Api.setKillSwitch newState transport (page m))
      as [[r | e] b] eqn:Hset; cbn.
    + by apply setKillSwitch_tradingEnabled in Hset.
    + reflexivity.
Qed.

Lemma C2_last_write_wins_witness :
  handleKillSwitchToggle_request true (store Samples.machine0) = Some true ∧
  tradingEnabled (store (ks_run
    [ ToggleClicked true;
      ToggleSettled Samples.enable_ok "2025-01-01T00:03:00.000Z";
      KillSwitchPush false (Some (JStr "2025-01-01T00:03:01.000Z")) ]
    Samples.machine0)) = false ∧
  tradingEnabled (store (ks_run
    [ ToggleClicked true;
      KillSwitchPush false (Some (JStr "2025-01-01T00:03:01.000Z"));
      ToggleSettled Samples.enable_ok "2025-01-01T00:03:00.000Z" ]
    Samples.machine0)) = true.
Proof.
  split; [ reflexivity |].
  apply (C2_last_write_wins Samples.machine0 true true Samples.enable_ok
           "2025-01-01T00:03:00.000Z" false
           (Some (JStr "2025-01-01T00:03:01.000Z"))).
  reflexivity.
Defined.

End KillSwitch.

(** ** Serialisation *)

Section Stringify.

Lemma pretty_N_char_digit (y : N) : digit_or_dash (pretty_N_char y) = true.
Proof. unfold pretty_N_char. by repeat case_match. Qed.

Lemma pretty_N_go_first (x : N) (s : string) :
  (0 < x)%N →
  ∃ c, first_char (pretty_N_go x s) = Some c ∧ digit_or_dash c = true.
Proof.
  revert s. induction (N.lt_wf_0 x) as [x _ IH]; intros s Hx.
  rewrite pretty_N_go_step by done.
  destruct (N.eq_0_gt_0_cases (x `div` 10)%N) as [-> | Hq].
  - rewrite pretty_N_go_0. eexists. split; [ reflexivity |].
    apply pretty_N_char_digit.
  - apply IH; [ by apply N.div_lt | done ].
Qed.

Lemma pretty_Z_first (n : Z) :
  ∃ c, first_char (pretty n) = Some c ∧ digit_or_dash c = true.
Proof.
  destruct n as [| p | p].
  - by exists "0"%char.
  - unfold pretty, pretty_Z, pretty, pretty_positive, pretty, pretty_N.
    case_decide; [ lia |]. apply pretty_N_go_first. lia.
  - by exists "-"%char.
Qed.

(** What a serialised value starts with tells its kind. *)
Lemma stringify_first (v : json) :
  ∃ c, first_char (stringify v) = Some c ∧
    match v with
    | JNull => c = "n"%char
    | JBool true => c = "t"%char
    | JBool false => c = "f"%char
    | JNum _ => digit_or_dash c = true
    | JStr _ => c = dquote
    | JArr _ => c = "["%char
    | JObj _ => c = "{"%char
    end.
Proof.
  destruct v as [| [|] | n | s | items | props]; try (by eexists).
  apply pretty_Z_first.
Qed.

Lemma escape_char_nonempty (c : ascii) :
  ∃ a t, escape_char c = String a t.
Proof.
  unfold escape_char, str2, str1. repeat case_match; by eexists _, _.
Qed.

Lemma append_nonempty (s : string) (a : ascii) (t : string) :
  s +:+ String a t ≠ EmptyString.
Proof. by destruct s. Qed.

Lemma quote_empty_inv (s : string) :
  quote s = quote EmptyString → s = EmptyString.
Proof.
  destruct s as [| c rest]; [ done |].
  unfold quote. cbn [escape]. intros [= H].
  destruct (escape_char_nonempty c) as (a & t & Hc).
  rewrite Hc in H. cbn in H. injection H as _ H.
  destruct t; cbn in H.
  - by apply append_nonempty in H.
  - discriminate H.
Qed.

(** A falsy value is determined by its serialisation. *)
Lemma stringify_falsy_inj (r p : jsv) :
  truthy p = false → JSON_stringify r = JSON_stringify p → r = p.
Proof.
  intros Hp Heq.
  destruct p as [p |], r as [r |]; try discriminate Heq; [| done ].
  cbn in Heq. injection Heq as Heq. f_equal.
  pose proof (stringify_first r) as (c & Hc & Hr).
  pose proof (stringify_first p) as (d & Hd & Hpk).
  rewrite Heq, Hd in Hc. injection Hc as ->.
  destruct p as [| [|] | n | s | items | props]; try discriminate Hp.
  - destruct r as [| [|] | ? | ? | ? | ?]; subst; try discriminate; done.
  - destruct r as [| [|] | ? | ? | ? | ?]; subst; try discriminate; done.
  - cbn in Hp. apply negb_false_iff, Z.eqb_eq in Hp. subst n.
    destruct r as [| [|] | m | ? | ? | ?]; try discriminate Heq.
    change (pretty m = pretty 0%Z) in Heq.
    apply (inj pretty) in Heq. by subst m.
  - cbn in Hp. apply negb_false_iff, String.eqb_eq in Hp. subst s.
    destruct r as [| [|] | m | s | ? | ?]; subst; try discriminate.
    cbn in Heq. by apply quote_empty_inv in Heq as ->.
Qed.

Lemma prim_eqb_refl (v : jsv) : is_primitive v = true → prim_eqb v v = true.
Proof.
  destruct v as [[| b | n | s | |] |]; try discriminate; intros _; cbn;
    [ done | by destruct b | apply Z.eqb_refl | apply String.eqb_refl | done ].
Qed.

Lemma Object_is_refl (a : located) : Object_is a a = true.
Proof.
  unfold Object_is. destruct (is_primitive (val a)) eqn:Hp.
  - by apply prim_eqb_refl.
  - cbn. apply Nat.eqb_refl.
Qed.

Lemma prim_eqb_eq (a b : jsv) : prim_eqb a b = true → a = b.
Proof.
  destruct a as [[| x | x | x | |] |], b as [[| y | y | y | |] |];
    try discriminate; cbn; intros H; try done.
  - by apply Bool.eqb_prop in H as ->.
  - by apply Z.eqb_eq in H as ->.
  - by apply String.eqb_eq in H as ->.
Qed.

(** Two different objects are [Object.is]-equal only as equal
    primitives. *)
Lemma Object_is_fresh (a b : located) :
  Object_is a b = true → loc a ≠ loc b → val a = val b.
Proof.
  unfold Object_is. destruct (is_primitive (val a)).
  - intros H _. by apply prim_eqb_eq.
  - intros [_ H%Nat.eqb_eq]%andb_true_iff Hne. by destruct Hne.
Qed.

Lemma falsy_primitive (v : jsv) : truthy v = false → is_primitive v = true.
Proof. by destruct v as [[| | | | |] |]. Qed.

End Stringify.

(** ** Critical status *)

Section CriticalStatus.
Import Dashboard.

(** C8: a critical-status update, pushed or fetched, whose serialised
    form equals that of the stored value leaves the whole store as it was
    and fires no state-change notification. *)
Theorem C8_identical_status_is_noop (data : located) (s : state) :
  JSON_stringify (val data) = JSON_stringify (val (criticalStatus s)) →
  handleCriticalStatusUpdate data s = (s, false) ∧
  loadCriticalStatus (Api.Fulfilled data) s = (s, false).
Proof.
  intros Heq. split.
  - unfold handleCriticalStatusUpdate, setCriticalStatus_with,
      criticalStatusUpdate_updater.
    case_decide; [ done |]. by rewrite Object_is_refl.
  - unfold loadCriticalStatus, setCriticalStatus_with,
      loadCriticalStatus_updater.
    destruct (truthy (val (criticalStatus s))) eqn:Htruthy; cbn [negb].
    + case_decide; [ done |]. by rewrite Object_is_refl.
    + pose proof (stringify_falsy_inj _ _ Htruthy Heq) as Hval.
      unfold Object_is. rewrite Hval.
      rewrite (falsy_primitive _ Htruthy).
      by rewrite (prim_eqb_refl _ (falsy_primitive _ Htruthy)).
Qed.

Lemma C8_identical_status_is_noop_witness :
  JSON_stringify (val (Located 2 (Some Samples.status_healthy))) =
    JSON_stringify (val (criticalStatus Samples.store_with_status)) ∧
  handleCriticalStatusUpdate (Located 2 (Some Samples.status_healthy))
    Samples.store_with_status = (Samples.store_with_status, false) ∧
  loadCriticalStatus (Api.Fulfilled (Located 2 (Some Samples.status_healthy)))
    Samples.store_with_status = (Samples.store_with_status, false).
Proof.
  split; [ reflexivity |].
  apply (C8_identical_status_is_noop (Located 2 (Some Samples.status_healthy))
           Samples.store_with_status).
  reflexivity.
Defined.

(** A changed status, in a new object, does replace the stored one. *)
Lemma changed_status_is_stored (data : located) (s : state) :
  JSON_stringify (val data) ≠ JSON_stringify (val (criticalStatus s)) →
  is_primitive (val data) = false →
  loc data ≠ loc (criticalStatus s) →
  handleCriticalStatusUpdate data s = (setCriticalStatus data s, true).
Proof.
  intros Hne Hobj Hloc.
  unfold handleCriticalStatusUpdate, setCriticalStatus_with,
    criticalStatusUpdate_updater.
  case_decide; [| done ].
  unfold Object_is. rewrite Hobj.
  apply Nat.eqb_neq in Hloc. rewrite Hloc. by rewrite andb_false_r.
Qed.

End CriticalStatus.

(** ** Failed requests *)

Section Failures.
Import Dashboard.

(** An error rejected by the response interceptor has no [response]
    property: the status code is copied to [status]. *)
Lemma interceptor_error_has_no_response on401 error b :
  Api.response (Api.response_rejected on401 error b).1 = None.
Proof.
  unfold Api.response_rejected. by destruct (strict_eq _ _).
Qed.

(** C7: on a 401 the interceptor removes the stored credential, reloads
    the page and rejects with the error [Authentication required]; on any
    other error it leaves the browser alone and rejects with an error whose
    message is the backend's error text when there is one, else the
    transport message, else [Network error], and which carries the HTTP
    status code and the original error.  The interceptor of [apiAuth.js]
    gives the same error and the same browser as the one of [api.js], in
    both cases. *)
Theorem C7_interceptor_rejections (error : Api.js_error) (b : Api.browser) :
  (strict_eq (Api.response_status error) (Some (JNum 401)) = true →
     Api.interceptor_api error b =
       (Api.new_Error "Authentication required",
        Api.Browser (delete "dashboardToken" (Api.localStorage b)) true) ∧
     Api.interceptor_apiAuth error b = Api.interceptor_api error b ∧
     Api.localStorage (Api.interceptor_api error b).2 !! "dashboardToken"
       = None ∧
     Api.message (Api.interceptor_api error b).1
       = Some (JStr "Authentication required")) ∧
  (strict_eq (Api.response_status error) (Some (JNum 401)) = false →
     let rejected := (Api.interceptor_api error b).1 in
     Api.interceptor_apiAuth error b = Api.interceptor_api error b ∧
     (Api.interceptor_api error b).2 = b ∧
     Api.error_status rejected = Api.response_status error ∧
     Api.originalError rejected = Some error ∧
     Api.response rejected = None ∧
     (truthy (Api.response_data_error error) = true →
        Api.message rejected =
          Some (JStr (ToString (Api.response_data_error error)))) ∧
     (truthy (Api.response_data_error error) = false →
        truthy (Api.message error) = true →
        Api.message rejected =
          Some (JStr (ToString (Api.message error)))) ∧
     (truthy (Api.response_data_error error) = false →
        truthy (Api.message error) = false →
        Api.message rejected = Some (JStr "Network error"))).
Proof.
  split; intros H401.
  - unfold Api.interceptor_api, Api.interceptor_apiAuth, Api.response_rejected.
    rewrite H401. cbn [fst snd Api.localStorage Api.message Api.new_Error].
    repeat split.
    apply lookup_delete_eq.
  - cbn zeta.
    unfold Api.interceptor_api, Api.interceptor_apiAuth, Api.response_rejected.
    rewrite H401.
    cbn [fst snd Api.error_status Api.originalError Api.message Api.response].
    unfold Api.errorMessage, js_or.
    repeat split.
    + by intros ->.
    + by intros -> ->.
    + by intros -> ->.
Qed.

Lemma C7_interceptor_rejections_witness :
  strict_eq (Api.response_status Samples.error_401) (Some (JNum 401)) = true ∧
  Api.interceptor_api Samples.error_401 Samples.logged_in =
    (Api.new_Error "Authentication required",
     Api.Browser (delete "dashboardToken"
                    (Api.localStorage Samples.logged_in)) true) ∧
  strict_eq (Api.response_status Samples.error_500) (Some (JNum 401)) = false ∧
  Api.interceptor_apiAuth Samples.error_500 Samples.logged_in =
    Api.interceptor_api Samples.error_500 Samples.logged_in ∧
  Api.message (Api.interceptor_api Samples.error_500 Samples.logged_in).1 =
    Some (JStr "Service not running").
Proof.
  split; [ reflexivity |].
  split.
  { apply (proj1 (C7_interceptor_rejections Samples.error_401
                    Samples.logged_in)).
    reflexivity. }
  split; [ reflexivity |].
  pose proof (proj2 (C7_interceptor_rejections Samples.error_500
                       Samples.logged_in) eq_refl)
    as (Hsame & _ & _ & _ & _ & Hbackend & _).
  split; [ exact Hsame |].
  apply Hbackend. reflexivity.
Defined.

(** The 503 branch of [loadAccountSummary] reads [error.response], which
    the errors of the backend client never have. *)
Lemma refreshAccountSummary_failed account error b s :
  (refreshAccountSummary account (Api.Rejected error) b s).1 = s.
Proof.
  unfold refreshAccountSummary, loadAccountSummary.
  destruct (get_prop account "id"); [| reflexivity ].
  unfold Api.getAccountSummary, Api.apiClient_call.
  pose proof (interceptor_error_has_no_response Api.on401_api error b) as H.
  fold Api.interceptor_api in H.
  destruct (Api.interceptor_api error b) as [e b']. cbn in H |- *.
  unfold Api.response_status. by rewrite H.
Qed.

(** Handed such a 503 directly, [loadAccountSummary] would store its
    placeholder. *)
Lemma loadAccountSummary_raw_503 :
  accountSummary
    (loadAccountSummary Samples.account7 (Api.Rejected Samples.error_503)
       initial_state) =
  Some (summary_placeholder (Some (JNum 7))).
Proof. reflexivity. Qed.

Lemma getCriticalStatus_failed active svc now b error :
  active = Api.Rejected error ∨
    (∃ r, active = Api.Fulfilled r ∧ svc = Api.Rejected error) →
  (Api.getCriticalStatus active svc now b).1 =
    Api.critical_status_placeholder now.
Proof.
  unfold Api.getCriticalStatus.
  intros [-> | (r & -> & ->)]; cbn [Api.apiClient_call].
  - by destruct (Api.interceptor_api error b).
  - by destruct (Api.interceptor_api error b).
Qed.

(** What the store holds after [loadCriticalStatus] is handed a new
    object: a value that serialises like it. *)
Lemma loadCriticalStatus_serialisation (response : json) (fresh : nat) s :
  fresh ≠ loc (criticalStatus s) →
  JSON_stringify
    (val (criticalStatus
       (loadCriticalStatus
          (Api.Fulfilled (Located fresh (Some response))) s).1)) =
  Some (stringify response).
Proof.
  intros Hfresh.
  unfold loadCriticalStatus, setCriticalStatus_with,
    loadCriticalStatus_updater.
  assert (Hnew : ∀ b : bool,
    JSON_stringify (val (criticalStatus
      (if Object_is (Located fresh (Some response)) (criticalStatus s)
       then (s, b)
       else (setCriticalStatus (Located fresh (Some response)) s, negb b)).1))
    = Some (stringify response)).
  { intros b.
    destruct (Object_is _ _) eqn:Hois; [| done ].
    apply Object_is_fresh in Hois; [| done ].
    cbn [fst]. by rewrite <- Hois. }
  destruct (truthy (val (criticalStatus s))); cbn [negb].
  - case_decide as Hd.
    + apply (Hnew false).
    + rewrite Object_is_refl. cbn [fst].
      by rewrite <- Hd.
  - apply (Hnew false).
Qed.

(** C6, as stated, is false for the critical status: the request times
    out, [api.getCriticalStatus] answers with its error placeholder, and the
    store replaces the status it held by that placeholder. *)
Lemma C6_failed_critical_refresh_stores_placeholder :
  ¬ (∀ (active svc : Api.settled Api.axios_response) (error : Api.js_error)
       (now : string) (fresh : nat) (b : Api.browser) (s : state),
       active = Api.Rejected error →
       fresh ≠ loc (criticalStatus s) →
       criticalStatus (refreshCriticalStatus active svc now fresh b s).1.1
         = criticalStatus s).
Proof.
  intros H.
  specialize (H (Api.Rejected Samples.error_timeout)
                (Api.Rejected Samples.error_timeout) Samples.error_timeout
                "2025-01-01T00:05:00.000Z" 2 Samples.logged_in
                Samples.store_with_status eq_refl).
  cbn in H. specialize (H ltac:(lia)). discriminate H.
Qed.

(** Handed an error that does not carry a 503 response,
    [loadAccountSummary] leaves the summary alone. *)
Lemma loadAccountSummary_failed account error s :
  strict_eq (Api.response_status error) (Some (JNum 503)) = false →
  loadAccountSummary account (Api.Rejected error) s = s.
Proof.
  intros H. unfold loadAccountSummary.
  destruct (get_prop account "id"); [| reflexivity ]. by rewrite H.
Qed.

(** C6 (amended): a failed request leaves the account summary, the
    positions and the orders as they were - the summary on every failure,
    a 503 included, since the error the backend client rejects with has no
    [response] for [loadAccountSummary] to test; [loadCriticalStatus]
    leaves the critical status alone when its call rejects.  But
    [api.getCriticalStatus] does not reject: a failed request makes it
    return an error placeholder, and after the refresh the store holds a
    critical status that serialises like that placeholder. *)
Theorem C6_failed_refresh
    (account : jsv) (error : Api.js_error) (b : Api.browser) (s : state) :
  (refreshAccountSummary account (Api.Rejected error) b s).1 = s ∧
  (∀ o, positions (loadOrdersAndPositions account (Api.Rejected error) o s)
        = positions s) ∧
  (∀ p, orders (loadOrdersAndPositions account p (Api.Rejected error) s)
        = orders s) ∧
  criticalStatus (loadCriticalStatus (Api.Rejected error) s).1
    = criticalStatus s ∧
  (∀ active svc now fresh,
     active = Api.Rejected error ∨
       (∃ r, active = Api.Fulfilled r ∧ svc = Api.Rejected error) →
     fresh ≠ loc (criticalStatus s) →
     JSON_stringify
       (val (criticalStatus
               (refreshCriticalStatus active svc now fresh b s).1.1))
     = Some (stringify (Api.critical_status_placeholder now))).
Proof.
  split; [ apply refreshAccountSummary_failed |].
  split; [| split; [| split ]].
  - intros o. unfold loadOrdersAndPositions.
    destruct (get_prop account "id"); [| reflexivity ].
    by destruct o as [[| items] | ?].
  - intros p. unfold loadOrdersAndPositions.
    destruct (get_prop account "id"); [| reflexivity ].
    by destruct p as [[| items] | ?].
  - reflexivity.
  - intros active svc now fresh Hfail Hfresh.
    unfold refreshCriticalStatus.
    pose proof (getCriticalStatus_failed active svc now b error Hfail) as Hp.
    destruct (Api.getCriticalStatus active svc now b) as [response b'].
    cbn [fst] in Hp |- *. subst response.
    by apply loadCriticalStatus_serialisation.
Qed.

Lemma C6_failed_refresh_witness :
  (refreshAccountSummary Samples.account7 (Api.Rejected Samples.error_503)
     Samples.logged_in Samples.store_with_status).1
    = Samples.store_with_status ∧
  (2 ≠ loc (criticalStatus Samples.store_with_status) ∧
   JSON_stringify
     (val (criticalStatus
             (refreshCriticalStatus (Api.Rejected Samples.error_503)
                (Api.Rejected Samples.error_503)
                "2025-01-01T00:05:00.000Z" 2 Samples.logged_in
                Samples.store_with_status).1.1))
   = Some (stringify
             (Api.critical_status_placeholder "2025-01-01T00:05:00.000Z"))).
Proof.
  pose proof (C6_failed_refresh Samples.account7 Samples.error_503
                Samples.logged_in Samples.store_with_status)
    as (Hsummary & _ & _ & _ & Hcritical).
  split; [ exact Hsummary |].
  split; [ cbn; lia |].
  apply Hcritical; [ left; reflexivity | cbn; lia ].
Defined.

End Failures.

(** ** The session store *)

Section Session.

Lemma truthy_string (t : string) :
  truthy (Some (JStr t)) = true ↔ t ≠ EmptyString.
Proof.
  cbn. destruct (String.eqb_spec t EmptyString) as [-> | Hne]; cbn;
    split; try done.
Qed.

Lemma getToken_setItem_other k v b :
  k ≠ Api.TOKEN_KEY → Auth.getToken (Auth.setItem k v b) = Auth.getToken b.
Proof. intros H. unfold Auth.getToken, Auth.getItem. cbn. by apply lookup_insert_ne. Qed.

(** Storing a non-empty token and reading it back: the token is the one
    stored, the session counts as authenticated, both request interceptors
    send [Bearer <token>] and leave every other header alone, and no other
    key of the storage changes. *)
Theorem setToken_round_trip
    (t : string) (b : Api.browser) (headers : gmap string string) :
  t ≠ EmptyString →
  let b' := Auth.setToken (Some (JStr t)) b in
  Auth.getToken b' = Some t ∧
  Auth.isAuthenticated b' = true ∧
  Auth.request_interceptor_api b' headers
    = <["Authorization" := "Bearer " +:+ t]> headers ∧
  Auth.request_interceptor_apiAuth b' headers
    = <["Authorization" := "Bearer " +:+ t]> headers ∧
  (∀ k, k ≠ "dashboardToken" → Auth.getItem k b' = Auth.getItem k b).
Proof.
  intros Ht. apply truthy_string in Ht as Htruthy. cbn zeta.
  unfold Auth.setToken. rewrite Htruthy.
  assert (Hget : Auth.getToken
            (Auth.setItem Api.TOKEN_KEY (ToString (Some (JStr t))) b)
          = Some t).
  { unfold Auth.getToken, Auth.getItem. cbn. apply lookup_insert_eq. }
  split; [ exact Hget |].
  split; [ unfold Auth.isAuthenticated; by rewrite Hget |].
  split; [| split ].
  - unfold Auth.request_interceptor_api.
    change (Auth.getItem "dashboardToken") with Auth.getToken.
    rewrite Hget. cbn [Auth.item_value]. by rewrite Htruthy.
  - unfold Auth.request_interceptor_apiAuth.
    rewrite Hget. cbn [Auth.item_value]. by rewrite Htruthy.
  - intros k Hk. unfold Auth.getItem. cbn.
    by apply lookup_insert_ne.
Qed.

Lemma setToken_round_trip_witness :
  "secret" ≠ EmptyString ∧
  Auth.getToken (Auth.setToken (Some (JStr "secret")) Inputs.logged_out)
    = Some "secret".
Proof.
  split; [ discriminate |].
  apply (setToken_round_trip "secret" Inputs.logged_out ∅). discriminate.
Defined.

(** Without a stored token nothing is sent. *)
Lemma no_token_no_credential b headers :
  Auth.getToken b = None →
  Auth.isAuthenticated b = false ∧
  Auth.getAuthHeaders b = ∅ ∧
  Auth.request_interceptor_api b headers = headers ∧
  Auth.request_interceptor_apiAuth b headers = headers.
Proof.
  intros H.
  unfold Auth.isAuthenticated, Auth.getAuthHeaders,
    Auth.request_interceptor_api, Auth.request_interceptor_apiAuth.
  change (Auth.getItem "dashboardToken") with Auth.getToken.
  by rewrite H.
Qed.

Lemma getToken_clearToken b : Auth.getToken (Api.clearToken b) = None.
Proof. unfold Auth.getToken, Auth.getItem. cbn. apply lookup_delete_eq. Qed.

(** Every way of ending a session - [setToken] with an empty or absent
    value, [clearToken], [logout], the 401 handlers of both clients, the
    logout of the application - leaves a browser that is not authenticated
    and whose requests carry no [Authorization] header of the client's
    making. *)
Theorem ended_session_sends_no_credential
    (token : jsv) (b : Api.browser) (headers : gmap string string) :
  truthy token = false →
  Forall (fun b' =>
            Auth.isAuthenticated b' = false ∧
            Auth.getAuthHeaders b' = ∅ ∧
            Auth.request_interceptor_api b' headers = headers ∧
            Auth.request_interceptor_apiAuth b' headers = headers)
    [ Auth.setToken token b; Api.clearToken b; Auth.logout b;
      Api.handleUnauthorized b; Api.on401_api b; Auth.handleLogout b ].
Proof.
  intros Htoken.
  repeat apply Forall_cons_2; try apply Forall_nil_2;
    apply no_token_no_credential.
  - unfold Auth.setToken. rewrite Htoken. apply getToken_clearToken.
  - apply getToken_clearToken.
  - apply getToken_clearToken.
  - apply getToken_clearToken.
  - apply getToken_clearToken.
  - unfold Auth.handleLogout, Auth.getToken, Auth.getItem. cbn.
    rewrite lookup_delete_ne by discriminate. apply lookup_delete_eq.
Qed.

Lemma ended_session_sends_no_credential_witness :
  truthy (Some (JStr EmptyString)) = false ∧
  Auth.isAuthenticated
    (Auth.setToken (Some (JStr EmptyString)) Samples.logged_in) = false.
Proof.
  split; [ reflexivity |].
  pose proof (ended_session_sends_no_credential (Some (JStr EmptyString))
                Samples.logged_in ∅ eq_refl) as H.
  apply Forall_cons in H as [[H _] _]. exact H.
Defined.

(** A 401 clears the token and reloads the page but keeps the saved
    account selection, in both clients; the logout of the application
    removes the selection as well. *)
Theorem unauthorized_keeps_account_selection (b : Api.browser) :
  Auth.getItem Auth.SELECTED_ACCOUNT_KEY (Api.on401_api b)
    = Auth.getItem Auth.SELECTED_ACCOUNT_KEY b ∧
  Auth.getItem Auth.SELECTED_ACCOUNT_KEY (Api.handleUnauthorized b)
    = Auth.getItem Auth.SELECTED_ACCOUNT_KEY b ∧
  Auth.getItem Auth.SELECTED_ACCOUNT_KEY (Auth.handleLogout b) = None ∧
  Api.reloaded (Api.on401_api b) = true ∧
  Api.reloaded (Api.handleUnauthorized b) = true ∧
  Api.reloaded (Auth.handleLogout b) = true ∧
  Auth.getToken (Api.on401_api b) = None ∧
  Auth.getToken (Api.handleUnauthorized b) = None ∧
  Auth.getToken (Auth.handleLogout b) = None.
Proof.
  unfold Auth.getToken, Auth.getItem, Auth.handleLogout, Auth.logout. cbn.
  repeat split.
  - by apply lookup_delete_ne.
  - by apply lookup_delete_ne.
  - apply lookup_delete_eq.
  - apply lookup_delete_eq.
  - apply lookup_delete_eq.
  - rewrite lookup_delete_ne by done. apply lookup_delete_eq.
Qed.

(** [login] with a non-empty token succeeds exactly when the health
    endpoint answers 2xx to that token; then the token is stored, and
    otherwise the browser is left as it was and the result carries the
    invalid-token message. *)
Theorem login_stores_only_valid_tokens
    (t : string) (health : Auth.server) (b : Api.browser) :
  t ≠ EmptyString →
  let r := (Auth.login (Some (JStr t)) health b).1 in
  let b' := (Auth.login (Some (JStr t)) health b).2 in
  (Auth.success r = true ↔
     ∃ status, health ("Bearer " +:+ t) = Some status ∧
               Auth.ok status = true) ∧
  (Auth.success r = true → Auth.getToken b' = Some t) ∧
  (Auth.success r = false →
     b' = b ∧
     Auth.error r = Some "Invalid token. Please check and try again.").
Proof.
  intros Ht. apply truthy_string in Ht as Htruthy. cbn zeta.
  unfold Auth.login, Auth.validateToken, js_or. cbn zeta.
  rewrite !Htruthy. cbn [negb ToString to_string].
  destruct (health ("Bearer " +:+ t)) as [status |] eqn:Hh.
  - destruct (Auth.ok status) eqn:Hok; cbn [fst snd Auth.success Auth.error].
    + split; [ split; [ eauto | done ] |].
      split; [| done ]. intros _.
      unfold Auth.setToken. rewrite Htruthy.
      unfold Auth.getToken, Auth.getItem. cbn. apply lookup_insert_eq.
    + split; [ split; [ done |] |].
      * intros (st & [= <-] & Hst). congruence.
      * split; done.
  - cbn [fst snd Auth.success Auth.error].
    split; [ split; [ done | by intros (st & ? & _) ] |].
    split; done.
Qed.

Lemma login_stores_only_valid_tokens_witness :
  "secret" ≠ EmptyString ∧
  (Auth.success
     (Auth.login (Some (JStr "secret")) Inputs.rejecting
        Inputs.logged_out).1 = false →
   (Auth.login (Some (JStr "secret")) Inputs.rejecting Inputs.logged_out).2
     = Inputs.logged_out ∧
   Auth.error
     (Auth.login (Some (JStr "secret")) Inputs.rejecting
        Inputs.logged_out).1
     = Some "Invalid token. Please check and try again.").
Proof.
  split; [ discriminate |].
  apply (login_stores_only_valid_tokens "secret" Inputs.rejecting
           Inputs.logged_out).
  discriminate.
Defined.

(** [login] with an empty or absent token validates the stored token
    instead; when that one is valid, [login] reports success and then
    clears it: the call that reports a successful login ends the
    session. *)
Theorem login_without_token_ends_session
    (token : jsv) (stored : string) (health : Auth.server)
    (status : Z) (b : Api.browser) :
  truthy token = false →
  Auth.getToken b = Some stored →
  stored ≠ EmptyString →
  health ("Bearer " +:+ stored) = Some status →
  Auth.ok status = true →
  Auth.success (Auth.login token health b).1 = true ∧
  Auth.getToken (Auth.login token health b).2 = None ∧
  Auth.isAuthenticated (Auth.login token health b).2 = false.
Proof.
  intros Htoken Hstored Hne Hh Hok.
  apply truthy_string in Hne as Htruthy.
  unfold Auth.login, Auth.validateToken, js_or. cbn zeta.
  rewrite !Htoken, !Hstored. cbn [Auth.item_value]. rewrite !Htruthy.
  cbn [negb ToString to_string]. rewrite Hh, Hok.
  cbn [fst snd Auth.success]. unfold Auth.setToken. rewrite Htoken.
  split; [ done |].
  split; [ apply getToken_clearToken |].
  unfold Auth.isAuthenticated. by rewrite getToken_clearToken.
Qed.

Lemma login_without_token_ends_session_witness :
  Auth.success
    (Auth.login (Some (JStr EmptyString)) Inputs.accepting
       Samples.logged_in).1 = true ∧
  Auth.getToken
    (Auth.login (Some (JStr EmptyString)) Inputs.accepting
       Samples.logged_in).2 = None ∧
  Auth.isAuthenticated
    (Auth.login (Some (JStr EmptyString)) Inputs.accepting
       Samples.logged_in).2 = false.
Proof.
  apply (login_without_token_ends_session (Some (JStr EmptyString)) "secret"
           Inputs.accepting 200%Z Samples.logged_in);
    [ reflexivity | reflexivity | discriminate | reflexivity | reflexivity ].
Defined.

(** The start-up check shows the application authenticated exactly when
    the browser holds a non-empty token that the health endpoint answers
    with a 2xx status.  Such a token leaves the browser untouched, and so
    does the absence of a token; a stored token the endpoint does not
    accept, or cannot be asked about, is removed, and nothing else changes
    in the storage.  So afterwards the application shows itself
    authenticated exactly when the browser still holds a token. *)
Theorem checkAuth_agrees_with_storage
    (health : Auth.server) (b : Api.browser) :
  ((Auth.checkAuth health b).1 = true ↔
     ∃ t status, Auth.getToken b = Some t ∧ t ≠ EmptyString ∧
                 health ("Bearer " +:+ t) = Some status ∧
                 Auth.ok status = true) ∧
  ((Auth.checkAuth health b).1 = true → (Auth.checkAuth health b).2 = b) ∧
  (Auth.isAuthenticated b = false → (Auth.checkAuth health b).2 = b) ∧
  (Auth.isAuthenticated b = true → (Auth.checkAuth health b).1 = false →
     (Auth.checkAuth health b).2 = Api.clearToken b ∧
     Auth.getToken (Auth.checkAuth health b).2 = None) ∧
  (∀ k, k ≠ "dashboardToken" →
        Auth.getItem k (Auth.checkAuth health b).2 = Auth.getItem k b) ∧
  (Auth.checkAuth health b).1
    = Auth.isAuthenticated (Auth.checkAuth health b).2.
Proof.
  unfold Auth.checkAuth, Auth.validateToken, Auth.isAuthenticated.
  unfold js_or. cbn [truthy].
  destruct (Auth.getToken b) as [t |] eqn:Htoken; cbn [Auth.item_value truthy].
  - destruct (String.eqb_spec t EmptyString) as [-> | Hne]; cbn [negb].
    + cbn [fst snd]. rewrite Htoken. cbn.
      repeat split; try done.
      intros (t & status & [= <-] & Hne & _). done.
    + cbn [ToString to_string].
      destruct (health ("Bearer " +:+ t)) as [status |] eqn:Hhealth.
      * destruct (Auth.ok status) eqn:Hok; cbn [fst snd].
        -- rewrite Htoken. cbn [Auth.item_value truthy].
           destruct (String.eqb_spec t EmptyString); [ done |].
           repeat split; try done.
           intros _. by exists t, status.
        -- rewrite getToken_clearToken. cbn [Auth.item_value truthy].
           repeat split; try done.
           ++ intros (t' & status' & [= <-] & _ & Hh & Hok').
              rewrite Hhealth in Hh. injection Hh as <-.
              by rewrite Hok in Hok'.
           ++ intros k Hk. unfold Auth.getItem, Api.clearToken. cbn.
              by apply lookup_delete_ne.
      * cbn [fst snd]. rewrite getToken_clearToken.
        cbn [Auth.item_value truthy].
        repeat split; try done.
        -- intros (t' & status' & [= <-] & _ & Hh & _).
           by rewrite Hhealth in Hh.
        -- intros k Hk. unfold Auth.getItem, Api.clearToken. cbn.
           by apply lookup_delete_ne.
  - cbn [fst snd]. rewrite Htoken. cbn.
    repeat split; try done.
    intros (t & status & [=] & _).
Qed.

Lemma checkAuth_agrees_with_storage_witness :
  (Auth.checkAuth Inputs.accepting Samples.logged_in).1 = true ∧
  Auth.isAuthenticated Samples.logged_in = true ∧
  (Auth.checkAuth Inputs.rejecting Samples.logged_in).1 = false ∧
  Auth.getToken (Auth.checkAuth Inputs.rejecting Samples.logged_in).2 = None.
Proof.
  split.
  { apply (proj1 (checkAuth_agrees_with_storage Inputs.accepting
                    Samples.logged_in)).
    exists "secret", 200%Z. repeat split; (reflexivity || discriminate). }
  split; [ reflexivity |]. split; [ reflexivity |].
  apply (checkAuth_agrees_with_storage Inputs.rejecting Samples.logged_in);
    reflexivity.
Defined.

(** The login form: a blank token changes nothing; otherwise the token is
    written to the storage before it is tested, [onLogin] is called exactly
    when the endpoint answers 2xx, and the token is removed again only on a
    401 - after any other failure, a server error or an unreachable
    network, the untested token stays in the storage. *)
Theorem handleSubmit_keeps_token_unless_401
    (token : string) (dashboard : Auth.server) (b : Api.browser) :
  let r := (Auth.handleSubmit token dashboard b).1 in
  let b' := (Auth.handleSubmit token dashboard b).2 in
  (Auth.is_blank token = true → b' = b ∧ Auth.onLogin r = None) ∧
  (Auth.is_blank token = false →
     (Auth.onLogin r = Some token ↔
        ∃ status, dashboard ("Bearer " +:+ token) = Some status ∧
                  Auth.ok status = true) ∧
     (dashboard ("Bearer " +:+ token) = Some 401%Z →
        Auth.getToken b' = None) ∧
     (dashboard ("Bearer " +:+ token) ≠ Some 401%Z →
        Auth.getToken b' = Some token)).
Proof.
  cbn zeta. unfold Auth.handleSubmit.
  destruct (Auth.is_blank token); [ by split |].
  split; [ done | intros _ ].
  assert (Hstored :
    Auth.getToken (Auth.setItem "dashboardToken" token b) = Some token).
  { unfold Auth.getToken, Auth.getItem. cbn. apply lookup_insert_eq. }
  assert (Hremoved :
    Auth.getToken
      (Auth.removeItem "dashboardToken"
         (Auth.setItem "dashboardToken" token b)) = None).
  { unfold Auth.getToken, Auth.getItem. cbn. apply lookup_delete_eq. }
  destruct (dashboard ("Bearer " +:+ token)) as [status |].
  - destruct (Auth.ok status) eqn:Hok; cbn [fst snd Auth.onLogin].
    + split; [ split; eauto |].
      split; [| done ]. intros [= ->]. discriminate Hok.
    + destruct (status =? 401)%Z eqn:H401; cbn [fst snd Auth.onLogin].
      * split; [ split; [ done |] |].
        { intros (st & [= <-] & Hst). congruence. }
        split; [ done |]. intros Hne. apply Z.eqb_eq in H401. by subst.
      * split; [ split; [ done |] |].
        { intros (st & [= <-] & Hst). congruence. }
        split; [| done ]. intros [= ->]. discriminate H401.
  - cbn [fst snd Auth.onLogin].
    split; [ split; [ done | by intros (st & ? & _) ] |].
    split; done.
Qed.

Lemma handleSubmit_keeps_token_unless_401_witness :
  Auth.is_blank "secret" = false ∧
  Inputs.failing ("Bearer " +:+ "secret") ≠ Some 401%Z ∧
  Auth.getToken (Auth.handleSubmit "secret" Inputs.failing Inputs.logged_out).2
    = Some "secret".
Proof.
  split; [ reflexivity |]. split; [ discriminate |].
  apply (handleSubmit_keeps_token_unless_401 "secret" Inputs.failing
           Inputs.logged_out);
    [ reflexivity | discriminate ].
Defined.

End Session.

(** ** Calls that answer for their own failures *)

Section Requests.

Lemma lookup_object_literal_head k v rest :
  lookup_prop k (object_literal ((k, v) :: rest)) =
  match v with Some j => Some j | None => lookup_prop k (object_literal rest) end.
Proof. destruct v; cbn; [ by rewrite String.eqb_refl | done ]. Qed.

(** After the kill-switch status has been loaded the flag is the truth
    value of the [enabled] member of the response body; when the request
    fails, or its body is empty, the flag is set to [false], whatever it was
    before. *)
Theorem failed_status_load_shows_disabled
    (transport : Api.settled Api.axios_response) (b : Api.browser)
    (s : Dashboard.state) :
  Dashboard.tradingEnabled (Panels.refreshKillSwitchStatus transport b s).1 =
  match transport with
  | Api.Fulfilled r => truthy (get_prop_opt (Api.data r) "enabled")
  | Api.Rejected _ => false
  end.
Proof.
  unfold Panels.refreshKillSwitchStatus, Endpoints.getKillSwitchStatus,
    Api.apiClient_call.
  destruct transport as [r | e].
  - unfold Endpoints.read, get_prop_opt.
    destruct (get_prop (Api.data r) "enabled") as [[enabled |] |] eqn:Hget;
      cbn; try done.
    destruct (Api.data r) as [[| | | | |] |]; by cbn.
  - destruct (Api.interceptor_api e b) as [e' b']. reflexivity.
Qed.

(** The element [find] returns has the name, so it is an object. *)
Lemma find_named_object name items svc :
  Endpoints.find_named name items = Api.Fulfilled (Some svc) →
  ∃ o, svc = JObj o.
Proof.
  induction items as [| s rest IH]; [ done |].
  cbn [Endpoints.find_named]. unfold Endpoints.and_then, Endpoints.read.
  destruct (get_prop (Some s) "name") as [n |] eqn:Hn; [| done ].
  destruct (strict_eq n (Some (JStr name))) eqn:Heq; [| exact IH ].
  intros [= <-].
  destruct s as [| | | | | o]; cbn in Hn; try discriminate Hn;
    [ injection Hn as <-; discriminate Heq .. | by eexists ].
Qed.

Lemma strict_eq_string (v : jsv) (t : string) :
  strict_eq v (Some (JStr t)) = true ↔ v = Some (JStr t).
Proof.
  split.
  - apply prim_eqb_eq.
  - intros ->. cbn. apply String.eqb_refl.
Qed.

(** What the connection check leaves, by the health object it is
    handed. *)
Lemma check_on_health_failed (authenticationError : jsv) p :
  Panels.tradovateStatus
    (Panels.checkTradovateConnection_settled
       (@Api.Fulfilled jsv (Some (JObj (Endpoints.health_failed
                                          authenticationError)))) p)
  = "auth_failed".
Proof. by destruct authenticationError. Qed.

Ltac health_failed_case Hchecking :=
  match goal with
  | |- context [Panels.checkTradovateConnection_settled ?r ?q] =>
      let Hst := fresh "Hst" in
      assert (Hst : Panels.tradovateStatus
                      (Panels.checkTradovateConnection_settled r q)
                    = "auth_failed")
        by apply check_on_health_failed;
      rewrite Hst, Hchecking
  end.

(** The Tradovate connection check, on top of [api.getTradingHealth],
    only ever ends in [connected] or [auth_failed] ([disconnected] and
    [error] cannot be reached), with the checking flag off; it ends in
    [connected] exactly when the services request succeeds with an array
    whose first element named [tradovate-service] has status [running]. *)
Theorem tradovate_check_outcomes
    (transport : Api.settled Api.axios_response) (b : Api.browser)
    (p : Panels.panel) :
  let p' := (Panels.checkTradovateConnection transport b p).1 in
  (Panels.tradovateStatus p' = "connected" ∨
   Panels.tradovateStatus p' = "auth_failed") ∧
  Panels.isTradovateChecking p' = false ∧
  (Panels.tradovateStatus p' = "connected" ↔
     ∃ r items svc,
       transport = Api.Fulfilled r ∧
       Api.data r = Some (JArr items) ∧
       Endpoints.find_named "tradovate-service" items
         = Api.Fulfilled (Some svc) ∧
       get_prop_opt (Some svc) "status" = Some (JStr "running")).
Proof.
  cbn zeta.
  assert (Hchecking : ∀ r q,
    Panels.isTradovateChecking
      (Panels.checkTradovateConnection_settled r q) = false).
  { intros r q. unfold Panels.checkTradovateConnection_settled.
    destruct r as [h | e]; [| done ].
    by destruct (get_prop h "authenticated"). }
  unfold Panels.checkTradovateConnection, Endpoints.getTradingHealth,
    Api.apiClient_call.
  destruct transport as [r | e].
  2: { destruct (Api.interceptor_api e b) as [e' b']. cbn [fst].
       health_failed_case Hchecking.
       split; [ by right |]. split; [ done |].
       split; [ done | by intros (? & ? & ? & ? & _) ]. }
  cbn [fst]. unfold Endpoints.trading_health_of.
  destruct (Endpoints.as_array "services" "find" (Api.data r))
    as [items | e] eqn:Harr; cbn [Endpoints.and_then fst snd].
  2: { health_failed_case Hchecking.
       split; [ by right |]. split; [ done |].
       split; [ done |]. intros (r' & items & svc & [= <-] & Hd & _).
       rewrite Hd in Harr. discriminate Harr. }
  assert (Hdata : Api.data r = Some (JArr items)).
  { unfold Endpoints.as_array in Harr.
    destruct (Api.data r) as [[| | | | |] |]; try discriminate Harr.
    by injection Harr as ->. }
  destruct (Endpoints.find_named "tradovate-service" items)
    as [[svc |] | e] eqn:Hfind; cbn [Endpoints.and_then fst snd].
  - destruct (find_named_object _ _ _ Hfind) as [o ->].
    cbn [truthy].
    destruct (strict_eq (get_prop_opt (Some (JObj o)) "status")
                        (Some (JStr "running"))) eqn:Hrun.
    + split; [ by left |]. split; [ apply Hchecking |].
      split; [| done ].
      intros _. exists r, items, (JObj o).
      by apply strict_eq_string in Hrun.
    + split; [ by right |]. split; [ apply Hchecking |].
      split; [ done |].
      intros (r' & items' & svc & [= <-] & Hd & Hf & Hs).
      rewrite Hdata in Hd. injection Hd as <-.
      rewrite Hfind in Hf. injection Hf as <-.
      apply strict_eq_string in Hs. congruence.
  - health_failed_case Hchecking.
    split; [ by right |]. split; [ done |]. split; [ done |].
    intros (r' & items' & svc & [= <-] & Hd & Hf & _).
    rewrite Hdata in Hd. injection Hd as <-. congruence.
  - health_failed_case Hchecking.
    split; [ by right |]. split; [ done |]. split; [ done |].
    intros (r' & items' & svc & [= <-] & Hd & Hf & _).
    rewrite Hdata in Hd. injection Hd as <-. congruence.
Qed.

Lemma tradovate_check_outcomes_witness :
  Panels.tradovateStatus
    (Panels.checkTradovateConnection Inputs2.services_ok Samples.logged_in
       Panels.initial_panel).1 = "connected".
Proof.
  apply (proj2 (proj2 (tradovate_check_outcomes Inputs2.services_ok
                         Samples.logged_in Panels.initial_panel))).
  eexists _, _, _. repeat split; reflexivity.
Defined.

(** A quotes request that fails, or whose body is empty, replaces the
    quotes of the store by the empty map: every quote held is dropped. *)
Theorem failed_quotes_load_empties_quotes
    (transport : Api.settled Api.axios_response) (b : Api.browser)
    (s : Dashboard.state) :
  match transport with
  | Api.Fulfilled r => truthy (Api.data r) = false
  | Api.Rejected _ => True
  end →
  (Panels.refreshQuotes transport b s).1 = Some (Dashboard.setQuotes ∅ s).
Proof.
  unfold Panels.refreshQuotes, Endpoints.getQuotes, Api.apiClient_call.
  destruct transport as [r | e].
  - intros Hfalsy. cbn [fst]. unfold Panels.loadQuotes, js_or.
    by rewrite Hfalsy.
  - intros _. by destruct (Api.interceptor_api e b).
Qed.

Lemma failed_quotes_load_empties_quotes_witness :
  Dashboard.quotes
    <$> (Panels.refreshQuotes (Api.Rejected Samples.error_timeout)
           Samples.logged_in
           (Dashboard.handleMarketData Samples.quote_tick
              Dashboard.initial_state)).1
  = Some ∅.
Proof.
  rewrite (failed_quotes_load_empties_quotes
             (Api.Rejected Samples.error_timeout) Samples.logged_in
             (Dashboard.handleMarketData Samples.quote_tick
                Dashboard.initial_state) I).
  reflexivity.
Defined.

End Requests.

(** ** Snapshots through the backend client *)

Section Snapshots.

Lemma read_collection_array k (items : list json) :
  Panels.read_collection k (Some (JArr items))
  = Some (Dashboard.Body None).
Proof. reflexivity. Qed.

(** [api.getAccountOrders] resolves to an array, and the refresh reads
    the [orders] member of what it resolves to: so a REST refresh never
    brings an order into the store.  After it the orders are what they were,
    or none; and whenever the dashboard request succeeds, the positions
    answer is not empty and no held order is enriched, the orders are
    emptied. *)
Theorem rest_refresh_never_loads_orders
    (account : jsv)
    (positionsTransport dashboardTransport : Api.settled Api.axios_response)
    (b b' : Api.browser) (s s' : Dashboard.state) :
  Panels.refreshOrdersAndPositions account positionsTransport
    dashboardTransport b s = Some (s', b') →
  (Dashboard.orders s' = Dashboard.orders s ∨ Dashboard.orders s' = []) ∧
  (∀ id items,
     get_prop account "id" = Some id →
     (Endpoints.getAccountOrders id dashboardTransport
        (Api.apiClient_call positionsTransport b).2).1
       = Api.Fulfilled items →
     (∀ v, (Api.apiClient_call positionsTransport b).1 = Api.Fulfilled v →
           get_prop v "positions" ≠ None) →
     Dashboard.some_enriched (Dashboard.orders s) = false →
     Dashboard.orders s' = []).
Proof.
  unfold Panels.refreshOrdersAndPositions.
  destruct (get_prop account "id") as [id |] eqn:Hid.
  2: { intros [= <- <-]. split; [ by left | done ]. }
  destruct (Api.apiClient_call positionsTransport b) as [pv b1] eqn:Hp.
  destruct (Endpoints.getAccountOrders id dashboardTransport b1)
    as [ov b2] eqn:Ho.
  destruct (Panels.read_settled "positions" pv) as [p |] eqn:Hrp;
    [| done ].
  cbn [mbind option_bind].
  destruct ov as [items | e]; cbn [Panels.read_settled].
  - rewrite read_collection_array. cbn [fmap option_fmap option_map mbind option_bind].
    intros [= <- <-].
    unfold Dashboard.loadOrdersAndPositions. rewrite Hid.
    destruct p as [[| pitems] | pe];
      cbn [Dashboard.orders Dashboard.setOrders Dashboard.setPositions
           Dashboard.or_empty].
    + split; [ by left |].
      intros id' items' [= <-] _ Hpos _. exfalso.
      destruct pv as [v | ?]; [| done ].
      cbn in Hrp. unfold Panels.read_collection in Hrp.
      specialize (Hpos v eq_refl).
      destruct (get_prop v "positions") as [f |]; [| done ].
      destruct (truthy f); [| done ].
      destruct f as [[| | | | l |] |]; try done.
      cbn in Hrp. by destruct (Panels.records_of l).
    + unfold Dashboard.orders_updater.
      destruct (Dashboard.some_enriched (Dashboard.orders s)) eqn:Hen;
        rewrite ?andb_true_r, ?andb_false_r.
      * destruct (0 <? length (Dashboard.orders s)); split;
          [ by left | done | by right | done ].
      * split; [ by right | done ].
    + unfold Dashboard.orders_updater.
      destruct (Dashboard.some_enriched (Dashboard.orders s)) eqn:Hen;
        rewrite ?andb_true_r, ?andb_false_r.
      * destruct (0 <? length (Dashboard.orders s)); split;
          [ by left | done | by right | done ].
      * split; [ by right | done ].
  - cbn [mbind option_bind]. intros [= <- <-].
    split.
    2: { intros id' items' [= <-] Hgo. cbn [snd] in Hgo.
         rewrite Ho in Hgo. discriminate Hgo. }
    left. unfold Dashboard.loadOrdersAndPositions. rewrite Hid.
    by destruct p as [[| pitems] | pe].
Qed.

Lemma rest_refresh_never_loads_orders_witness :
  Panels.refreshOrdersAndPositions Samples.account7 Inputs2.positions_ok
    Inputs2.dashboard_ok Samples.logged_in
    (Dashboard.setOrders [Samples.order_plain] Dashboard.initial_state)
  = Some (Dashboard.setPositions [Samples.position_held]
            Dashboard.initial_state, Samples.logged_in) ∧
  Dashboard.orders
    (Dashboard.setPositions [Samples.position_held] Dashboard.initial_state)
  = [].
Proof.
  split; [ reflexivity |].
  apply (proj2 (rest_refresh_never_loads_orders Samples.account7
           Inputs2.positions_ok Inputs2.dashboard_ok Samples.logged_in
           Samples.logged_in
           (Dashboard.setOrders [Samples.order_plain] Dashboard.initial_state)
           (Dashboard.setPositions [Samples.position_held]
              Dashboard.initial_state) eq_refl)
           (Some (JNum 7))
           [JObj (("accountId", JNum 7) :: Samples.order_plain)]);
    [ reflexivity | reflexivity | | reflexivity ].
  intros v [= <-]. discriminate.
Defined.

(** The accounts reach the callback of the dashboard unwrapped: it is
    called, with exactly the array the backend sent, when no account is
    selected, a callback is given, and the request succeeds with a non-empty
    array - and in no other case. *)
Theorem accounts_reach_callback
    (account : jsv) (onAccountsLoaded : bool)
    (transport : Api.settled Api.axios_response) (b : Api.browser)
    (l : list json) :
  Panels.loadAccountsIfNeeded account onAccountsLoaded
    (Endpoints.getAccounts transport b).1 = Some l
  ↔ truthy account = false ∧ onAccountsLoaded = true ∧ l ≠ [] ∧
    ∃ r, transport = Api.Fulfilled r ∧ Api.data r = Some (JArr l).
Proof.
  unfold Panels.loadAccountsIfNeeded, Endpoints.getAccounts,
    Api.apiClient_call.
  split.
  - intros H.
    destruct (truthy account) eqn:Ha, onAccountsLoaded;
      cbn [negb andb] in H; try done.
    destruct transport as [r | e];
      [| by destruct (Api.interceptor_api e b) ].
    cbn [fst Endpoints.accounts] in H.
    destruct (Api.data r) as [[| | | | items |] |] eqn:Hd; try done.
    destruct items as [| x items]; [ done |].
    cbn in H. injection H as <-.
    repeat split; [ done | by exists r ].
  - intros (Ha & -> & Hl & r & -> & Hd). rewrite Ha.
    cbn [negb andb fst Endpoints.accounts]. rewrite Hd.
    by destruct l.
Qed.

Lemma accounts_reach_callback_witness :
  Panels.loadAccountsIfNeeded (Some JNull) true
    (Endpoints.getAccounts Inputs2.accounts_ok Samples.logged_in).1
  = Some [ JObj [("id", JNum 5); ("name", JStr "SIM")];
           JObj [("id", JNum 7); ("name", JStr "DEMO")] ].
Proof.
  apply (accounts_reach_callback (Some JNull) true Inputs2.accounts_ok
           Samples.logged_in).
  repeat split; [ discriminate | eexists; split; reflexivity ].
Defined.

End Snapshots.

(** ** Records: writing and reading properties *)

Section Records.
Import Dashboard.

Lemma lookup_assign_eq k v o : lookup_prop k (assign k v o) = Some v.
Proof.
  induction o as [| [k' v'] o IH]; cbn; [ by rewrite String.eqb_refl |].
  destruct (String.eqb k k') eqn:Hk; cbn; by rewrite ?String.eqb_refl, ?Hk.
Qed.

Lemma lookup_assign_ne k k' v o :
  k' ≠ k → lookup_prop k' (assign k v o) = lookup_prop k' o.
Proof.
  intros Hne. apply String.eqb_neq in Hne as Hneb.
  induction o as [| [k2 v2] o IH]; cbn; [ by rewrite Hneb |].
  destruct (String.eqb k k2) eqn:Hk; cbn.
  - apply String.eqb_eq in Hk as <-. by rewrite Hneb.
  - by rewrite IH.
Qed.

Lemma lookup_remove_ne k k' o :
  k' ≠ k → lookup_prop k' (Panels.remove_prop k o) = lookup_prop k' o.
Proof.
  intros Hne. unfold Panels.remove_prop, obj in *.
  induction o as [| [k2 v2] o IH]; [ done |].
  rewrite filter_cons. cbn [fst].
  destruct (String.eqb k k2) eqn:Hk; cbn [negb].
  - rewrite decide_False by done. cbn.
    apply String.eqb_eq in Hk as <-.
    apply String.eqb_neq in Hne as ->. exact IH.
  - rewrite decide_True by done. cbn. by rewrite IH.
Qed.

Lemma lookup_assign_jsv_ne k k' v o :
  k' ≠ k → lookup_prop k' (Panels.assign_jsv k v o) = lookup_prop k' o.
Proof.
  intros Hne. destruct v; cbn;
    [ by apply lookup_assign_ne | by apply lookup_remove_ne ].
Qed.

Lemma lookup_prop_None k (o : obj) : lookup_prop k o = None ↔ k ∉ o.*1.
Proof.
  induction o as [| [k' v'] o IH]; cbn.
  - split; [ intros _; apply not_elem_of_nil | done ].
  - rewrite not_elem_of_cons.
    destruct (String.eqb_spec k k') as [-> | Hne].
    + split; [ done | by intros [] ].
    + rewrite IH. tauto.
Qed.

(** What a spread of a record leaves under each name: the value of the
    spread record where it has the name, the previous value elsewhere. *)
Lemma lookup_spread k (base event : obj) :
  NoDup event.*1 →
  lookup_prop k (spread base (Some (JObj event))) =
  match lookup_prop k event with
  | Some v => Some v
  | None => lookup_prop k base
  end.
Proof.
  unfold spread. cbn [own_props]. revert base.
  induction event as [| [k' v'] event IH]; intros base Hnd; [ done |].
  apply NoDup_cons in Hnd as [Hk' Hnd]. cbn [fold_left fst snd] in *.
  rewrite IH by done. cbn [lookup_prop].
  destruct (String.eqb_spec k k') as [-> | Hne].
  - apply lookup_prop_None in Hk' as ->. apply lookup_assign_eq.
  - destruct (lookup_prop k event); [ done |]. by apply lookup_assign_ne.
Qed.

(** A balance push event is merged into the summary the store holds:
    every member the event carries takes the event's value, every member it
    does not carry keeps its previous value, and [cached] and [dataAge] are
    set to [true] and [0] whatever the event says. *)
Theorem balance_push_merges_fields
    (account accountId : jsv) (prev event : obj) (s : state) :
  strict_eq accountId (get_prop_opt account "id") = true →
  accountSummary s = Some (JObj prev) →
  NoDup event.*1 →
  ∃ merged,
    accountSummary
      (handleAccountDataUpdated account
         (BalanceData accountId (Some (JObj event))) s)
      = Some (JObj merged) ∧
    lookup_prop "cached" merged = Some (JBool true) ∧
    lookup_prop "dataAge" merged = Some (JNum 0) ∧
    ∀ k, k ≠ "cached" → k ≠ "dataAge" →
         lookup_prop k merged =
         match lookup_prop k event with
         | Some v => Some v
         | None => lookup_prop k prev
         end.
Proof.
  intros Hacc Hprev Hnd.
  unfold handleAccountDataUpdated. rewrite Hacc, Hprev.
  cbn [truthy accountSummary setAccountSummary own_props].
  eexists. split; [ reflexivity |].
  split; [| split ].
  - rewrite lookup_assign_ne by discriminate. apply lookup_assign_eq.
  - apply lookup_assign_eq.
  - intros k Hc Hd. rewrite !lookup_assign_ne by done.
    by apply lookup_spread.
Qed.

Lemma balance_push_merges_fields_witness :
  ∃ merged,
    accountSummary
      (handleAccountDataUpdated Samples.account7
         (BalanceData (Some (JNum 7))
            (Some (JObj [("balance", JNum 1200); ("cached", JBool false)])))
         (setAccountSummary
            (Some (JObj [("balance", JNum 1000); ("equity", JNum 900)]))
            initial_state))
      = Some (JObj merged) ∧
    lookup_prop "cached" merged = Some (JBool true) ∧
    lookup_prop "balance" merged = Some (JNum 1200) ∧
    lookup_prop "equity" merged = Some (JNum 900).
Proof.
  destruct (balance_push_merges_fields Samples.account7 (Some (JNum 7))
              [("balance", JNum 1000); ("equity", JNum 900)]
              [("balance", JNum 1200); ("cached", JBool false)]
              (setAccountSummary
                 (Some (JObj [("balance", JNum 1000); ("equity", JNum 900)]))
                 initial_state))
    as (merged & Hm & Hc & _ & Hk);
    [ reflexivity | reflexivity
    | by apply (bool_decide_unpack (NoDup _)) |].
  exists merged. split; [ exact Hm |]. split; [ exact Hc |].
  split; [ by rewrite Hk | by rewrite Hk ].
Defined.

(** A summary that was just updated by a balance push carries
    [dataAge: 0], which the polling effect reads as "no data age": such a
    summary never counts as recent cached data, so with polling enabled, an
    account selected and Tradovate connected, the two-minute polling stays
    on.  A summary with [cached] set whose [dataAge] is a number counts as
    recent exactly when that number is not 0 and below five minutes. *)
Theorem pushed_summary_is_not_recent
    (account accountId d : jsv) (s : state) :
  strict_eq accountId (get_prop_opt account "id") = true →
  truthy (accountSummary s) = true →
  let summary :=
    accountSummary
      (handleAccountDataUpdated account (BalanceData accountId d) s) in
  Polling.hasRecentCachedData summary = Some false ∧
  Polling.polls true account "connected" summary
    = Some (truthy (get_prop_opt account "id")) ∧
  ∀ n o, lookup_prop "cached" o = Some (JBool true) →
         lookup_prop "dataAge" o = Some (JNum n) →
         Polling.hasRecentCachedData (Some (JObj o))
           = Some (negb (n =? 0)%Z && (n <? 300000)%Z).
Proof.
  intros Hacc Hprev. cbn zeta.
  unfold handleAccountDataUpdated. rewrite Hacc, Hprev.
  cbn [accountSummary setAccountSummary].
  assert (Hrecent : ∀ o,
    Polling.hasRecentCachedData
      (Some (JObj (assign "dataAge" (JNum 0) o))) = Some false).
  { intros o. unfold Polling.hasRecentCachedData, get_prop_opt.
    cbn [get_prop]. rewrite lookup_assign_eq.
    by destruct (truthy (lookup_prop "cached" _)). }
  split; [ apply Hrecent |].
  split.
  - unfold Polling.polls. rewrite Hrecent. cbn.
    by destruct (truthy (get_prop_opt account "id")).
  - intros n o Hc Hd. unfold Polling.hasRecentCachedData, get_prop_opt.
    cbn [get_prop]. rewrite Hc, Hd. cbn.
    by destruct (n =? 0)%Z.
Qed.

Lemma pushed_summary_is_not_recent_witness :
  Polling.hasRecentCachedData
    (accountSummary
       (handleAccountDataUpdated Samples.account7
          (BalanceData (Some (JNum 7)) (Some (JObj [("balance", JNum 1200)])))
          (setAccountSummary
             (Some (JObj [("balance", JNum 1000); ("cached", JBool true);
                          ("dataAge", JNum 5000)]))
             initial_state)))
  = Some false.
Proof.
  apply (pushed_summary_is_not_recent Samples.account7 (Some (JNum 7))
           (Some (JObj [("balance", JNum 1200)]))
           (setAccountSummary
              (Some (JObj [("balance", JNum 1000); ("cached", JBool true);
                           ("dataAge", JNum 5000)]))
              initial_state));
    reflexivity.
Defined.

End Records.

(** ** The relay panel and the health map *)

Section PanelProperties.

Lemma getRelayStatus_no_success transport b ob b' :
  Endpoints.getRelayStatus transport b = (Api.Fulfilled ob, b') →
  lookup_prop "success" ob = None.
Proof.
  unfold Endpoints.getRelayStatus.
  destruct (Api.apiClient_call transport b) as [[services | e] b1];
    [| done ].
  intros H. injection H as H _. revert H.
  destruct (Endpoints.as_array "services" "find" services) as [items | e];
    cbn [Endpoints.and_then]; [| done ].
  destruct (Endpoints.find_named "monitoring-service" items)
    as [[svc |] | e]; cbn [Endpoints.and_then]; [| | done ].
  - intros H. repeat case_match; by simplify_eq.
  - intros H. injection H as H. by subst ob.
Qed.

(** No request about the relay - the status check, start, stop, restart
    - ever changes what the panel shows as running state, URL or uptime:
    they can only write [lastError].  The three controls always write it,
    with the text of the error the client raises without sending anything;
    a status check that resolves changes nothing at all. *)
Theorem relay_requests_only_write_lastError
    (q : Panels.relay_request) (b : Api.browser) (p : Panels.panel)
    (o : obj) :
  Panels.relayStatus p = Some (JObj o) →
  ∃ o',
    Panels.relayStatus (Panels.relay_request_step q b p).1 = Some (JObj o') ∧
    (∀ k, k ≠ "lastError" → lookup_prop k o' = lookup_prop k o) ∧
    match q with
    | Panels.CheckRelay transport =>
        ∀ ob b', Endpoints.getRelayStatus transport b
                   = (Api.Fulfilled ob, b') →
                 (Panels.relay_request_step q b p).1 = p
    | _ =>
        lookup_prop "lastError" o' =
        Some (JStr "Relay control not needed - webhooks handled by monitoring service")
    end.
Proof.
  intros Hp.
  assert (Hwith : ∀ m,
    ∃ o', Panels.relayStatus (Panels.with_lastError m p) = Some (JObj o') ∧
          (∀ k, k ≠ "lastError" → lookup_prop k o' = lookup_prop k o) ∧
          (∀ j, m = Some j → lookup_prop "lastError" o' = Some j)).
  { intros m. unfold Panels.with_lastError, Panels.spread_with.
    rewrite Hp. cbn. eexists. split; [ reflexivity |]. split.
    - intros k Hk. by apply lookup_assign_jsv_ne.
    - intros j ->. apply lookup_assign_eq. }
  assert (Hcontrol :
    ∃ o', Panels.relayStatus
            (Panels.handleRelayControl Endpoints.relay_control p)
          = Some (JObj o') ∧
          (∀ k, k ≠ "lastError" → lookup_prop k o' = lookup_prop k o) ∧
          lookup_prop "lastError" o' =
          Some (JStr "Relay control not needed - webhooks handled by monitoring service")).
  { destruct (Hwith (Some (JStr
      "Relay control not needed - webhooks handled by monitoring service")))
      as (o' & Ho' & Hk & Hl).
    exists o'. split; [ exact Ho' |]. split; [ exact Hk | by apply Hl ]. }
  destruct q as [transport | | |]; cbn [Panels.relay_request_step fst];
    try exact Hcontrol.
  destruct (Endpoints.getRelayStatus transport b) as [[ob | e] b1] eqn:Hr;
    cbn [fst].
  - apply getRelayStatus_no_success in Hr as Hs.
    unfold Panels.checkRelayStatus. cbn [get_prop]. rewrite Hs.
    cbn [truthy]. exists o. by repeat split.
  - cbn [Panels.checkRelayStatus].
    destruct (Hwith (Api.message e)) as (o' & Ho' & Hk & _).
    exists o'. split; [ done |]. split; [ done |]. by intros ob b' [=].
Qed.

Lemma relay_requests_only_write_lastError_witness :
  ∃ o',
    Panels.relayStatus
      (Panels.relay_request_step Panels.StartRelay Samples.logged_in
         (Panels.handleRelayEvent Panels.RelayStarted
            Panels.initial_panel)).1 = Some (JObj o') ∧
    lookup_prop "isRunning" o' = Some (JBool true).
Proof.
  destruct (relay_requests_only_write_lastError Panels.StartRelay
              Samples.logged_in
              (Panels.handleRelayEvent Panels.RelayStarted
                 Panels.initial_panel)
              [("isRunning", JBool true); ("connectionUrl", JNull);
               ("lastError", JNull); ("uptime", JNum 0)] eq_refl)
    as (o' & Ho' & Hk & _).
  exists o'. split; [ exact Ho' |]. by rewrite Hk.
Defined.

End PanelProperties.

(** ** Microservice health *)

Section HealthMap.

Lemma read_not_null (s : json) (k : string) :
  s ≠ JNull →
  Endpoints.read (Some s) k = Api.Fulfilled (get_prop_opt (Some s) k).
Proof. intros Hs. unfold Endpoints.read, get_prop_opt. by destruct s. Qed.

(** The entry of a service that is not [null]. *)
Lemma health_entry_not_null (s : json) (now : string) :
  s ≠ JNull →
  ∃ h, Polling.health_entry s now
       = Api.Fulfilled (ToString (get_prop_opt (Some s) "name"), h) ∧
       Panels.details h = Some s ∧
       (Panels.status h = "healthy" ↔
        get_prop_opt (Some s) "status" = Some (JStr "running")) ∧
       (Panels.status h = "healthy" ∨ Panels.status h = "unhealthy").
Proof.
  intros Hs. unfold Polling.health_entry.
  rewrite read_not_null by done. cbn [Endpoints.and_then].
  eexists. split; [ reflexivity |]. cbn [Panels.details Panels.status].
  split; [ done |].
  destruct (strict_eq (get_prop_opt (Some s) "status")
                      (Some (JStr "running"))) eqn:Hrun.
  - apply strict_eq_string in Hrun. split; [ done | by left ].
  - split; [| by right ]. split; [ done |].
    intros H%strict_eq_string. congruence.
Qed.

(** What [forEach] leaves in the map it fills. *)
Lemma health_state_entries (items : list json) (now : string)
    (acc : gmap string Panels.health) :
  Forall (λ s, s ≠ JNull) items →
  ∃ m, Polling.health_state items now acc = Api.Fulfilled m ∧
       (∀ k, is_Some (acc !! k) → is_Some (m !! k)) ∧
       (∀ s, s ∈ items →
             is_Some (m !! ToString (get_prop_opt (Some s) "name"))) ∧
       (∀ k h, m !! k = Some h →
               acc !! k = Some h ∨
               ∃ s, s ∈ items ∧
                    Polling.health_entry s now = Api.Fulfilled (k, h)).
Proof.
  intros Hitems. revert acc.
  induction Hitems as [| s items Hs _ IH]; intros acc.
  - exists acc. split; [ done |]. split; [ done |].
    split; [ by intros s Hin%elem_of_nil | by left ].
  - destruct (health_entry_not_null s now Hs) as (h & He & _).
    cbn [Polling.health_state]. rewrite He. cbn [Endpoints.and_then fst snd].
    destruct (IH (<[ToString (get_prop_opt (Some s) "name") := h]> acc))
      as (m & Hm & Hkeep & Hin & Hfrom).
    exists m. split; [ exact Hm |]. split; [| split ].
    + intros k Hk. apply Hkeep.
      rewrite lookup_insert. case_decide; [ by eexists | done ].
    + intros s' [-> | Hs']%elem_of_cons; [| by apply Hin ].
      apply Hkeep. rewrite lookup_insert_eq. by eexists.
    + intros k h' Hk. destruct (Hfrom k h' Hk) as [Hacc | (s' & Hs' & He')].
      * rewrite lookup_insert in Hacc. case_decide as Hd.
        -- injection Hacc as <-. right. exists s. subst k.
           split; [ apply list_elem_of_here | done ].
        -- by left.
      * right. exists s'. split; [ by apply list_elem_of_further | done ].
Qed.

(** After a health check that succeeds, the health map holds exactly the
    services of the answer, whatever it held before: every listed service
    has an entry under its name, and every entry was built from a listed
    service of that name, is [healthy] exactly when that service's status
    is [running], and is [unhealthy] otherwise. *)
Theorem health_check_lists_services
    (items : list json) (now : string) (p : Panels.panel) :
  Forall (λ s, s ≠ JNull) items →
  let m := Panels.microserviceHealth
             (Polling.checkMicroserviceHealth
                (Api.Fulfilled (Some (JArr items))) now p) in
  (∀ s, s ∈ items →
        is_Some (m !! ToString (get_prop_opt (Some s) "name"))) ∧
  (∀ k h, m !! k = Some h →
     ∃ s, s ∈ items ∧
          ToString (get_prop_opt (Some s) "name") = k ∧
          Panels.details h = Some s ∧
          (Panels.status h = "healthy" ↔
           get_prop_opt (Some s) "status" = Some (JStr "running")) ∧
          (Panels.status h = "healthy" ∨ Panels.status h = "unhealthy")).
Proof.
  intros Hitems. cbn zeta.
  unfold Polling.checkMicroserviceHealth.
  cbn [Endpoints.and_then Endpoints.as_array].
  destruct (health_state_entries items now ∅ Hitems)
    as (m & Hm & _ & Hin & Hfrom).
  rewrite Hm. cbn [Panels.microserviceHealth Panels.setMicroserviceHealth].
  split; [ exact Hin |].
  intros k h Hk. destruct (Hfrom k h Hk) as [Hempty | (s & Hs & He)].
  { by rewrite lookup_empty in Hempty. }
  exists s. split; [ exact Hs |].
  assert (Hnn : s ≠ JNull).
  { by eapply Forall_forall in Hitems. }
  destruct (health_entry_not_null s now Hnn) as (h' & He' & Hd & Hst & Hor).
  rewrite He' in He. injection He as <- <-. done.
Qed.

Lemma health_check_lists_services_witness :
  Forall (λ s, s ≠ JNull) Inputs3.two_services ∧
  is_Some
    (Panels.microserviceHealth
       (Polling.checkMicroserviceHealth
          (Api.Fulfilled (Some (JArr Inputs3.two_services)))
          "2025-01-01T00:00:00.000Z" Panels.initial_panel)
       !! "tradovate-service").
Proof.
  assert (Hnn : Forall (λ s, s ≠ JNull) Inputs3.two_services)
    by (repeat constructor; discriminate).
  split; [ exact Hnn |].
  apply (proj1 (health_check_lists_services Inputs3.two_services
                  "2025-01-01T00:00:00.000Z" Panels.initial_panel Hnn)
           (JObj [("name", JStr "tradovate-service");
                  ("status", JStr "stopped"); ("error", JStr "crashed")])).
  apply list_elem_of_further, list_elem_of_here.
Defined.




End HealthMap.

(** ** The critical-status timer *)

Section CriticalTimer.

Import Polling.

(** The effect keeps the timer consistent - it never starts a second
    timer and never drops the id of a running one - and once it has run on
    a status that is set, a timer runs exactly when the status shows an open
    order or position.  On a status that is not set it does nothing. *)
Theorem critical_timer_follows_open_items
    (criticalStatus : jsv) (fresh : nat) (timers timers' : gset nat)
    (p p' : Panels.panel) :
  fresh ≠ 0 →
  timer_consistent p timers →
  Polling.critical_polling_effect criticalStatus fresh timers p
    = Some (p', timers') →
  timer_consistent p' timers' ∧
  (truthy criticalStatus = false → p' = p ∧ timers' = timers) ∧
  (truthy criticalStatus = true →
     ∀ active, Polling.hasActiveItems criticalStatus = Some active →
               (is_Some (Panels.criticalStatusInterval p') ↔ active = true)).
Proof.
  intros Hfresh Hcons. unfold Polling.critical_polling_effect.
  destruct (truthy criticalStatus); cbn [negb].
  2: { intros [= <- <-]. by repeat split. }
  destruct (Polling.hasActiveItems criticalStatus) as [active |];
    cbn [mbind option_bind]; [| done ].
  unfold timer_consistent in Hcons |- *.
  destruct (Panels.criticalStatusInterval p) as [id |] eqn:Hint;
    cbn [Polling.interval_set].
  - destruct Hcons as [Hid ->].
    apply Nat.eqb_neq in Hid as Hidb. rewrite Hidb. cbn [negb].
    rewrite andb_false_r, andb_true_r.
    destruct active; cbn [negb].
    + intros [= <- <-]. rewrite Hint.
      split; [ by apply Nat.eqb_neq in Hidb |].
      split; [ done |]. intros _ active [= <-]. by split; [| eexists ].
    + intros [= <- <-]. cbn [Panels.criticalStatusInterval
                             Panels.setCriticalStatusInterval].
      split; [ apply difference_diag_L |]. split; [ done |].
      intros _ active [= <-]. split; [ by intros [? [=]] | done ].
  - subst timers. rewrite andb_true_r, andb_false_r.
    destruct active.
    + intros [= <- <-]. cbn [Panels.criticalStatusInterval
                             Panels.setCriticalStatusInterval].
      split; [ split; [ done | apply (right_id_L ∅ (∪)) ] |].
      split; [ done |].
      intros _ active [= <-]. by split; [| eexists ].
    + intros [= <- <-]. rewrite Hint.
      split; [ done |]. split; [ done |].
      intros _ active [= <-]. split; [ by intros [? [=]] | done ].
Qed.

Lemma critical_timer_follows_open_items_witness :
  Polling.critical_polling_effect Inputs3.status_with_order 3 ∅
    Panels.initial_panel
  = Some (Panels.setCriticalStatusInterval (Some 3) Panels.initial_panel,
          {[3]} ∪ ∅) ∧
  timer_consistent
    (Panels.setCriticalStatusInterval (Some 3) Panels.initial_panel)
    ({[3]} ∪ ∅).
Proof.
  split; [ reflexivity |].
  apply (critical_timer_follows_open_items Inputs3.status_with_order 3 ∅
           ({[3]} ∪ ∅) Panels.initial_panel
           (Panels.setCriticalStatusInterval (Some 3) Panels.initial_panel));
    [ discriminate | reflexivity | reflexivity ].
Defined.

End CriticalTimer.

(** ** [apiUtils] *)

Section ApiUtils.
Local Open Scope Z_scope.

(** Counting the hours of the week from Sunday 00:00, the trading
    session is active exactly from hour 18 (Sunday 18:00) up to, not
    including, hour 137 (Friday 17:00): one unbroken window, closed for the
    remaining 49 hours. *)
Theorem trading_session_is_one_window (day hour : Z) :
  0 ≤ day ≤ 6 → 0 ≤ hour ≤ 23 →
  Utils.isTradingSessionActive day hour = true
  ↔ 18 ≤ day * 24 + hour < 137.
Proof.
  intros Hday Hhour. unfold Utils.isTradingSessionActive.
  destruct (Z.eqb_spec day 0), (Z.ltb_spec hour 18), (Z.eqb_spec day 6),
    (Z.eqb_spec day 5), (Z.leb_spec 17 hour); cbn; split; (done || lia).
Qed.

Lemma trading_session_is_one_window_witness :
  0 ≤ 5 ≤ 6 ∧ 0 ≤ 17 ≤ 23 ∧ Utils.isTradingSessionActive 5 17 ≠ true.
Proof.
  split; [ lia |]. split; [ lia |].
  intros H.
  apply (trading_session_is_one_window 5 17) in H; lia.
Defined.

(** An order form whose quantity is a number is accepted - no error at
    all - exactly when the account id, the symbol and the action are truthy
    and the quantity is above 0; a form without a quantity is never
    accepted. *)
Theorem order_data_accepted_iff (orderData : obj) :
  (∀ n, lookup_prop "quantity" orderData = Some (JNum n) →
        (Utils.validateOrderData orderData = Some []
         ↔ truthy (lookup_prop "accountId" orderData) = true ∧
           truthy (lookup_prop "symbol" orderData) = true ∧
           truthy (lookup_prop "action" orderData) = true ∧
           0 < n)) ∧
  (lookup_prop "quantity" orderData = None →
     ∃ errors, Utils.validateOrderData orderData = Some errors ∧
               "Quantity must be greater than 0" ∈ errors).
Proof.
  unfold Utils.validateOrderData, Utils.bad_quantity. split.
  - intros n ->. cbn [truthy Utils.at_most_zero].
    destruct (Z.eqb_spec n 0) as [-> | Hn0]; cbn [negb mbind option_bind].
    + destruct (truthy (lookup_prop "accountId" orderData)),
        (truthy (lookup_prop "symbol" orderData)),
        (truthy (lookup_prop "action" orderData)); cbn;
        split; (done || (intros (? & ? & ? & ?); (done || lia))).
    + destruct (Z.leb_spec n 0);
        destruct (truthy (lookup_prop "accountId" orderData)),
          (truthy (lookup_prop "symbol" orderData)),
          (truthy (lookup_prop "action" orderData)); cbn;
        split; (done || lia || (intros (? & ? & ? & ?); (done || lia))).
  - intros ->. cbn [truthy negb mbind option_bind].
    eexists. split; [ reflexivity |].
    rewrite !elem_of_app. right. right. right. apply list_elem_of_here.
Qed.

Lemma order_data_accepted_iff_witness :
  lookup_prop "quantity" Inputs3.order_form = Some (JNum 2) ∧
  Utils.validateOrderData Inputs3.order_form = Some [].
Proof.
  split; [ reflexivity |].
  apply (proj1 (order_data_accepted_iff Inputs3.order_form) 2 eq_refl).
  repeat split; lia.
Defined.

End ApiUtils.

(** ** The message buffer of the socket hook *)

Section MessageBuffer.

Lemma slice_from_negative {A} (n : nat) (l : list A) :
  0 < n → Hooks.slice_from (- Z.of_nat n) l = drop (length l - n) l.
Proof.
  intros Hn. unfold Hooks.slice_from.
  destruct (Z.ltb_spec (- Z.of_nat n) 0); [| lia ].
  f_equal. lia.
Qed.

(** With a capacity of at least 2 the buffer keeps the newest entries:
    after [addMessage] it holds the last [maxMessages - 1] previous messages
    (all of them when there are fewer) followed by the new one, so never
    more than [maxMessages]. *)
Theorem message_buffer_keeps_newest
    (maxMessages : Z) (message : jsv) (id : json) (now : string)
    (prev : list obj) :
  (2 ≤ maxMessages)%Z →
  let next := Hooks.addMessage maxMessages message id now prev in
  let kept := Nat.min (length prev) (Z.to_nat (maxMessages - 1)) in
  next = drop (length prev - kept) prev ++
         [Dashboard.assign "timestamp" (JStr now)
            (Dashboard.assign "id" id (Dashboard.own_props message))] ∧
  length next = kept + 1 ∧
  (Z.of_nat (length next) ≤ maxMessages)%Z.
Proof.
  intros Hm. cbn zeta. unfold Hooks.addMessage.
  replace (- (maxMessages - 1))%Z
    with (- Z.of_nat (Z.to_nat (maxMessages - 1)))%Z by lia.
  rewrite slice_from_negative by lia.
  set (c := Z.to_nat (maxMessages - 1)).
  assert (Hdrop : length prev - Nat.min (length prev) c = length prev - c)
    by lia.
  rewrite Hdrop. split; [ done |].
  rewrite length_app, length_drop. cbn [length]. subst c. lia.
Qed.

Lemma message_buffer_keeps_newest_witness :
  (2 ≤ 50)%Z ∧
  length (Hooks.addMessage 50 (Some (JObj [("type", JStr "market_data")]))
            (JNum 1) "2025-01-01T00:00:00.000Z" Samples.full_log)
  = Nat.min (length Samples.full_log) (Z.to_nat (50 - 1)) + 1.
Proof.
  split; [ lia |].
  apply (message_buffer_keeps_newest 50
           (Some (JObj [("type", JStr "market_data")])) (JNum 1)
           "2025-01-01T00:00:00.000Z" Samples.full_log).
  lia.
Defined.


End MessageBuffer.

(** ** The account selection of [App] *)

Section AccountSelection.

(** The three tests of the default account come to one: the id prints as
    [33316485]. *)
Lemma is_default_ToString (id : jsv) :
  App.is_default id = String.eqb (ToString id) "33316485".
Proof.
  unfold App.is_default, strict_eq, prim_eqb.
  destruct id as [[| b | n | s | items | o] |]; try reflexivity.
  - destruct (Z.eqb_spec n 33316485) as [-> | Hn]; [ reflexivity |].
    by rewrite !orb_false_l.
  - unfold ToString, to_string. by destruct (String.eqb s "33316485").
Qed.

Lemma find_default_find_saved (accounts : list json) :
  App.find_default accounts = App.find_saved "33316485" accounts.
Proof.
  induction accounts as [| a rest IH]; [ done |].
  cbn [App.find_default App.find_saved].
  destruct (Endpoints.read (Some a) "id") as [id | e]; [| done ].
  cbn [Endpoints.and_then]. by rewrite is_default_ToString, IH.
Qed.

Lemma read_object (o : obj) (k : string) :
  Endpoints.read (Some (JObj o)) k
  = Api.Fulfilled (get_prop_opt (Some (JObj o)) k).
Proof. done. Qed.

Lemma find_saved_objects (s : string) (accounts : list json) :
  Forall (fun a => ∃ o, a = JObj o) accounts →
  App.find_saved s accounts = Api.Fulfilled undefined ∧
    Forall (fun a => ToString (get_prop_opt (Some a) "id") ≠ s) accounts
  ∨ ∃ o, App.find_saved s accounts = Api.Fulfilled (Some (JObj o)) ∧
         JObj o ∈ accounts ∧
         ToString (get_prop_opt (Some (JObj o)) "id") = s.
Proof.
  induction 1 as [| a rest [o ->] _ IH]; [ by left |].
  cbn [App.find_saved]. rewrite read_object. cbn [Endpoints.and_then].
  destruct (String.eqb_spec (ToString (get_prop_opt (Some (JObj o)) "id")) s)
    as [Heq | Hne].
  - right. exists o. split; [ done |]. split; [ apply list_elem_of_here | done ].
  - destruct IH as [[Hnone Hall] | (o' & Hfound & Hin & Hkey)].
    + left. split; [ done |]. by apply Forall_cons_2.
    + right. exists o'. split; [ done |].
      split; [ by apply list_elem_of_further | done ].
Qed.

Lemma log_ids_objects (accounts : list json) :
  Forall (fun a => ∃ o, a = JObj o) accounts →
  App.log_ids accounts = Api.Fulfilled tt.
Proof.
  induction 1 as [| a rest [o ->] _ IH]; [ done |].
  cbn [App.log_ids]. by rewrite read_object.
Qed.

Lemma find_saved_head (o : obj) (rest : list json) :
  App.find_saved (ToString (get_prop_opt (Some (JObj o)) "id"))
    (JObj o :: rest) = Api.Fulfilled (Some (JObj o)).
Proof.
  cbn [App.find_saved]. rewrite read_object. cbn [Endpoints.and_then].
  by rewrite String.eqb_refl.
Qed.

(** A saved id that is found is the choice. *)
Lemma targetAccount_found (s : string) (o : obj) (accounts : list json) :
  s ≠ EmptyString →
  App.find_saved s accounts = Api.Fulfilled (Some (JObj o)) →
  App.targetAccount (Some s) accounts = Api.Fulfilled (Some (JObj o)).
Proof.
  intros Hs Hfound. unfold App.targetAccount.
  change (default EmptyString (Some s)) with s.
  cbn [Auth.item_value truthy].
  destruct (String.eqb_spec s EmptyString) as [| _]; [ done |].
  cbn [negb]. by rewrite Hfound.
Qed.

(** Without a usable saved id the choice is the one made with an empty
    storage. *)
Lemma targetAccount_fallback (saved : option string) (accounts : list json) :
  truthy (Auth.item_value saved) = false
  ∨ App.find_saved (default EmptyString saved) accounts
    = Api.Fulfilled undefined →
  App.targetAccount saved accounts = App.targetAccount None accounts.
Proof.
  intros H. unfold App.targetAccount at 1.
  destruct (truthy (Auth.item_value saved)) eqn:Htruthy.
  - destruct H as [| ->]; [ done |]. done.
  - done.
Qed.

(** Among a non-empty list of account objects [loadAccountData] always
    finds a choice; it is one of the accounts; it is the saved one when the
    saved id names an account; and choosing again with the id of the choice
    saved gives the same account. *)
Lemma targetAccount_objects (saved : option string) (accounts : list json) :
  Forall (fun a => ∃ o, a = JObj o) accounts →
  accounts ≠ [] →
  ∃ o, App.targetAccount saved accounts = Api.Fulfilled (Some (JObj o)) ∧
       JObj o ∈ accounts ∧
       (∀ s, saved = Some s → s ≠ EmptyString →
             (∃ a, a ∈ accounts ∧ ToString (get_prop_opt (Some a) "id") = s) →
             ToString (get_prop_opt (Some (JObj o)) "id") = s) ∧
       App.targetAccount
         (Some (ToString (get_prop_opt (Some (JObj o)) "id"))) accounts
       = Api.Fulfilled (Some (JObj o)).
Proof.
  intros Hobjects Hnonempty.
  (* the choice made with an empty storage *)
  assert (Hdefault :
    ∃ o, App.targetAccount None accounts = Api.Fulfilled (Some (JObj o)) ∧
         JObj o ∈ accounts ∧
         App.targetAccount
           (Some (ToString (get_prop_opt (Some (JObj o)) "id"))) accounts
         = Api.Fulfilled (Some (JObj o))).
  { assert (Hnone : App.targetAccount None accounts =
      Endpoints.and_then (App.find_default accounts) (fun target =>
      Endpoints.and_then (App.log_ids accounts) (fun _ =>
        if negb (truthy target) then
          Endpoints.and_then (Endpoints.read (head accounts) "id") (fun _ =>
            Api.Fulfilled (head accounts))
        else Api.Fulfilled target))) by done.
    rewrite Hnone, find_default_find_saved, log_ids_objects by done.
    destruct (find_saved_objects "33316485" accounts Hobjects)
      as [[Hmissing _] | (o & Hfound & Hin & Hkey)].
    - rewrite Hmissing. cbn [Endpoints.and_then truthy negb undefined].
      destruct Hobjects as [| a rest [o ->] Hrest]; [ done |].
      cbn [head]. rewrite read_object. cbn [Endpoints.and_then].
      exists o. split; [ done |]. split; [ apply list_elem_of_here |].
      destruct (String.eqb_spec
                  (ToString (get_prop_opt (Some (JObj o)) "id")) EmptyString)
        as [Hempty | Hfull].
      + rewrite targetAccount_fallback.
        * rewrite Hnone, find_default_find_saved, Hmissing.
          cbn [Endpoints.and_then truthy negb undefined App.log_ids].
          rewrite read_object. cbn [Endpoints.and_then].
          rewrite log_ids_objects by done. cbn [Endpoints.and_then head].
          by rewrite read_object.
        * left. rewrite Hempty. done.
      + apply targetAccount_found; [ done | apply find_saved_head ].
    - rewrite Hfound. cbn [Endpoints.and_then truthy negb].
      exists o. split; [ done |]. split; [ done |].
      rewrite Hkey. by apply targetAccount_found. }
  destruct (truthy (Auth.item_value saved)) eqn:Htruthy.
  - destruct saved as [s |]; [| done ].
    assert (Hs : s ≠ EmptyString).
    { intros ->. done. }
    destruct (find_saved_objects s accounts Hobjects)
      as [[Hmissing Hall] | (o & Hfound & Hin & Hkey)].
    + destruct Hdefault as (o & Hchoice & Hin & Hagain).
      exists o. rewrite targetAccount_fallback by (by right).
      split; [ done |]. split; [ done |]. split; [| done ].
      intros s' [= <-] _ (a & Ha & Hkey).
      rewrite Forall_forall in Hall. by destruct (Hall a Ha).
    + exists o. rewrite (targetAccount_found s o) by done.
      split; [ done |]. split; [ done |].
      split; [ by intros s' [= <-] _ _ |].
      rewrite Hkey. by apply targetAccount_found.
  - destruct Hdefault as (o & Hchoice & Hin & Hagain).
    exists o. rewrite targetAccount_fallback by (by left).
    split; [ done |]. split; [ done |]. split; [| done ].
    intros s -> Hs _. cbn in Htruthy.
    destruct (String.eqb_spec s EmptyString); done.
Qed.

Lemma loadAccountData_objects
    (accounts : list json) (b : Api.browser) (a : App.app) (o : obj) :
  accounts ≠ [] →
  App.targetAccount (Auth.getItem Auth.SELECTED_ACCOUNT_KEY b) accounts
    = Api.Fulfilled (Some (JObj o)) →
  App.loadAccountData
    (Api.Fulfilled (Endpoints.AccountsResponse accounts)) b a
  = (App.AppState accounts (Some (JObj o)),
     Auth.setItem Auth.SELECTED_ACCOUNT_KEY
       (ToString (get_prop_opt (Some (JObj o)) "id")) b).
Proof.
  intros Hnonempty Hchoice. unfold App.loadAccountData.
  cbn [Endpoints.accounts]. rewrite Hchoice.
  destruct accounts; [ done |]. done.
Qed.

(** After [loadAccountData] has received a non-empty list of account
    objects, an account of the list is selected, its id is what the storage
    holds under [slingshot_selected_account], and when the id saved before
    names an account of the list, the selected account has that id. *)
Theorem loaded_selection_is_saved
    (accounts : list json) (b : Api.browser) (a : App.app) :
  Forall (fun x => ∃ o, x = JObj o) accounts →
  accounts ≠ [] →
  let loaded :=
    App.loadAccountData
      (Api.Fulfilled (Endpoints.AccountsResponse accounts)) b a in
  ∃ t, App.selectedAccount loaded.1 = Some t ∧
       t ∈ accounts ∧
       App.accounts loaded.1 = accounts ∧
       Auth.getItem Auth.SELECTED_ACCOUNT_KEY loaded.2
         = Some (ToString (get_prop_opt (Some t) "id")) ∧
       (∀ s, Auth.getItem Auth.SELECTED_ACCOUNT_KEY b = Some s →
             s ≠ EmptyString →
             (∃ x, x ∈ accounts ∧ ToString (get_prop_opt (Some x) "id") = s) →
             ToString (get_prop_opt (Some t) "id") = s).
Proof.
  intros Hobjects Hnonempty. cbn zeta.
  destruct (targetAccount_objects
              (Auth.getItem Auth.SELECTED_ACCOUNT_KEY b) accounts
              Hobjects Hnonempty) as (o & Hchoice & Hin & Hsaved & _).
  rewrite (loadAccountData_objects accounts b a o) by done.
  exists (JObj o). cbn [fst snd App.selectedAccount App.accounts].
  split; [ done |]. split; [ done |]. split; [ done |].
  split; [| done ].
  unfold Auth.getItem, Auth.setItem. cbn [Api.localStorage].
  apply lookup_insert_eq.
Qed.

Lemma loaded_selection_is_saved_witness :
  Auth.getItem Auth.SELECTED_ACCOUNT_KEY
    (App.loadAccountData
       (Api.Fulfilled (Endpoints.AccountsResponse Inputs3.two_accounts))
       Inputs3.saved_second App.initial_app).2 = Some "8".
Proof.
  destruct (loaded_selection_is_saved Inputs3.two_accounts
              Inputs3.saved_second App.initial_app) as (t & _ & _ & _ & Hkey & Hsaved).
  - repeat (apply Forall_cons_2; [ by eexists |]). apply Forall_nil_2.
  - done.
  - rewrite Hkey. f_equal. apply Hsaved; [ reflexivity | done |].
    exists (JObj [("id", JNum 8); ("name", JStr "LIVE")]).
    split; [| reflexivity ].
    apply list_elem_of_further, list_elem_of_here.
Defined.

(** Loading the same non-empty list of account objects a second time
    changes nothing: the selection and the storage stay as the first load
    left them. *)
Theorem selection_survives_reload
    (accounts : list json) (b : Api.browser) (a : App.app) :
  Forall (fun x => ∃ o, x = JObj o) accounts →
  accounts ≠ [] →
  let r := Api.Fulfilled (Endpoints.AccountsResponse accounts) in
  let loaded := App.loadAccountData r b a in
  App.loadAccountData r loaded.2 loaded.1 = loaded.
Proof.
  intros Hobjects Hnonempty. cbn zeta.
  destruct (targetAccount_objects
              (Auth.getItem Auth.SELECTED_ACCOUNT_KEY b) accounts
              Hobjects Hnonempty) as (o & Hchoice & Hin & _ & Hagain).
  rewrite (loadAccountData_objects accounts b a o) by done.
  cbn [fst snd].
  rewrite (loadAccountData_objects accounts _ _ o); [| done |].
  - f_equal. unfold Auth.setItem. cbn [Api.localStorage Api.reloaded].
    by rewrite insert_insert_eq.
  - unfold Auth.getItem, Auth.setItem. cbn [Api.localStorage].
    by rewrite lookup_insert_eq.
Qed.

Lemma selection_survives_reload_witness :
  let r := Api.Fulfilled (Endpoints.AccountsResponse Inputs3.two_accounts) in
  App.loadAccountData r
    (App.loadAccountData r Inputs3.saved_second App.initial_app).2
    (App.loadAccountData r Inputs3.saved_second App.initial_app).1
  = App.loadAccountData r Inputs3.saved_second App.initial_app.
Proof.
  apply (selection_survives_reload Inputs3.two_accounts
           Inputs3.saved_second App.initial_app).
  - repeat (apply Forall_cons_2; [ by eexists |]). apply Forall_nil_2.
  - done.
Defined.

End AccountSelection.

(** ** A log at its cap *)

Section FullLog.
Import Dashboard.

(** Once the log holds 100 entries, the handlers that append and then
    keep the first 100 no longer change it: after any burst of kill-switch,
    position-sizing, blocked-webhook, system and re-sync events the log is
    the one it was, entry for entry, while a single relay output cuts it
    down to its last 49 entries followed by the new one: the 51 oldest
    entries go, and 50 entries are left. *)
Theorem full_log_ignores_appended_entries
    (es : list log_event) (prev : list obj) :
  length prev = 100 →
  Forall (fun e => LogWriters.appends_then_slices e = true) es →
  log_run es prev = prev ∧
  ∀ data, log_update (RelayOutput data) prev
          = drop 51 prev ++
            [log_entry (lookup_prop "timestamp" data)
               (lookup_prop "type" data) (lookup_prop "data" data)] ∧
          length (log_update (RelayOutput data) prev) = 50 ∧
          last (log_update (RelayOutput data) prev)
          = Some (log_entry (lookup_prop "timestamp" data)
                    (lookup_prop "type" data) (lookup_prop "data" data)).
Proof.
  intros Hfull Hes. split.
  - unfold log_run. induction Hes as [| e es He _ IH]; [ done |].
    cbn [fold_left].
    assert (Hsame : log_update e prev = prev).
    { destruct e; try discriminate He; cbn [log_update];
        rewrite append_slice_to_100_full by lia;
        apply take_ge; lia. }
    by rewrite Hsame.
  - intros data. cbn [log_update]. split; [| split ].
    + unfold append_after_last_49, slice_last. by rewrite Hfull.
    + unfold append_after_last_49, slice_last.
      rewrite length_app, length_drop. cbn [length]. lia.
    + apply append_after_last_49_keeps_entry.
Qed.

Lemma full_log_ignores_appended_entries_witness :
  log_run [KillSwitchChanged false (Some (JStr "2025-01-01T00:00:00.000Z"));
           ReSyncCompleted "2025-01-01T00:00:01.000Z"] Samples.full_log
  = Samples.full_log.
Proof.
  apply (full_log_ignores_appended_entries
           [KillSwitchChanged false (Some (JStr "2025-01-01T00:00:00.000Z"));
            ReSyncCompleted "2025-01-01T00:00:01.000Z"] Samples.full_log).
  - reflexivity.
  - repeat (apply Forall_cons_2; [ reflexivity |]). apply Forall_nil_2.
Defined.

End FullLog.
